(** * OrcaSlicer Nozzle Variant Maker: the profile pipeline

    A shallow embedding of [orcaslicer_nozzle_variant_maker.py]: the
    profile scanner ([get_profile_groups]), the record transformer
    ([modify_profile_data]) and the batch converter ([process_profiles]),
    together with the Python string, dict, list, [pathlib] and [uuid]
    operations they call; then the functions around them: the console
    output ([delayed_print], [format_group_preview]), the discovery and
    the choice of a user profile ([find_user_profiles],
    [select_user_profile]), the backup ([backup_profiles]) and the
    rotation of the logs ([setup_logging]).

    Conventions.
    - Python [str] is [string]; the characters are 8-bit, and only ASCII
      characters count as digits or white space.  This is Python's
      behaviour on ASCII text ([is_ascii]); the statements that rest on
      it are made for such text.
    - Python objects that can be mutated (dict, list) live in a store and
      are denoted by their location; [dict.copy()] and every list display
      allocate.
    - A raised exception is a value of [exn]; a function that can raise
      returns an [outcome].
    - Logging and console output have no effect on the results and are
      left out of the functions that compute something; what
      [delayed_print] writes is modelled on its own. *)

From Stdlib Require Import ZArith NArith Ascii String Bool Lia DecimalString.
From Stdlib Require Import Sorting.Sorted Sorting.Permutation.
From stdpp Require Import base list strings.

(** ** Exceptions and outcomes *)

Inductive exn :=
  | AttributeError
  | TypeError
  | IndexError
  | KeyError
  | ValueError
  | JSONDecodeError
  | OSError
  | NozzleConversionError (msg : string).

Inductive outcome (A : Type) :=
  | Returned (a : A)
  | Raised (e : exn).
Arguments Returned {A} a.
Arguments Raised {A} e.

Global Instance outcome_ret : MRet outcome := fun _ a => Returned a.
Global Instance outcome_bind : MBind outcome := fun _ _ k m =>
  match m with
  | Returned a => k a
  | Raised e => Raised e
  end.

(** ** Python [str] methods *)

Module Str.

(** [str.isspace] on one ASCII character: TAB, LF, VT, FF, CR, FS, GS,
    RS, US and SPACE. *)
Definition is_space (c : ascii) : bool :=
  let n := nat_of_ascii c in
  ((9 <=? n) && (n <=? 13)) || ((28 <=? n) && (n <=? 32)).

(** [str.isdigit] on one ASCII character: [0] to [9]. *)
Definition is_digit (c : ascii) : bool :=
  let n := nat_of_ascii c in (48 <=? n) && (n <=? 57).

Fixpoint all_digits (s : string) : bool :=
  match s with
  | EmptyString => true
  | String c s' => is_digit c && all_digits s'
  end.

(** [s.isdigit()]: at least one character, and all of them digits. *)
Definition isdigit (s : string) : bool :=
  match s with
  | EmptyString => false
  | _ => all_digits s
  end.

(** [sub in s] *)
Fixpoint contains (sub s : string) : bool :=
  String.prefix sub s ||
  match s with
  | EmptyString => false
  | String _ s' => contains sub s'
  end.

(** [s.replace(old, new)] for a non-empty [old]: scan from the left; at
    an occurrence of [old] emit [new] and skip the rest of the
    occurrence ([skip] counts the characters still to skip). *)
Fixpoint replace_from (old new s : string) (skip : nat) : string :=
  match s with
  | EmptyString => EmptyString
  | String c s' =>
      match skip with
      | S k => replace_from old new s' k
      | O =>
          if String.prefix old s
          then new +:+ replace_from old new s' (String.length old - 1)
          else String c (replace_from old new s' 0)
      end
  end.

(** [s.replace("", new)]: [new] before every character and at the end. *)
Fixpoint intersperse (new s : string) : string :=
  match s with
  | EmptyString => new
  | String c s' => new +:+ String c (intersperse new s')
  end.

Definition replace (old new s : string) : string :=
  match old with
  | EmptyString => intersperse new s
  | _ => replace_from old new s 0
  end.

(** [s.replace(old, new, 1)] for a one-character [old]. *)
Fixpoint replace_first_char (old : ascii) (new s : string) : string :=
  match s with
  | EmptyString => EmptyString
  | String c s' =>
      if Ascii.eqb c old then new +:+ s' else String c (replace_first_char old new s')
  end.

Fixpoint lstrip (s : string) : string :=
  match s with
  | EmptyString => EmptyString
  | String c s' => if is_space c then lstrip s' else s
  end.

Fixpoint rstrip (s : string) : string :=
  match s with
  | EmptyString => EmptyString
  | String c s' =>
      match rstrip s' with
      | EmptyString => if is_space c then EmptyString else String c EmptyString
      | r => String c r
      end
  end.

(** [s.strip()] *)
Definition strip (s : string) : string := rstrip (lstrip s).

(** [s.split(sep)] for a one-character [sep]: never empty. *)
Fixpoint split (sep : ascii) (s : string) : list string :=
  match s with
  | EmptyString => [EmptyString]
  | String c s' =>
      if Ascii.eqb c sep then EmptyString :: split sep s'
      else match split sep s' with
           | p :: ps => String c p :: ps
           | [] => [String c EmptyString]
           end
  end.

(** [s.split()]: the maximal runs of characters that are not white space. *)
Fixpoint split_ws (s : string) : list string :=
  match s with
  | EmptyString => []
  | String c s' =>
      if is_space c then split_ws s'
      else match s' with
           | EmptyString => [String c EmptyString]
           | String d _ =>
               if is_space d then String c EmptyString :: split_ws s'
               else match split_ws s' with
                    | w :: ws => String c w :: ws
                    | [] => [String c EmptyString]
                    end
           end
  end.

(** [s.rfind(c)] for one character. *)
Fixpoint rfind (c : ascii) (s : string) : option nat :=
  match s with
  | EmptyString => None
  | String d s' =>
      match rfind c s' with
      | Some i => Some (S i)
      | None => if Ascii.eqb d c then Some 0 else None
      end
  end.

End Str.


(** ** [pathlib]: names, patterns and directories *)

(** [PurePath.stem] of a final path component: the name without its
    last suffix; a name whose only dot is the first or the last
    character has no suffix. *)
Definition stem (name : string) : string :=
  match Str.rfind "." name with
  | Some i =>
      if (0 <? i) && (i <? String.length name - 1)
      then String.substring 0 i name
      else name
  | None => name
  end.

(** [fnmatch] with the wildcards [*] (any run of characters) and [?]
    (any one character); every other character stands for itself.
    Bracket expressions are not covered: no pattern built below from a
    size accepted by [validate_nozzle_size] contains one. Matching is
    case sensitive, as on POSIX. *)
Fixpoint fnmatch (pat name : string) : bool :=
  match pat with
  | EmptyString => match name with EmptyString => true | _ => false end
  | String c p =>
      if Ascii.eqb c "*" then
        (fix star (n : string) : bool :=
           fnmatch p n ||
           match n with
           | EmptyString => false
           | String _ n' => star n'
           end) name
      else
        match name with
        | EmptyString => false
        | String d n => (Ascii.eqb c "?" || Ascii.eqb c d) && fnmatch p n
        end
  end.

(** ** JSON documents *)

Local Set Warnings "-register-all".

(** A parsed JSON document. A float is kept as its binary64 bit
    pattern; the program never computes with the numbers of a profile. *)
Inductive json :=
  | JNull
  | JBool (b : bool)
  | JInt (z : Z)
  | JFloat (bits : Z)
  | JStr (s : string)
  | JArr (items : list json)
  | JObj (members : list (string * json)).

(** What [json.load] makes of a file's text: a document, or a
    [JSONDecodeError]. *)
Inductive content :=
  | Garbled
  | JsonText (j : json).

Inductive entry :=
  | Subdirectory
  | RegularFile (c : content).

(** The entries of one directory, in the order the operating system
    lists them. A new file is listed last. *)
Definition directory := list (string * entry).

(** What a path denotes on the file system. *)
Inductive path_state :=
  | Missing
  | NotADirectory
  | Directory (d : directory).

Fixpoint lookup_entry (name : string) (d : directory) : option entry :=
  match d with
  | [] => None
  | (n, e) :: d' => if String.eqb n name then Some e else lookup_entry name d'
  end.

(** [(dir / name).exists()] *)
Definition path_exists (d : directory) (name : string) : bool :=
  match lookup_entry name d with
  | Some _ => true
  | None => false
  end.

(** The names [os.scandir] lists under a path; [Path.glob] scans only
    a path for which [is_dir()] holds and raises nothing otherwise. *)
Definition entry_names (p : path_state) : list string :=
  match p with
  | Directory d => map fst d
  | Missing | NotADirectory => []
  end.

(** [list(path.glob(pattern))] for a pattern of one component: the
    names that match, in listing order. Names that start with a dot are
    not treated specially. *)
Definition glob (p : path_state) (pattern : string) : list string :=
  List.filter (fnmatch pattern) (entry_names p).

(** ** The object store *)

Definition loc := nat.

Inductive value :=
  | VNone
  | VBool (b : bool)
  | VInt (z : Z)
  | VFloat (bits : Z)
  | VStr (s : string)
  | VRef (l : loc).

(** A dict keeps its keys in insertion order. *)
Inductive object :=
  | OList (items : list value)
  | ODict (items : list (string * value)).

Definition heap := list object.

Fixpoint dict_get (k : string) (d : list (string * value)) : option value :=
  match d with
  | [] => None
  | (k', v) :: d' => if String.eqb k' k then Some v else dict_get k d'
  end.

(** [d[k] = v]: overwrite in place, or add at the end. *)
Fixpoint dict_set (k : string) (v : value) (d : list (string * value))
  : list (string * value) :=
  match d with
  | [] => [(k, v)]
  | (k', v') :: d' =>
      if String.eqb k' k then (k', v) :: d' else (k', v') :: dict_set k v d'
  end.

(** The object a value refers to, if it refers to one. *)
Definition object_of (h : heap) (v : value) : option object :=
  match v with
  | VRef l => h !! l
  | _ => None
  end.

(** Computations on the store that may raise; the store survives an
    exception. *)
Definition py (A : Type) : Type := heap -> outcome A * heap.

Global Instance py_ret : MRet py := fun _ a h => (Returned a, h).
Global Instance py_bind : MBind py := fun _ _ k m h =>
  match m h with
  | (Returned a, h') => k a h'
  | (Raised e, h') => (Raised e, h')
  end.

Definition raise {A} (e : exn) : py A := fun h => (Raised e, h).

Definition alloc (o : object) : py value :=
  fun h => (Returned (VRef (length h)), h ++ [o]).

(** [x.copy()]: dicts and lists have the method, nothing else in a JSON
    document does. *)
Definition py_copy (x : value) : py value :=
  fun h =>
    match object_of h x with
    | Some o => alloc o h
    | None => raise AttributeError h
    end.

(** [x.get(key, default)] *)
Definition py_get (x : value) (key : string) (default : value) : py value :=
  fun h =>
    match object_of h x with
    | Some (ODict items) =>
        (Returned (match dict_get key items with Some v => v | None => default end), h)
    | _ => raise AttributeError h
    end.

(** [key in x] for a dict [x] *)
Definition py_contains (x : value) (key : string) : py bool :=
  fun h =>
    match object_of h x with
    | Some (ODict items) =>
        (Returned (match dict_get key items with Some _ => true | None => false end), h)
    | _ => raise TypeError h
    end.

(** [x[key]] for a dict [x] *)
Definition py_getitem (x : value) (key : string) : py value :=
  fun h =>
    match object_of h x with
    | Some (ODict items) =>
        match dict_get key items with
        | Some v => (Returned v, h)
        | None => raise KeyError h
        end
    | _ => raise TypeError h
    end.

(** [x[key] = v] for a dict [x] *)
Definition py_setitem (x : value) (key : string) (v : value) : py unit :=
  fun h =>
    match x, object_of h x with
    | VRef l, Some (ODict items) =>
        (Returned tt, <[l := ODict (dict_set key v items)]> h)
    | _, _ => raise TypeError h
    end.

(** [s.replace(old, new)]: a [str] method only; the result is a new
    string and the store is not touched. *)
Definition replace_in (old new : string) (s : value) : outcome value :=
  match s with
  | VStr s => Returned (VStr (Str.replace old new s))
  | _ => Raised AttributeError
  end.

Definition py_replace (s : value) (old new : string) : py value :=
  fun h => (replace_in old new s, h).

(** The one-character strings of a string, in order: what iterating
    over an ASCII [str] yields. *)
Fixpoint chars (s : string) : list value :=
  match s with
  | EmptyString => []
  | String c s' => VStr (String c EmptyString) :: chars s'
  end.

(** The elements [for y in x] visits: the items of a list, the keys of
    a dict, the characters of a string. *)
Definition py_iter (x : value) : py (list value) :=
  fun h =>
    match x with
    | VStr s => (Returned (chars s), h)
    | VRef _ =>
        match object_of h x with
        | Some (OList items) => (Returned items, h)
        | Some (ODict items) => (Returned (map (fun kv => VStr (fst kv)) items), h)
        | None => raise TypeError h
        end
    | _ => raise TypeError h
    end.

(** [x[0]] *)
Definition py_first (x : value) : py value :=
  fun h =>
    match x with
    | VStr (String c _) => (Returned (VStr (String c EmptyString)), h)
    | VStr EmptyString => raise IndexError h
    | VRef _ =>
        match object_of h x with
        | Some (OList (v :: _)) => (Returned v, h)
        | Some (OList []) => raise IndexError h
        | Some (ODict _) => raise KeyError h
        | None => raise TypeError h
        end
    | _ => raise TypeError h
    end.

(** ** [uuid.uuid4().hex] *)

(** [UUID(bytes=os.urandom(16), version=4).int], from the 16 random
    bytes read as a big-endian number. *)
Definition uuid4 (random_bytes : N) : N :=
  let int := (random_bytes mod 2 ^ 128)%N in
  let int := N.ldiff int (N.shiftl 0xc000 48) in
  let int := N.lor int (N.shiftl 0x8000 48) in
  let int := N.ldiff int (N.shiftl 0xf000 64) in
  N.lor int (N.shiftl 4 76).

Definition hex_digit (n : N) : ascii :=
  match String.get (N.to_nat n) "0123456789abcdef" with
  | Some c => c
  | None => "0"%char
  end.

(** ['%0*x' % (width, n)] for [n < 16 ^ width] *)
Fixpoint hex (width : nat) (n : N) : string :=
  match width with
  | O => EmptyString
  | S w => hex w (n / 16)%N +:+ String (hex_digit (n mod 16)%N) EmptyString
  end.

(** [f"PFUS{uuid.uuid4().hex[:16]}"] *)
Definition new_filament_id (random_bytes : N) : string :=
  "PFUS" +:+ String.substring 0 16 (hex 32 (uuid4 random_bytes)).

(** ** The record transformer *)

(** [modify_profile_data(data, source_size, target_size)], given the 16
    bytes that [uuid4] draws. Nothing after the draw can raise. *)
Definition modify_profile_data (data : value) (source_size target_size : string)
    (random_bytes : N) : py value :=
  modified ← py_copy data;
  original_name ← py_get data "name" (VStr "");
  new_name ← py_replace original_name source_size target_size;
  py_setitem modified "name" new_name;;
  has_printers ← py_contains modified "compatible_printers";
  (if has_printers : bool then
     original_printers ← py_getitem modified "compatible_printers";
     printers ← py_iter original_printers;
     renamed ← mapM (fun printer => py_replace printer source_size target_size) printers;
     new_printers ← alloc (OList renamed);
     py_setitem modified "compatible_printers" new_printers
   else mret tt);;
  default ← alloc (OList [VStr ""]);
  ids ← py_get data "filament_settings_id" default;
  original_id ← py_first ids;
  new_id ← alloc (OList [VStr (new_filament_id random_bytes)]);
  py_setitem modified "filament_settings_id" new_id;;
  mret modified.

(** ** [json.load] and [json.dump] *)

(** [json.load]: build the objects of a document in the store, the
    members of an object entering its dict in order (a repeated key keeps
    its first place and its last value). *)
Fixpoint load (j : json) : py value :=
  match j with
  | JNull => mret VNone
  | JBool b => mret (VBool b)
  | JInt z => mret (VInt z)
  | JFloat bits => mret (VFloat bits)
  | JStr s => mret (VStr s)
  | JArr items =>
      vs ← (fix load_items (js : list json) : py (list value) :=
              match js with
              | [] => mret []
              | j' :: js' => v ← load j'; vs ← load_items js'; mret (v :: vs)
              end) items;
      alloc (OList vs)
  | JObj members =>
      kvs ← (fix load_members (ms : list (string * json)) : py (list (string * value)) :=
               match ms with
               | [] => mret []
               | (k, j') :: ms' => v ← load j'; kvs ← load_members ms'; mret ((k, v) :: kvs)
               end) members;
      alloc (ODict (fold_left (fun d kv => dict_set (fst kv) (snd kv) d) kvs []))
  end.

(** The document [json.dump] writes for a value, following references
    at most [depth] deep; [None] when the value nests deeper (or refers
    to itself). *)
Fixpoint dump (depth : nat) (h : heap) (v : value) : option json :=
  match v with
  | VNone => Some JNull
  | VBool b => Some (JBool b)
  | VInt z => Some (JInt z)
  | VFloat bits => Some (JFloat bits)
  | VStr s => Some (JStr s)
  | VRef l =>
      match depth with
      | O => None
      | S depth' =>
          match h !! l with
          | Some (OList items) => JArr <$> mapM (dump depth' h) items
          | Some (ODict items) =>
              JObj <$> mapM (fun kv => pair (fst kv) <$> dump depth' h (snd kv)) items
          | None => None
          end
      end
  end.

(** A store of [n] objects without a reference cycle nests at most [n]
    deep. *)
Definition json_dump (h : heap) (v : value) : option json :=
  dump (length h) h v.

(** ** The batch converter *)

Record results := mk_results { success : nat; skipped : nat; errors : nat }.

(** [open(path, 'r')] followed by [json.load(f)] *)
Definition read_json (d : directory) (name : string) : outcome json :=
  match lookup_entry name d with
  | Some (RegularFile (JsonText j)) => Returned j
  | Some (RegularFile Garbled) => Raised JSONDecodeError
  | Some Subdirectory | None => Raised OSError
  end.

(** What one turn of the loop did with a file. *)
Inductive verdict :=
  | Created
  | Skipped
  | Failed (e : exn).

(** The state of a batch run: the directory, and how many times
    [os.urandom] was read. *)
Record world := mk_world { files : directory; draws : nat }.

Section Batch.

(** The random bytes: [urandom n] is the value of the [n]-th read. *)
Variable urandom : nat -> N.

Variables source_size target_size : string.

(** The body of the [try] in the loop of [process_profiles], for the
    file [name]. The objects of one file are dead after its turn, so
    each turn starts from the empty store. [open(new_path, 'w')]
    creates the file before [json.dump] runs. *)
Definition convert_file (w : world) (name : string) : verdict * world :=
  match read_json (files w) name with
  | Raised e => (Failed e, w)
  | Returned j =>
      let '(data, h) := load j [] in
      match data with
      | Raised e => (Failed e, w)
      | Returned data =>
          match modify_profile_data data source_size target_size
                  (urandom (draws w)) h with
          | (Raised e, _) => (Failed e, w)
          | (Returned new_data, h') =>
              let w := mk_world (files w) (S (draws w)) in
              let new_name := Str.replace source_size target_size name in
              if path_exists (files w) new_name then (Skipped, w)
              else
                match json_dump h' new_data with
                | Some j' =>
                    (Created,
                     mk_world (files w ++ [(new_name, RegularFile (JsonText j'))]) (draws w))
                | None =>
                    (Failed ValueError,
                     mk_world (files w ++ [(new_name, RegularFile Garbled)]) (draws w))
                end
          end
      end
  end.

(** The counter a verdict increments; both [except] clauses count an
    error. *)
Definition tally (r : results) (v : verdict) : results :=
  match v with
  | Created => mk_results (S (success r)) (skipped r) (errors r)
  | Skipped => mk_results (success r) (S (skipped r)) (errors r)
  | Failed _ => mk_results (success r) (skipped r) (S (errors r))
  end.

(** The [for profile_path in profile_files] loop. *)
Fixpoint convert_files (profile_files : list string) (r : results) (w : world)
  : results * world :=
  match profile_files with
  | [] => (r, w)
  | name :: rest =>
      let '(v, w') := convert_file w name in
      convert_files rest (tally r v) w'
  end.

(** [process_profiles(profile_base, source_size, target_size)] on a
    directory path whose state is [p]: the outcome, the state of the
    path afterwards and the number of random reads so far. *)
Definition process_profiles (p : path_state) (n : nat)
  : outcome results * path_state * nat :=
  let profile_files := glob p ("*" +:+ source_size +:+ "*.json") in
  match profile_files, p with
  | _ :: _, Directory d =>
      let '(r, w) := convert_files profile_files (mk_results 0 0 0) (mk_world d n) in
      (Returned r, Directory (files w), draws w)
  | _, _ =>
      (Raised (NozzleConversionError
                 ("🔍 No profiles found matching '" +:+ source_size +:+ "' nozzle size")),
       p, n)
  end.

End Batch.

(** [validate_nozzle_size(size)] *)
Definition validate_nozzle_size (size : string) : bool :=
  Str.isdigit (Str.replace_first_char "." "" size).

(** ** [float] of a decimal numeral *)

(** The binary64 nearest to [n / d] (ties to even), for [0 <= n] and
    [0 < d], as its bit pattern; on these values the order of the bit
    patterns is the order of the floats. *)
Definition binary64_of_ratio (n d : Z) : Z :=
  if (n =? 0)%Z then 0%Z
  else
    let scaled (e : Z) : Z * Z :=          (* n / d / 2^e as a fraction *)
      if (0 <=? e)%Z then (n, d * 2 ^ e)%Z else (n * 2 ^ (- e), d)%Z in
    let e0 := (Z.log2 n - Z.log2 d)%Z in
    let e := if (snd (scaled e0) <=? fst (scaled e0))%Z then e0 else (e0 - 1)%Z in
    let e := Z.max e (-1022) in
    let '(num, den) := scaled (e - 52)%Z in
    let m := (num / den)%Z in
    let r := (num mod den)%Z in
    let m := if (den <? 2 * r)%Z || ((den =? 2 * r)%Z && Z.odd m) then (m + 1)%Z else m in
    let bits := ((e + 1022) * 2 ^ 52 + m)%Z in
    Z.min bits 0x7ff0000000000000%Z.

Fixpoint digits_value (s : string) (acc : Z) : Z :=
  match s with
  | EmptyString => acc
  | String c s' => digits_value s' (10 * acc + (Z.of_nat (nat_of_ascii c) - 48))%Z
  end.

(** [float(s)] for a numeral written with digits and at most one dot
    (at least one digit); [ValueError] for any other string. [float]
    accepts more (signs, exponents, [inf]), but [get_profile_groups]
    calls it only on strings of digits and dots. *)
Definition py_float (s : string) : outcome Z :=
  match Str.split "." s with
  | [i] =>
      if Str.isdigit i then Returned (binary64_of_ratio (digits_value i 0) 1)
      else Raised ValueError
  | [i; f] =>
      if Str.all_digits i && Str.all_digits f && Str.isdigit (i +:+ f)
      then Returned (binary64_of_ratio (digits_value (i +:+ f) 0)
                                       (10 ^ Z.of_nat (String.length f)))
      else Raised ValueError
  | _ => Raised ValueError
  end.

(** ** Sorting *)

(** [a < b] on lists of floats: at the first place where they differ,
    or the shorter one when it is a prefix of the other. *)
Fixpoint key_lt (a b : list Z) : bool :=
  match a, b with
  | [], [] => false
  | [], _ :: _ => true
  | _ :: _, [] => false
  | x :: a', y :: b' => if (x =? y)%Z then key_lt a' b' else (x <? y)%Z
  end.

Section Sort.

Context {A K : Type}.
Variable lt : K -> K -> bool.

(** Put [x] before the first element that is not less than it. *)
Fixpoint insert_sorted (x : K * A) (l : list (K * A)) : list (K * A) :=
  match l with
  | [] => [x]
  | y :: l' => if lt (fst y) (fst x) then y :: insert_sorted x l' else x :: l
  end.

(** A stable sort (as [list.sort] is): elements with equal keys keep
    their order. *)
Fixpoint stable_sort (l : list (K * A)) : list (K * A) :=
  match l with
  | [] => []
  | x :: l' => insert_sorted x (stable_sort l')
  end.

(** [l.sort(key=key)]: the keys are computed first, once per element. *)
Definition sort_by_key (key : A -> outcome K) (l : list A) : outcome (list A) :=
  keys ← mapM key l;
  mret (map snd (stable_sort (zip keys l))).

End Sort.

(** ** The profile scanner *)

Definition ProfileGroups := list (string * list string).

(** [groups.setdefault(k, []).append(v)] *)
Fixpoint setdefault_append (k v : string) (groups : ProfileGroups) : ProfileGroups :=
  match groups with
  | [] => [(k, [v])]
  | (k', vs) :: g' =>
      if String.eqb k' k then (k', vs ++ [v]) :: g'
      else (k', vs) :: setdefault_append k v g'
  end.

(** The material and the variant [get_profile_groups] reads off a file
    name. *)
Definition material_and_variant (name : string) : string * string :=
  let parts := Str.split "@" (stem name) in
  let base_material := Str.strip (hd EmptyString parts) in
  let variant :=
    match parts with
    | _ :: p1 :: _ => Str.strip p1
    | _ => "default"
    end in
  (base_material, variant).

(** The key of the sort: [[float(y) for y in x.split() if
    y.replace('.','').isdigit()]] *)
Definition is_numeric_token (y : string) : bool :=
  Str.isdigit (Str.replace "." "" y).

Definition variant_sort_key (x : string) : outcome (list Z) :=
  mapM py_float (List.filter is_numeric_token (Str.split_ws x)).

(** The first loop of [get_profile_groups]. *)
Definition collect_groups (names : list string) : ProfileGroups :=
  fold_left (fun groups name =>
               let '(base_material, variant) := material_and_variant name in
               setdefault_append base_material variant groups)
            names [].

(** One turn of the second loop: [groups[material].sort(key=...)]. *)
Definition sort_group (g : string * list string) : outcome (string * list string) :=
  let '(material, variants) := g in
  sorted ← sort_by_key key_lt variant_sort_key variants;
  mret (material, sorted).

(** [get_profile_groups(profile_dir)]; the [except] clause logs and
    raises the same exception again. *)
Definition get_profile_groups (profile_dir : path_state) : outcome ProfileGroups :=
  let groups := collect_groups (glob profile_dir "*.json") in
  mapM sort_group groups.

(** ** Notions used in the statements *)

(** A size that stands for itself in a [glob] pattern. *)
Fixpoint glob_literal (s : string) : bool :=
  match s with
  | EmptyString => true
  | String c s' =>
      negb (Ascii.eqb c "*") && negb (Ascii.eqb c "?") && negb (Ascii.eqb c "[")
      && glob_literal s'
  end.

Definition is_str (v : value) : Prop := exists s, v = VStr s.

(** References of a value, resp. an object, stay below [n]. *)
Definition value_below (n : nat) (v : value) : Prop :=
  match v with
  | VRef l => l < n
  | _ => True
  end.

Definition object_below (n : nat) (o : object) : Prop :=
  match o with
  | OList items => Forall (value_below n) items
  | ODict items => Forall (fun kv => value_below n (snd kv)) items
  end.

(** Every object refers to older objects only, as in a store that
    [json.load] has filled. *)
Definition heap_ordered (h : heap) : Prop :=
  forall i o, h !! i = Some o -> object_below i o.

(** The fields [modify_profile_data] reads have the types the data model
    gives them: [name] a string, [compatible_printers] a list of
    strings, [filament_settings_id] a list with a first element. *)
Definition fields_typed (h : heap) (items : list (string * value)) : Prop :=
  (forall v, dict_get "name" items = Some v -> is_str v) /\
  (forall v, dict_get "compatible_printers" items = Some v ->
     exists l ps, v = VRef l /\ h !! l = Some (OList ps) /\ Forall is_str ps) /\
  (forall v, dict_get "filament_settings_id" items = Some v ->
     exists l x xs, v = VRef l /\ h !! l = Some (OList (x :: xs))).

(** [a <= b] on sort keys: [b] is not less than [a]. *)
Definition key_le (a b : list Z) : Prop := key_lt b a = false.

Definition is_directory (p : path_state) : bool :=
  match p with
  | Directory _ => true
  | Missing | NotADirectory => false
  end.

Definition total (r : results) : nat := success r + skipped r + errors r.

Definition add_error (r : results) : results :=
  mk_results (success r) (skipped r) (S (errors r)).

Definition is_hex_digit (c : ascii) : bool :=
  Str.is_digit c ||
  (let n := nat_of_ascii c in (97 <=? n) && (n <=? 102)).

Fixpoint all_hex (s : string) : bool :=
  match s with
  | EmptyString => true
  | String c s' => is_hex_digit c && all_hex s'
  end.

(** [str.isascii]: every character is below 128.  On such text a
    character of the embedding is a code point of the Python string, and
    [Str.is_space], [Str.is_digit] and [lower_char] are what
    [str.isspace], [str.isdigit] and [str.lower] are there. *)
Fixpoint is_ascii (s : string) : bool :=
  match s with
  | EmptyString => true
  | String c s' => (nat_of_ascii c <? 128) && is_ascii s'
  end.

(** The file [name] of the directory [d] holds a document that
    [modify_profile_data] accepts. *)
Definition transforms (source_size target_size : string) (d : directory)
    (name : string) : Prop :=
  exists j data h r m h',
    read_json d name = Returned j /\
    load j [] = (Returned data, h) /\
    modify_profile_data data source_size target_size r h = (Returned m, h').

(** ** Sample inputs *)

Definition sample_profile : json :=
  JObj [("name", JStr "Generic PLA 0.4");
        ("compatible_printers", JArr [JStr "Voron 0.4 nozzle"; JStr "Ender 0.4"]);
        ("filament_settings_id", JArr [JStr "Generic PLA 0.4"]);
        ("filament_type", JArr [JStr "PLA"])].

(** No [name], no [compatible_printers]. *)
Definition nameless_profile : json :=
  JObj [("filament_type", JArr [JStr "PLA"])].

(** An identifier list without an element. *)
Definition empty_id_profile : json :=
  JObj [("name", JStr "Generic PLA 0.4"); ("filament_settings_id", JArr [])].

Definition sample_file : entry := RegularFile (JsonText sample_profile).

(** A source profile next to an earlier conversion of it. *)
Definition converted_before : directory :=
  [("PLA@0.4.json", sample_file); ("PLA@0.8.json", sample_file)].

(** Profiles for 0.6 only, next to a text file named after another size. *)
Definition only_06 : directory :=
  [("notes0.4.txt", RegularFile Garbled);
   ("PLA@0.6.json", sample_file); ("PETG@0.6.json", sample_file)].

Definition one_garbled : directory :=
  [("PLA@0.4.json", sample_file);
   ("ABS@0.4.json", RegularFile Garbled);
   ("PETG@0.4.json", sample_file)].

Definition three_variants : directory :=
  [("PLA@1 mm.json", sample_file);
   ("PLA@0.4 mm.json", sample_file);
   ("PLA@0.8 mm.json", sample_file)].

Definition two_dots : directory := [("PLA@1.2.3.json", sample_file)].

Definition three_parts : directory := [("A@B@C.json", sample_file)].

Definition empty_id_file : directory :=
  [("PLA@0.4.json", RegularFile (JsonText empty_id_profile))].

Definition zero_draws : nat -> N := fun _ => 0%N.

(** The stores [json.load] builds for the sample documents; the
    document itself is the last object. *)
Definition sample_store : heap := Eval vm_compute in snd (load sample_profile []).
Definition nameless_store : heap := Eval vm_compute in snd (load nameless_profile []).
Definition empty_id_store : heap := Eval vm_compute in snd (load empty_id_profile []).

(** ** Console output *)

Definition newline : ascii := "010"%char.

(** [sep.join(parts)] *)
Fixpoint join (sep : string) (parts : list string) : string :=
  match parts with
  | [] => EmptyString
  | [p] => p
  | p :: ps => p +:+ sep +:+ join sep ps
  end.

(** [str(n)] for a natural number *)
Definition str_of_nat (n : nat) : string := NilZero.string_of_uint (Nat.to_uint n).

(** What [delayed_print] writes to standard output, [args] being what
    [str] makes of its positional arguments: every line of the joined
    text with a space before it. The program passes neither [sep] nor
    [end], which are then one space and one line feed. *)
Definition delayed_print (args : list string) (sep end_ : string) : string :=
  let output := join sep args in
  let spaced_output :=
    join (String newline "") (map (fun line => " " +:+ line) (Str.split newline output)) in
  spaced_output +:+ end_.

(** ** The preview of a grouping *)

Definition MAX_PREVIEW_GROUPS : nat := 3.
Definition MAX_PREVIEW_VARIANTS : nat := 3.

(** One turn of the loop of [format_group_preview]: the line of a
    material. *)
Definition preview_line (g : string * list string) : string :=
  let '(material, variants) := g in
  let variants_display := join ", " (take MAX_PREVIEW_VARIANTS variants) in
  let variants_display :=
    if MAX_PREVIEW_VARIANTS <? length variants
    then variants_display +:+ " (+" +:+ str_of_nat (length variants - MAX_PREVIEW_VARIANTS) +:+ ")"
    else variants_display in
  "  🌡️ " +:+ material +:+ ": " +:+ variants_display.

(** [format_group_preview(groups)] *)
Definition format_group_preview (groups : ProfileGroups) : string :=
  let preview := map preview_line (take MAX_PREVIEW_GROUPS groups) in
  let preview :=
    if MAX_PREVIEW_GROUPS <? length groups
    then preview ++ ["  📁 ... and " +:+ str_of_nat (length groups - MAX_PREVIEW_GROUPS)
                       +:+ " more materials"]
    else preview in
  join (String newline "") preview.

(** ** The file system as a tree *)

(** A path is the list of its components below the root; [p / name] is
    [p ++ [name]] and [p.parent] is [removelast p]. Symbolic links and
    permissions are not modelled. *)
Definition path := list string.

Inductive node :=
  | File (c : content)
  | Folder (children : list (string * node)).

Fixpoint lookup_node (name : string) (children : list (string * node)) : option node :=
  match children with
  | [] => None
  | (n, c) :: children' => if String.eqb n name then Some c else lookup_node name children'
  end.

(** What a path denotes under the node [fs]. *)
Fixpoint resolve (fs : node) (p : path) : option node :=
  match p with
  | [] => Some fs
  | name :: rest =>
      match fs with
      | Folder children =>
          match lookup_node name children with
          | Some c => resolve c rest
          | None => None
          end
      | File _ => None
      end
  end.

(** [p.is_dir()]: [False] for a missing path, never an exception. *)
Definition is_dir (fs : node) (p : path) : bool :=
  match resolve fs p with
  | Some (Folder _) => true
  | _ => false
  end.

(** Replace the child [name], or add it at the end of the listing. *)
Fixpoint set_child (name : string) (new : node) (children : list (string * node))
  : list (string * node) :=
  match children with
  | [] => [(name, new)]
  | (n, c) :: children' =>
      if String.eqb n name then (n, new) :: children'
      else (n, c) :: set_child name new children'
  end.

(** The tree with [new] at the path [p], whose parent has to be a
    directory. *)
Fixpoint put (fs : node) (p : path) (new : node) : option node :=
  match p with
  | [] => Some new
  | name :: rest =>
      match fs with
      | Folder children =>
          match rest with
          | [] => Some (Folder (set_child name new children))
          | _ :: _ =>
              match lookup_node name children with
              | Some c =>
                  match put c rest new with
                  | Some c' => Some (Folder (set_child name c' children))
                  | None => None
                  end
              | None => None
              end
          end
      | File _ => None
      end
  end.

Definition entry_of (n : node) : entry :=
  match n with
  | File c => RegularFile c
  | Folder _ => Subdirectory
  end.

(** The state of a path as the scanner and the converter see it. *)
Definition path_state_of (fs : node) (p : path) : path_state :=
  match resolve fs p with
  | None => Missing
  | Some (File _) => NotADirectory
  | Some (Folder children) => Directory (map (fun c => (fst c, entry_of (snd c))) children)
  end.

(** ** Finding the user profiles *)

Definition UserProfile : Type := string * path.

Section Discovery.

(** How the operating system writes a path ([str(path)]). *)
Variable path_str : path -> string.

(** [find_user_profiles(base_dir)]. [iterdir] raises [FileNotFoundError]
    on a missing path, which the [except] clause turns into a
    [NozzleConversionError]; on a file it raises [NotADirectoryError],
    which no clause catches ([OSError] stands for it). *)
Definition find_user_profiles (fs : node) (base_dir : path) : outcome (list UserProfile) :=
  match resolve fs base_dir with
  | None =>
      Raised (NozzleConversionError ("❌ Directory not found: " +:+ path_str base_dir))
  | Some (File _) => Raised OSError
  | Some (Folder children) =>
      let users :=
        omap (fun child : string * node =>
                let user_dir := base_dir ++ [fst child] in
                if is_dir fs user_dir then
                  let filament_base := user_dir ++ ["filament"; "base"] in
                  if is_dir fs filament_base then Some (fst child, filament_base) else None
                else None)
             children in
      match users with
      | [] => Raised (NozzleConversionError "🔍 No user profiles found")
      | _ :: _ => Returned users
      end
  end.

End Discovery.

(** ** The backup *)

Definition BACKUP_PREFIX : string := "backup_".

(** [shutil.copytree(src, dst)] for a destination whose parent exists:
    [src] has to be a directory and [dst] must not exist; the copy has
    the content of [src]. The source is listed before the destination is
    created. *)
Definition copytree (fs : node) (src dst : path) : outcome node :=
  match resolve fs src with
  | Some (Folder children) =>
      match resolve fs dst with
      | Some _ => Raised OSError
      | None =>
          match put fs dst (Folder children) with
          | Some fs' => Returned fs'
          | None => Raised OSError
          end
      end
  | Some (File _) | None => Raised OSError
  end.

(** [backup_profiles(profile_base)] at the time that [strftime] writes
    as [timestamp]: the outcome and the file system afterwards. Every
    exception becomes a [NozzleConversionError]. *)
Definition backup_profiles (fs : node) (profile_base : path) (timestamp : string)
  : outcome path * node :=
  let backup_dir := removelast profile_base ++ [BACKUP_PREFIX +:+ timestamp] in
  match copytree fs profile_base backup_dir with
  | Returned fs' => (Returned backup_dir, fs')
  | Raised _ => (Raised (NozzleConversionError "Backup creation failed"), fs)
  end.

(** ** The rotation of the log files *)

Definition MAX_LOG_FILES : nat := 10.

(** What [os.stat] shows of a directory entry: the time of the last
    change, in the order of the floats [os.path.getmtime] gives, and
    whether the entry is a directory. *)
Record file_stat := mk_stat { st_mtime : Z; st_is_dir : bool }.

Definition listing := list (string * file_stat).

Inductive logs_dir_state :=
  | NoLogsDir
  | LogsDirIsFile
  | LogsDir (l : listing).

(** [path.unlink()]: files only. *)
Fixpoint unlink (name : string) (l : listing) : outcome listing :=
  match l with
  | [] => Raised OSError
  | (n, s) :: l' =>
      if String.eqb n name then
        if st_is_dir s then Raised OSError else Returned l'
      else
        l'' ← unlink name l';
        mret ((n, s) :: l'')
  end.

(** The [while] loop of [setup_logging]: as long as [MAX_LOG_FILES] or
    more logs are left, take the first one off the list and delete it. *)
Fixpoint rotate (existing_logs : list string) (l : listing) : outcome listing :=
  match existing_logs with
  | [] => Returned l
  | oldest :: rest =>
      if MAX_LOG_FILES <=? length existing_logs then
        l' ← unlink oldest l;
        rotate rest l'
      else Returned l
  end.

(** [open(name, 'a')] followed by a write at the time [now]. *)
Fixpoint open_append (name : string) (now : Z) (l : listing) : outcome listing :=
  match l with
  | [] => Returned [(name, mk_stat now false)]
  | (n, s) :: l' =>
      if String.eqb n name then
        if st_is_dir s then Raised OSError else Returned ((n, mk_stat now false) :: l')
      else
        l'' ← open_append name now l';
        mret ((n, s) :: l'')
  end.

Definition is_log (e : string * file_stat) : bool := fnmatch "*.log" (fst e).

(** [sorted(logs_dir.glob("*.log"), key=os.path.getmtime)] *)
Definition logs_by_age (l : listing) : list string :=
  map snd (stable_sort Z.ltb (map (fun e => (st_mtime (snd e), fst e)) (List.filter is_log l))).

(** The effect of [setup_logging(script_dir)] on the directory
    [script_dir / "logs"], at the time [now] that [strftime] writes as
    [timestamp]: the name of the new log file and the listing
    afterwards. [mkdir(exist_ok=True, parents=True)] makes a missing
    directory and raises [FileExistsError] on a file. *)
Definition setup_logging (logs_dir : logs_dir_state) (timestamp : string) (now : Z)
  : outcome (string * listing) :=
  match logs_dir with
  | LogsDirIsFile => Raised OSError
  | NoLogsDir | LogsDir _ =>
      let l := match logs_dir with LogsDir l => l | _ => [] end in
      let existing_logs := logs_by_age l in
      l ← rotate existing_logs l;
      let log_file := "orca_nozzle_" +:+ timestamp +:+ ".log" in
      l ← open_append log_file now l;
      mret (log_file, l)
  end.

(** ** Choosing a user profile *)

(** [c.lower()] on one ASCII character *)
Definition lower_char (c : ascii) : ascii :=
  let n := nat_of_ascii c in
  if (65 <=? n) && (n <=? 90) then ascii_of_nat (n + 32) else c.

Fixpoint lower (s : string) : string :=
  match s with
  | EmptyString => EmptyString
  | String c s' => String (lower_char c) (lower s')
  end.

(** The digits of an [int] literal: single underscores are allowed
    between digits. *)
Fixpoint int_digits (s : string) (acc : Z) (after_digit : bool) : option Z :=
  match s with
  | EmptyString => if after_digit then Some acc else None
  | String c s' =>
      if Str.is_digit c
      then int_digits s' (10 * acc + (Z.of_nat (nat_of_ascii c) - 48))%Z true
      else if Ascii.eqb c "_" && after_digit then int_digits s' acc false
      else None
  end.

(** [int(s)] in base ten: white space around the literal and a sign
    before it are accepted. *)
Definition py_int (s : string) : outcome Z :=
  let literal :=
    match Str.strip s with
    | String "-" s' => Z.opp <$> int_digits s' 0 false
    | String "+" s' => int_digits s' 0 false
    | s' => int_digits s' 0 false
    end in
  match literal with
  | Some z => Returned z
  | None => Raised ValueError
  end.

(** [l[i]]: a negative index counts from the end. *)
Definition py_index {A} (l : list A) (i : Z) : outcome A :=
  let n := Z.of_nat (length l) in
  let i := if (i <? 0)%Z then (i + n)%Z else i in
  if (0 <=? i)%Z && (i <? n)%Z then
    match l !! Z.to_nat i with
    | Some x => Returned x
    | None => Raised IndexError
    end
  else Raised IndexError.

(** What ends a prompt without an answer, besides an exception of the
    program: [q] (the program raises [KeyboardInterrupt] itself) and the
    end of the input ([input] raises [EOFError]). *)
Inductive signal :=
  | Exception (e : exn)
  | KeyboardInterrupt
  | EOFError.

Inductive answer (A : Type) :=
  | Answer (a : A)
  | Signal (s : signal).
Arguments Answer {A} a.
Arguments Signal {A} s.

Section Selection.

Variable fs : node.

(** The body of the [try] for a choice that starts with [v]. *)
Definition view_details (users : list UserProfile) (choice : string) : outcome unit :=
  n ← py_int (match choice with String _ s => s | EmptyString => EmptyString end);
  let user_idx := (n - 1)%Z in
  user ← py_index users user_idx;
  groups ← get_profile_groups (path_state_of fs (snd user));
  mret tt.

(** The [while True] loop of [select_user_profile] on the lines still to
    be read: the answer and the lines left. *)
Fixpoint selection_loop (users : list UserProfile) (inputs : list string)
  : answer UserProfile * list string :=
  match inputs with
  | [] => (Signal EOFError, [])
  | line :: rest =>
      let choice := lower (Str.strip line) in
      if String.eqb choice "q" then (Signal KeyboardInterrupt, rest)
      else if String.prefix "v" choice then
        match view_details users choice with
        | Returned _ | Raised ValueError | Raised IndexError => selection_loop users rest
        | Raised e => (Signal (Exception e), rest)
        end
      else if Str.isdigit choice then
        let user_idx := (digits_value choice 0 - 1)%Z in
        if (0 <=? user_idx)%Z && (user_idx <? Z.of_nat (length users))%Z then
          match users !! Z.to_nat user_idx with
          | Some selected => (Answer selected, rest)
          | None => (Signal (Exception IndexError), rest)
          end
        else selection_loop users rest
      else selection_loop users rest
  end.

(** [select_user_profile(users)]: one user is taken without a question;
    otherwise every user's profiles are scanned for the overview before
    the first prompt. *)
Definition select_user_profile (users : list UserProfile) (inputs : list string)
  : answer UserProfile * list string :=
  match users with
  | [user] => (Answer user, inputs)
  | _ =>
      match mapM (fun user => get_profile_groups (path_state_of fs (snd user))) users with
      | Raised e => (Signal (Exception e), inputs)
      | Returned _ => selection_loop users inputs
      end
  end.

End Selection.

(** ** Notions on JSON documents *)

(** The member of an object with the key [k], and the members after an
    assignment to [k] (as [dict_get] and [dict_set] on a dict). *)
Fixpoint json_get (k : string) (members : list (string * json)) : option json :=
  match members with
  | [] => None
  | (k', j) :: members' => if String.eqb k' k then Some j else json_get k members'
  end.

Fixpoint json_set (k : string) (j : json) (members : list (string * json))
  : list (string * json) :=
  match members with
  | [] => [(k, j)]
  | (k', j') :: members' =>
      if String.eqb k' k then (k', j) :: members' else (k', j') :: json_set k j members'
  end.

Fixpoint distinct (keys : list string) : bool :=
  match keys with
  | [] => true
  | k :: keys' => negb (existsb (String.eqb k) keys') && distinct keys'
  end.

(** No object of the document has a key twice. *)
Fixpoint unique_keys (j : json) : bool :=
  match j with
  | JArr items => forallb unique_keys items
  | JObj members =>
      distinct (map fst members) && forallb (fun kj => unique_keys (snd kj)) members
  | _ => true
  end.

(** ** More sample inputs *)

(** A [user] directory: one user with profiles, one file, one user
    directory without [filament/base]. *)
Definition sample_tree : node :=
  Folder [("1234", Folder [("filament",
             Folder [("base", Folder [("PLA@0.4.json", File (JsonText sample_profile))])])]);
          ("readme.txt", File Garbled);
          ("default", Folder [("filament", Folder [])])].

(** Two users; the first has a variant with a token of two dots. *)
Definition two_users_tree : node :=
  Folder [("1234", Folder [("filament",
             Folder [("base", Folder [("PLA@1.2.3.json", File (JsonText sample_profile))])])]);
          ("5678", Folder [("filament",
             Folder [("base", Folder [("PLA@0.4.json", File (JsonText sample_profile))])])])].

Definition two_users : list UserProfile :=
  [("1234", ["1234"; "filament"; "base"]); ("5678", ["5678"; "filament"; "base"])].

(** Eleven logs, not in the order of their age, and one other file. *)
Definition eleven_logs : listing :=
  [("07.log", mk_stat 7 false); ("01.log", mk_stat 1 false); ("notes.txt", mk_stat 0 false);
   ("03.log", mk_stat 3 false); ("02.log", mk_stat 2 false); ("11.log", mk_stat 11 false);
   ("05.log", mk_stat 5 false); ("04.log", mk_stat 4 false); ("06.log", mk_stat 6 false);
   ("09.log", mk_stat 9 false); ("08.log", mk_stat 8 false); ("10.log", mk_stat 10 false)].

(** * Facts about the embedding *)

(** ** The two monads *)

Lemma outcome_bind_eq {A B} (m : outcome A) (k : A -> outcome B) :
  m ≫= k = match m with Returned a => k a | Raised e => Raised e end.
Proof. reflexivity. Qed.

Lemma py_bind_eq {A B} (m : py A) (k : A -> py B) h :
  (m ≫= k) h = match m h with
               | (Returned a, h') => k a h'
               | (Raised e, h') => (Raised e, h')
               end.
Proof. reflexivity. Qed.

Lemma mapM_Returned {A B} (f : A -> outcome B) l k :
  mapM f l = Returned k <-> Forall2 (fun x y => f x = Returned y) l k.
Proof.
  revert k. induction l as [|x l IH]; intros k; simpl.
  - split; [intros [= <-]; constructor|by inversion 1].
  - rewrite outcome_bind_eq. destruct (f x) as [y|e] eqn:Hx.
    + rewrite outcome_bind_eq. destruct (mapM f l) as [ys|e] eqn:Hl.
      * split.
        -- intros [= <-]. constructor; [done|by apply IH].
        -- inversion 1 as [|? y' ? ys' Hy Hys]; subst.
           apply IH in Hys. rewrite Hx in Hy. by simplify_eq.
      * split; [done|]. inversion 1 as [|? y' ? ys' Hy Hys]; subst.
        apply IH in Hys. simplify_eq.
    + split; [done|]. inversion 1; congruence.
Qed.

Lemma mapM_Raised {A B} (f : A -> outcome B) l x e0 :
  In x l -> f x = Raised e0 -> exists e, mapM f l = Raised e.
Proof.
  induction l as [|y l IH]; simpl; [done|]. intros [->|Hin] Hx.
  - rewrite outcome_bind_eq, Hx. eauto.
  - rewrite outcome_bind_eq. destruct (f y); [|eauto].
    rewrite outcome_bind_eq. destruct (IH Hin Hx) as [e ->]. eauto.
Qed.

Lemma mapM_Raised_inv {A B} (f : A -> outcome B) l e :
  mapM f l = Raised e -> exists x, In x l /\ f x = Raised e.
Proof.
  induction l as [|y l IH]; simpl; [done|].
  rewrite outcome_bind_eq. destruct (f y) as [b|e'] eqn:Hy.
  - rewrite outcome_bind_eq. destruct (mapM f l) as [bs|e'] eqn:Hl; [done|].
    intros [= ->]. destruct (IH eq_refl) as (x & Hin & Hx). eauto.
  - intros [= ->]. eauto.
Qed.

Lemma Forall2_In_r {A B} (P : A -> B -> Prop) l k y :
  Forall2 P l k -> In y k -> exists x, In x l /\ P x y.
Proof.
  induction 1 as [|x y' l k Hxy _ IH]; simpl; [done|].
  intros [->|Hin]; [eauto|]. destruct (IH Hin) as (x' & ? & ?). eauto.
Qed.

Lemma Forall2_In_l {A B} (P : A -> B -> Prop) l k x :
  Forall2 P l k -> In x l -> exists y, In y k /\ P x y.
Proof.
  induction 1 as [|x' y l k Hxy _ IH]; simpl; [done|].
  intros [->|Hin]; [eauto|]. destruct (IH Hin) as (y' & ? & ?). eauto.
Qed.

Lemma filter_none {A} (f : A -> bool) l :
  Forall (fun x => f x = false) l -> List.filter f l = [].
Proof. induction 1 as [|x l Hx _ IH]; simpl; [done|]. by rewrite Hx. Qed.

(** ** Strings *)

Lemma append_cons c s1 s2 : String c s1 +:+ s2 = String c (s1 +:+ s2).
Proof. reflexivity. Qed.

Lemma append_nil s : "" +:+ s = s.
Proof. reflexivity. Qed.

Lemma append_assoc (a b c : string) : a +:+ (b +:+ c) = (a +:+ b) +:+ c.
Proof. induction a as [|x a IH]; [reflexivity|]. by rewrite !append_cons, IH. Qed.

Lemma length_append s1 s2 : String.length (s1 +:+ s2) = String.length s1 + String.length s2.
Proof. induction s1 as [|c s1 IH]; simpl; [done|]. by rewrite IH. Qed.

Lemma prefix_nil s : String.prefix "" s = true.
Proof. by destruct s. Qed.

Lemma prefix_cons c s1 d s2 :
  String.prefix (String c s1) (String d s2) = Ascii.eqb c d && String.prefix s1 s2.
Proof.
  simpl. destruct (ascii_dec c d) as [->|Hne].
  - by rewrite Ascii.eqb_refl.
  - apply Ascii.eqb_neq in Hne. by rewrite Hne.
Qed.

Lemma contains_cons sub c s :
  Str.contains sub (String c s) = String.prefix sub (String c s) || Str.contains sub s.
Proof. reflexivity. Qed.

Lemma contains_char_cons (sep c : ascii) s :
  Str.contains (String sep "") (String c s) = Ascii.eqb c sep || Str.contains (String sep "") s.
Proof. by rewrite contains_cons, prefix_cons, prefix_nil, andb_true_r, Ascii.eqb_sym. Qed.

(** *** [str.split] *)

Lemma split_no_sep sep a :
  Str.contains (String sep "") a = false -> Str.split sep a = [a].
Proof.
  induction a as [|c a IH]; [done|].
  rewrite contains_char_cons. intros H. apply orb_false_elim in H as [Hc Ha].
  simpl. by rewrite Hc, (IH Ha).
Qed.

Lemma split_app_sep sep a t :
  Str.contains (String sep "") a = false ->
  Str.split sep (a +:+ String sep t) = a :: Str.split sep t.
Proof.
  induction a as [|c a IH].
  - intros _. rewrite append_nil. simpl. by rewrite Ascii.eqb_refl.
  - rewrite contains_char_cons. intros H. apply orb_false_elim in H as [Hc Ha].
    rewrite append_cons. simpl. by rewrite Hc, (IH Ha).
Qed.

Lemma split_length sep s : 1 <= length (Str.split sep s).
Proof.
  induction s as [|c s IH]; simpl; [lia|].
  destruct (Ascii.eqb c sep); simpl; [lia|].
  destruct (Str.split sep s); simpl in *; lia.
Qed.

Lemma split_length_app sep a t :
  length (Str.split sep (a +:+ String sep t))
  = length (Str.split sep a) + length (Str.split sep t).
Proof.
  induction a as [|c a IH].
  - rewrite append_nil. simpl. by rewrite Ascii.eqb_refl.
  - rewrite append_cons. simpl. destruct (Ascii.eqb c sep); simpl; [by rewrite IH|].
    pose proof (split_length sep (a +:+ String sep t)).
    pose proof (split_length sep a).
    destruct (Str.split sep (a +:+ String sep t)), (Str.split sep a); simpl in *; lia.
Qed.

(** *** Patterns *)

Lemma fnmatch_star_contains sub p name :
  (forall n, fnmatch p n = true -> String.prefix sub n = true) ->
  fnmatch (String "*" p) name = true -> Str.contains sub name = true.
Proof.
  intros Hp. simpl.
  induction name as [|c name IH]; intros H.
  - apply orb_true_iff in H as [H|H]; [|done]. apply Hp in H.
    change (Str.contains sub "") with (String.prefix sub "" || false). by rewrite H.
  - apply orb_true_iff in H as [H|H].
    + apply Hp in H. rewrite contains_cons, H. done.
    + rewrite contains_cons. rewrite (IH H). apply orb_true_r.
Qed.

Lemma fnmatch_literal_prefix sub p n :
  glob_literal sub = true ->
  fnmatch (sub +:+ p) n = true -> String.prefix sub n = true.
Proof.
  revert n. induction sub as [|c sub IH]; intros n Hlit H.
  - by destruct n.
  - simpl in Hlit. apply andb_true_iff in Hlit as [Hc Hlit].
    apply andb_true_iff in Hc as [Hc _]. apply andb_true_iff in Hc as [Hstar Hq].
    apply negb_true_iff in Hstar, Hq.
    simpl in H. rewrite Hstar in H. destruct n as [|d n]; [done|].
    rewrite Hq in H. simpl in H. apply andb_true_iff in H as [Hcd H].
    rewrite prefix_cons, Hcd. simpl. by apply IH.
Qed.

(** A name that matches [*size*rest] contains the size. *)
Lemma glob_size_contains sub rest name :
  glob_literal sub = true ->
  fnmatch ("*" +:+ sub +:+ rest) name = true -> Str.contains sub name = true.
Proof.
  intros Hlit. apply fnmatch_star_contains. intros n. by apply fnmatch_literal_prefix.
Qed.

Lemma fnmatch_nil n : fnmatch "" n = true <-> n = "".
Proof. destruct n; simpl; split; intros; done. Qed.

Lemma fnmatch_star_iff p n :
  fnmatch (String "*" p) n = true <-> exists a b, n = a +:+ b /\ fnmatch p b = true.
Proof.
  simpl. induction n as [|c n IH].
  - rewrite orb_false_r. split.
    + intros H. by exists "", "".
    + intros (a & b & E & H). destruct a; [|discriminate]. rewrite append_nil in E. by subst.
  - rewrite orb_true_iff, IH. split.
    + intros [H|(a & b & -> & H)].
      * by exists "", (String c n).
      * by exists (String c a), b.
    + intros (a & b & E & H). destruct a as [|c' a].
      * left. rewrite append_nil in E. by subst.
      * right. rewrite append_cons in E. injection E as -> ->. by exists a, b.
Qed.

Lemma fnmatch_literal_iff s p n :
  glob_literal s = true ->
  fnmatch (s +:+ p) n = true <-> exists b, n = s +:+ b /\ fnmatch p b = true.
Proof.
  revert n. induction s as [|c s IH]; intros n Hlit.
  - rewrite append_nil. split; [by exists n|]. by intros (b & -> & H).
  - simpl in Hlit. apply andb_true_iff in Hlit as [Hc Hlit].
    apply andb_true_iff in Hc as [Hc _]. apply andb_true_iff in Hc as [Hstar Hq].
    apply negb_true_iff in Hstar, Hq.
    rewrite append_cons. cbn [fnmatch]. rewrite Hstar. destruct n as [|d n].
    + split; [done|]. by intros (b & E & _).
    + rewrite Hq. simpl orb. rewrite andb_true_iff, (IH n Hlit). split.
      * intros [Hcd (b & -> & H)]. apply Ascii.eqb_eq in Hcd as ->. by exists b.
      * intros (b & E & H). rewrite append_cons in E. injection E as -> ->.
        split; [apply Ascii.eqb_refl|by exists b].
Qed.

(** A name that matches [*size*.json] matches [*.json]. *)
Lemma fnmatch_size_json src name :
  glob_literal src = true ->
  fnmatch ("*" +:+ src +:+ "*.json") name = true -> fnmatch "*.json" name = true.
Proof.
  intros Hlit H.
  change ("*" +:+ src +:+ "*.json") with (String "*" (src +:+ String "*" ".json")) in H.
  apply fnmatch_star_iff in H as (a & b & -> & H).
  apply (fnmatch_literal_iff src) in H as (b' & -> & H); [|done].
  apply fnmatch_star_iff in H as (b & c & -> & H).
  apply fnmatch_star_iff. exists (a +:+ src +:+ b), c. split; [|done].
  by rewrite <- !append_assoc.
Qed.

Lemma digit_literal c :
  Str.is_digit c = true ->
  negb (Ascii.eqb c "*") && negb (Ascii.eqb c "?") && negb (Ascii.eqb c "[") = true.
Proof.
  unfold Str.is_digit. intros H.
  destruct (Ascii.eqb_spec c "*") as [->|_]; [done|].
  destruct (Ascii.eqb_spec c "?") as [->|_]; [done|].
  destruct (Ascii.eqb_spec c "[") as [->|_]; done.
Qed.

Lemma all_digits_literal s : Str.all_digits s = true -> glob_literal s = true.
Proof.
  induction s as [|c s IH]; simpl; [done|]. intros H.
  apply andb_true_iff in H as [Hc Hs]. by rewrite (digit_literal _ Hc), IH.
Qed.

(** A size the program accepts has no wildcard in it. *)
Lemma validate_nozzle_size_literal size :
  validate_nozzle_size size = true -> glob_literal size = true.
Proof.
  unfold validate_nozzle_size.
  assert (H : Str.all_digits (Str.replace_first_char "." "" size) = true ->
              glob_literal size = true).
  { induction size as [|c s IH]; simpl; [done|].
    destruct (Ascii.eqb_spec c ".") as [->|Hne]; simpl.
    - apply all_digits_literal.
    - intros H. apply andb_true_iff in H as [Hc Hs]. by rewrite (digit_literal _ Hc), IH. }
  intros Hv. apply H. unfold Str.isdigit in Hv.
  by destruct (Str.replace_first_char "." "" size).
Qed.

(** *** [str.replace] of 0.4 by 0.8 *)

Lemma replace_from_0 old new c s :
  Str.replace_from old new (String c s) 0 =
  if String.prefix old (String c s)
  then new +:+ Str.replace_from old new s (String.length old - 1)
  else String c (Str.replace_from old new s 0).
Proof. reflexivity. Qed.

Lemma replace_from_04_head c s :
  String.prefix "0.4" (String c s) = false ->
  Str.replace_from "0.4" "0.8" (String c s) 0 = String c (Str.replace_from "0.4" "0.8" s 0).
Proof. intros H. by rewrite replace_from_0, H. Qed.

Lemma prefix_04_head c s :
  String.prefix "0.4" (String c s) = true -> c = "0"%char.
Proof.
  rewrite prefix_cons. intros H. apply andb_true_iff in H as [H _].
  by apply Ascii.eqb_eq in H.
Qed.

Lemma prefix_4_replace s :
  String.prefix "4" (Str.replace_from "0.4" "0.8" s 0) = String.prefix "4" s.
Proof.
  destruct s as [|c s]; [done|].
  destruct (String.prefix "0.4" (String c s)) eqn:Hp.
  - rewrite replace_from_0, Hp. by rewrite (prefix_04_head _ _ Hp).
  - rewrite replace_from_04_head by done. by rewrite !prefix_cons, !prefix_nil.
Qed.

Lemma prefix_dot4_replace s :
  String.prefix ".4" (Str.replace_from "0.4" "0.8" s 0) = String.prefix ".4" s.
Proof.
  destruct s as [|c s]; [done|].
  destruct (String.prefix "0.4" (String c s)) eqn:Hp.
  - rewrite replace_from_0, Hp. by rewrite (prefix_04_head _ _ Hp).
  - rewrite replace_from_04_head by done. by rewrite !prefix_cons, prefix_4_replace.
Qed.

(** The replacement leaves no "0.4" behind and makes no new one. *)
Lemma no_04_after_replace s k :
  Str.contains "0.4" (Str.replace_from "0.4" "0.8" s k) = false.
Proof.
  revert k. induction s as [|c s IH]; intros k; [done|].
  destruct k as [|k]; [|apply IH].
  destruct (String.prefix "0.4" (String c s)) eqn:Hp.
  - rewrite replace_from_0, Hp, !append_cons, append_nil.
    rewrite !contains_cons, IH. done.
  - rewrite replace_from_04_head by done.
    rewrite contains_cons, IH, orb_false_r.
    rewrite prefix_cons in Hp |- *. by rewrite prefix_dot4_replace.
Qed.

Lemma replaced_name_not_matched name :
  fnmatch ("*" +:+ "0.4" +:+ "*.json") (Str.replace "0.4" "0.8" name) = false.
Proof.
  destruct (fnmatch _ _) eqn:H; [|done].
  apply glob_size_contains in H; [|done].
  unfold Str.replace in H. by rewrite no_04_after_replace in H.
Qed.

Lemma replace_nonempty_nil src tgt : src <> "" -> Str.replace src tgt "" = "".
Proof. by destruct src. Qed.

(** *** Hexadecimal numerals *)

Lemma all_hex_append s1 s2 : all_hex (s1 +:+ s2) = all_hex s1 && all_hex s2.
Proof. induction s1 as [|c s1 IH]; simpl; [done|]. by rewrite IH, andb_assoc. Qed.

Lemma hex_digit_is_hex n : is_hex_digit (hex_digit (n mod 16)) = true.
Proof.
  assert (H : (N.to_nat (n mod 16) < 16)%nat).
  { pose proof (N.mod_lt n 16 ltac:(done)). lia. }
  unfold hex_digit. destruct (N.to_nat (n mod 16)) as [|k]; [done|].
  do 15 (destruct k as [|k]; [done|]). lia.
Qed.

Lemma length_hex w n : String.length (hex w n) = w.
Proof.
  revert n. induction w as [|w IH]; intros n; simpl; [done|].
  rewrite length_append, IH. simpl. lia.
Qed.

Lemma all_hex_hex w n : all_hex (hex w n) = true.
Proof.
  revert n. induction w as [|w IH]; intros n; simpl; [done|].
  rewrite all_hex_append, IH. simpl. by rewrite hex_digit_is_hex.
Qed.

Lemma length_substring_0 k s :
  k <= String.length s -> String.length (String.substring 0 k s) = k.
Proof.
  revert s. induction k as [|k IH]; intros s Hk.
  - by destruct s.
  - destruct s as [|c s]; simpl in *; [lia|]. rewrite IH; lia.
Qed.

Lemma all_hex_substring_0 k s : all_hex s = true -> all_hex (String.substring 0 k s) = true.
Proof.
  revert s. induction k as [|k IH]; intros s Hs.
  - by destruct s.
  - destruct s as [|c s]; simpl in *; [done|].
    apply andb_true_iff in Hs as [Hc Hs]. by rewrite Hc, IH.
Qed.

(** The new identifier: [PFUS] and sixteen hexadecimal digits. *)
Lemma new_filament_id_shape r :
  exists suffix, new_filament_id r = "PFUS" +:+ suffix /\
                 String.length suffix = 16 /\ all_hex suffix = true.
Proof.
  eexists. split; [reflexivity|]. split.
  - apply length_substring_0. rewrite length_hex. lia.
  - apply all_hex_substring_0, all_hex_hex.
Qed.

(** ** The store *)

Lemma object_of_app h ext v o : object_of h v = Some o -> object_of (h ++ ext) v = Some o.
Proof. destruct v; simpl; try done. apply lookup_app_l_Some. Qed.

Lemma mapM_py_replace old new l h :
  mapM (fun p => py_replace p old new) l h = (mapM (replace_in old new) l, h).
Proof.
  induction l as [|x l IH]; simpl; [done|].
  rewrite py_bind_eq, outcome_bind_eq. unfold py_replace at 1.
  destruct (replace_in old new x); [|done].
  rewrite py_bind_eq, outcome_bind_eq, IH. destruct (mapM (replace_in old new) l); reflexivity.
Qed.


Lemma mapM_replace_in_str old new l r :
  mapM (replace_in old new) l = Returned r -> Forall is_str r.
Proof.
  revert r; induction l as [|x l IH]; simpl; intros r H.
  - injection H as <-. constructor.
  - rewrite outcome_bind_eq in H. destruct x; simpl in H; try discriminate.
    rewrite outcome_bind_eq in H.
    destruct (mapM _ l) eqn:E; simpl in H; try discriminate.
    injection H as <-. constructor; [by eexists|by apply IH].
Qed.


Lemma lookup_new (h rest : heap) o : (h ++ o :: rest) !! length h = Some o.
Proof. apply list_lookup_middle. done. Qed.

Lemma insert_new (h rest : heap) o o' : <[length h := o']> (h ++ o :: rest) = h ++ o' :: rest.
Proof. rewrite insert_app_r_alt by lia. by rewrite Nat.sub_diag. Qed.

Lemma py_setitem_new h rest items k v :
  py_setitem (VRef (length h)) k v (h ++ ODict items :: rest)
  = (Returned tt, h ++ ODict (dict_set k v items) :: rest).
Proof. unfold py_setitem; simpl. by rewrite lookup_new, insert_new. Qed.

Lemma py_contains_new h rest items k :
  py_contains (VRef (length h)) k (h ++ ODict items :: rest)
  = (Returned (match dict_get k items with Some _ => true | None => false end),
     h ++ ODict items :: rest).
Proof. unfold py_contains; simpl. by rewrite lookup_new. Qed.

Lemma py_getitem_new h rest items k :
  py_getitem (VRef (length h)) k (h ++ ODict items :: rest)
  = match dict_get k items with
    | Some v => (Returned v, h ++ ODict items :: rest)
    | None => (Raised KeyError, h ++ ODict items :: rest)
    end.
Proof. unfold py_getitem; simpl. by rewrite lookup_new. Qed.

Lemma py_get_old h ext l items k dflt :
  h !! l = Some (ODict items) ->
  py_get (VRef l) k dflt (h ++ ext)
  = (Returned (match dict_get k items with Some v => v | None => dflt end), h ++ ext).
Proof. intros H. unfold py_get; simpl. by rewrite (lookup_app_l_Some _ _ _ _ H). Qed.

Lemma py_get_old_list h ext l items k dflt :
  h !! l = Some (OList items) ->
  py_get (VRef l) k dflt (h ++ ext) = (Raised AttributeError, h ++ ext).
Proof. intros H. unfold py_get; simpl. by rewrite (lookup_app_l_Some _ _ _ _ H). Qed.

Lemma alloc_eq o h : alloc o h = (Returned (VRef (length h)), h ++ [o]).
Proof. reflexivity. Qed.

Lemma py_replace_eq s old new h : py_replace s old new h = (replace_in old new s, h).
Proof. reflexivity. Qed.

Lemma alloc_new h o rest o' :
  alloc o' (h ++ o :: rest) = (Returned (VRef (length h + S (length rest))), h ++ o :: rest ++ [o']).
Proof.
  unfold alloc. rewrite length_app. simpl. f_equal. by rewrite <- app_assoc.
Qed.

Lemma py_iter_heap x h o l : py_iter x h = (o, l) -> l = h.
Proof.
  unfold py_iter, raise. destruct x; try (by intros [= _ <-]).
  - destruct (object_of h (VRef l0)) as [[]|]; by intros [= _ <-].
Qed.

Lemma py_first_heap x h o l : py_first x h = (o, l) -> l = h.
Proof.
  unfold py_first, raise. destruct x; try (by intros [= _ <-]).
  - destruct s; by intros [= _ <-].
  - destruct (object_of h (VRef l0)) as [[[]|]|]; by intros [= _ <-].
Qed.

Lemma dict_get_set_eq k v d : dict_get k (dict_set k v d) = Some v.
Proof.
  induction d as [|[k' v'] d IH]; simpl.
  - by rewrite String.eqb_refl.
  - destruct (String.eqb k' k) eqn:E; simpl; rewrite E; done.
Qed.

Lemma dict_get_set_ne k k' v d : k <> k' -> dict_get k' (dict_set k v d) = dict_get k' d.
Proof.
  intros Hne. induction d as [|[k0 v0] d IH]; simpl.
  - destruct (String.eqb_spec k k'); done.
  - destruct (String.eqb_spec k0 k) as [->|]; simpl.
    + destruct (String.eqb_spec k k'); done.
    + destruct (String.eqb_spec k0 k'); done.
Qed.


(** ** The transformer, step by step *)

(** The end of [modify_profile_data], from the default list on. *)
Lemma modify_tail h l items items2 rest r m h' :
  h !! l = Some (ODict items) ->
  (default ← alloc (OList [VStr ""]);
   ids ← py_get (VRef l) "filament_settings_id" default;
   original_id ← py_first ids;
   new_id ← alloc (OList [VStr (new_filament_id r)]);
   py_setitem (VRef (length h)) "filament_settings_id" new_id;;
   mret (VRef (length h))) (h ++ ODict items2 :: rest) = (Returned m, h') ->
  m = VRef (length h) /\
  h' = h ++ ODict (dict_set "filament_settings_id"
                     (VRef (length h + S (S (length rest)))) items2)
            :: rest ++ [OList [VStr ""]; OList [VStr (new_filament_id r)]] /\
  (forall v, dict_get "filament_settings_id" items = Some v ->
     exists ext oid, py_first v (h ++ ext) = (Returned oid, h ++ ext)).
Proof.
  intros Ho H.
  rewrite py_bind_eq, alloc_new in H.
  rewrite py_bind_eq, (py_get_old _ _ _ _ _ _ Ho) in H.
  rewrite py_bind_eq in H.
  destruct (py_first _ _) as [[oid|e] hf] eqn:Hf; [|discriminate].
  pose proof (py_first_heap _ _ _ _ Hf) as ->.
  rewrite py_bind_eq, alloc_new in H.
  rewrite py_bind_eq, py_setitem_new in H.
  injection H as <- <-. split; [done|]. split.
  - rewrite length_app; simpl. rewrite <- app_assoc. simpl.
    replace (length rest + 1) with (S (length rest)) by lia. done.
  - intros v Hv. rewrite Hv in Hf. eauto.
Qed.

(** What a returning call has read and built. *)
Lemma modify_profile_data_returns data src tgt r h m h' :
  modify_profile_data data src tgt r h = (Returned m, h') ->
  exists l items name,
    data = VRef l /\ h !! l = Some (ODict items) /\
    default (VStr "") (dict_get "name" items) = VStr name /\
    m = VRef (length h) /\
    let items1 := dict_set "name" (VStr (Str.replace src tgt name)) items in
    ((dict_get "compatible_printers" items1 = None /\
      h' = h ++ [ODict (dict_set "filament_settings_id" (VRef (length h + 2)) items1);
                 OList [VStr ""]; OList [VStr (new_filament_id r)]])
     \/ (exists renamed, is_Some (dict_get "compatible_printers" items1) /\
           Forall is_str renamed /\
           h' = h ++ [ODict (dict_set "filament_settings_id" (VRef (length h + 3))
                               (dict_set "compatible_printers" (VRef (length h + 1)) items1));
                      OList renamed; OList [VStr ""]; OList [VStr (new_filament_id r)]])) /\
    (forall v, dict_get "filament_settings_id" items = Some v ->
       exists ext oid, py_first v (h ++ ext) = (Returned oid, h ++ ext)).
Proof.
  unfold modify_profile_data. rewrite py_bind_eq.
  unfold py_copy. destruct (object_of h data) as [o|] eqn:Ho; [|discriminate].
  unfold alloc at 1.
  rewrite py_bind_eq. unfold py_get at 1.
  rewrite (object_of_app _ _ _ _ Ho).
  destruct o as [|items]; [discriminate|].
  destruct data as [| | | | |l]; try discriminate. simpl in Ho.
  rewrite py_bind_eq. unfold py_replace at 1.
  destruct (match dict_get "name" items with Some v => v | None => VStr "" end) as [| | | |name|] eqn:Hn;
    try discriminate.
  simpl replace_in. cbv iota beta.
  rewrite py_bind_eq, py_setitem_new.
  rewrite py_bind_eq, py_contains_new.
  set (items1 := dict_set "name" (VStr (Str.replace src tgt name)) items).
  intros H. exists l, items, name. split; [done|]. split; [done|]. split; [exact Hn|].
  fold items1.
  destruct (dict_get "compatible_printers" items1) as [cp|] eqn:Hcp.
  - rewrite py_bind_eq in H. rewrite py_bind_eq, py_getitem_new, Hcp in H.
    rewrite py_bind_eq in H.
    destruct (py_iter cp _) as [[printers|e] hi] eqn:Hi; [|discriminate].
    apply py_iter_heap in Hi as ->.
    rewrite py_bind_eq, mapM_py_replace in H.
    destruct (mapM (replace_in src tgt) printers) as [renamed|e] eqn:Hr; [|discriminate].
    rewrite py_bind_eq, alloc_new in H. simpl "++" in H.
    rewrite Nat.add_1_r in H.
    replace (S (length h)) with (length h + 1) in H by lia.
    rewrite py_setitem_new in H.
    apply (modify_tail _ _ _ _ _ _ _ _ Ho) in H as (-> & -> & Hf).
    split; [done|]. split; [|done]. right. exists renamed. split; [by eexists|].
    split; [by eapply mapM_replace_in_str|]. simpl. done.
  - rewrite py_bind_eq in H.
    change ((mret () : py unit) (h ++ [ODict items1])) with (Returned (), h ++ [ODict items1]) in H.
    cbv iota beta in H.
    apply (modify_tail _ _ _ _ _ _ _ _ Ho) in H as (-> & -> & Hf).
    split; [done|]. split; [|done]. left. split; [done|]. simpl. done.
Qed.

(** Whatever the outcome, the store only grows. *)
Lemma modify_profile_data_extends data src tgt r h o h' :
  modify_profile_data data src tgt r h = (o, h') -> exists ext, h' = h ++ ext.
Proof.
  unfold modify_profile_data. rewrite py_bind_eq.
  unfold py_copy, raise. destruct (object_of h data) as [ob|] eqn:Ho;
    [|intros [= _ <-]; exists []; by rewrite app_nil_r].
  unfold alloc at 1.
  rewrite py_bind_eq. unfold py_get at 1, raise.
  rewrite (object_of_app _ _ _ _ Ho).
  destruct ob as [|items]; [intros [= _ <-]; eauto|].
  destruct data as [| | | | |l]; try discriminate. simpl in Ho.
  rewrite py_bind_eq. unfold py_replace at 1.
  destruct (match dict_get "name" items with Some v => v | None => VStr "" end) as [| | | |name|];
    simpl replace_in; cbv iota beta; try (intros [= _ <-]; eauto).
  rewrite py_bind_eq, py_setitem_new.
  rewrite py_bind_eq, py_contains_new.
  set (items1 := dict_set "name" (VStr (Str.replace src tgt name)) items).
  assert (Htail : forall items2 rest,
    (default ← alloc (OList [VStr ""]);
     ids ← py_get (VRef l) "filament_settings_id" default;
     original_id ← py_first ids;
     new_id ← alloc (OList [VStr (new_filament_id r)]);
     py_setitem (VRef (length h)) "filament_settings_id" new_id;;
     mret (VRef (length h))) (h ++ ODict items2 :: rest) = (o, h') ->
    exists ext, h' = h ++ ext).
  { intros items2 rest H.
    rewrite py_bind_eq, alloc_new in H.
    rewrite py_bind_eq, (py_get_old _ _ _ _ _ _ Ho) in H.
    rewrite py_bind_eq in H.
    destruct (py_first _ _) as [[oid|e] hf] eqn:Hf;
      pose proof (py_first_heap _ _ _ _ Hf) as ->; [|injection H as _ <-; eauto].
    rewrite py_bind_eq, alloc_new in H.
    rewrite py_bind_eq, py_setitem_new in H.
    injection H as _ <-. eauto. }
  intros H.
  destruct (dict_get "compatible_printers" items1) as [cp|] eqn:Hcp.
  - rewrite py_bind_eq in H. rewrite py_bind_eq, py_getitem_new, Hcp in H.
    rewrite py_bind_eq in H.
    destruct (py_iter cp _) as [[printers|e] hi] eqn:Hi;
      apply py_iter_heap in Hi as ->; [|injection H as _ <-; eauto].
    rewrite py_bind_eq, mapM_py_replace in H.
    destruct (mapM (replace_in src tgt) printers) as [renamed|e] eqn:Hr;
      [|injection H as _ <-; eauto].
    rewrite py_bind_eq, alloc_new in H. simpl "++" in H.
    rewrite py_setitem_new in H.
    by apply Htail in H.
  - rewrite py_bind_eq in H.
    change ((mret () : py unit) (h ++ [ODict items1])) with (Returned (), h ++ [ODict items1]) in H.
    cbv iota beta in H. by apply Htail in H.
Qed.

(** The random bytes do not decide whether the call raises. *)
Lemma modify_profile_data_raises_any_draw data src tgt r r' h e h1 :
  modify_profile_data data src tgt r h = (Raised e, h1) ->
  modify_profile_data data src tgt r' h = (Raised e, h1).
Proof.
  unfold modify_profile_data. rewrite !py_bind_eq.
  unfold py_copy, raise. destruct (object_of h data) as [ob|] eqn:Ho; [|done].
  destruct data as [| | | | |l]; try discriminate. simpl in Ho.
  rewrite !alloc_eq.
  rewrite !py_bind_eq.
  destruct ob as [|items]; [by rewrite !(py_get_old_list _ _ _ _ _ _ Ho)|].
  rewrite !(py_get_old _ _ _ _ _ _ Ho).
  rewrite !py_bind_eq, !py_replace_eq.
  destruct (match dict_get "name" items with Some v => v | None => VStr "" end) as [| | | |name|];
    simpl replace_in; cbv iota beta; try done.
  rewrite !py_bind_eq, !py_setitem_new.
  rewrite !py_bind_eq, !py_contains_new.
  set (items1 := dict_set "name" (VStr (Str.replace src tgt name)) items).
  assert (Htail : forall items2 rest,
    (default ← alloc (OList [VStr ""]);
     ids ← py_get (VRef l) "filament_settings_id" default;
     original_id ← py_first ids;
     new_id ← alloc (OList [VStr (new_filament_id r)]);
     py_setitem (VRef (length h)) "filament_settings_id" new_id;;
     mret (VRef (length h))) (h ++ ODict items2 :: rest) = (Raised e, h1) ->
    (default ← alloc (OList [VStr ""]);
     ids ← py_get (VRef l) "filament_settings_id" default;
     original_id ← py_first ids;
     new_id ← alloc (OList [VStr (new_filament_id r')]);
     py_setitem (VRef (length h)) "filament_settings_id" new_id;;
     mret (VRef (length h))) (h ++ ODict items2 :: rest) = (Raised e, h1)).
  { intros items2 rest.
    rewrite !py_bind_eq, !alloc_new.
    rewrite !py_bind_eq, !(py_get_old _ _ _ _ _ _ Ho).
    rewrite !py_bind_eq.
    destruct (py_first _ _) as [[oid|e'] hf] eqn:Hf;
      pose proof (py_first_heap _ _ _ _ Hf) as ->; [|done].
    rewrite !py_bind_eq, !alloc_new.
    rewrite !py_bind_eq, !py_setitem_new. discriminate. }
  destruct (dict_get "compatible_printers" items1) as [cp|] eqn:Hcp.
  - rewrite !py_bind_eq, !py_getitem_new, !Hcp.
    rewrite ?py_bind_eq.
    destruct (py_iter cp _) as [[printers|e'] hi] eqn:Hi;
      apply py_iter_heap in Hi as ->; [|done].
    rewrite !py_bind_eq, !mapM_py_replace.
    destruct (mapM (replace_in src tgt) printers) as [renamed|e'] eqn:Hr; [|done].
    rewrite !py_bind_eq, !alloc_new. simpl "++".
    rewrite !py_setitem_new. apply Htail.
  - rewrite !py_bind_eq.
    change ((mret () : py unit) (h ++ [ODict items1])) with (Returned (), h ++ [ODict items1]).
    cbv iota beta. apply Htail.
Qed.

Lemma mapM_replace_in_total old new l :
  Forall is_str l -> exists r, mapM (replace_in old new) l = Returned r.
Proof.
  induction 1 as [|x l [s ->] _ [r IH]]; simpl; [by eexists|].
  rewrite IH. by eexists.
Qed.

Lemma lookup_last_alloc (h rest : heap) o o' :
  (h ++ o :: rest ++ [o']) !! (length h + S (length rest)) = Some o'.
Proof.
  rewrite lookup_app_r by lia.
  replace (length h + S (length rest) - length h) with (S (length rest)) by lia.
  simpl. apply list_lookup_middle. done.
Qed.

Lemma modify_tail_succeeds h l items items2 rest r :
  h !! l = Some (ODict items) ->
  (forall v, dict_get "filament_settings_id" items = Some v ->
     exists l' x xs, v = VRef l' /\ h !! l' = Some (OList (x :: xs))) ->
  exists m h',
  (default ← alloc (OList [VStr ""]);
   ids ← py_get (VRef l) "filament_settings_id" default;
   original_id ← py_first ids;
   new_id ← alloc (OList [VStr (new_filament_id r)]);
   py_setitem (VRef (length h)) "filament_settings_id" new_id;;
   mret (VRef (length h))) (h ++ ODict items2 :: rest) = (Returned m, h').
Proof.
  intros Ho Hid.
  rewrite py_bind_eq, alloc_new.
  rewrite py_bind_eq, (py_get_old _ _ _ _ _ _ Ho).
  rewrite py_bind_eq.
  assert (exists oid, py_first
            match dict_get "filament_settings_id" items with
            | Some v => v
            | None => VRef (length h + S (length rest))
            end (h ++ ODict items2 :: rest ++ [OList [VStr ""]])
          = (Returned oid, h ++ ODict items2 :: rest ++ [OList [VStr ""]])) as [oid ->].
  { destruct (dict_get "filament_settings_id" items) as [v|] eqn:E.
    - destruct (Hid v eq_refl) as (l' & x & xs & -> & Hl').
      exists x. unfold py_first. simpl. by rewrite (lookup_app_l_Some _ _ _ _ Hl').
    - exists (VStr ""). unfold py_first. simpl. by rewrite lookup_last_alloc. }
  rewrite py_bind_eq, alloc_new.
  rewrite py_bind_eq, py_setitem_new. by eexists _, _.
Qed.

(** A record typed as in the data model is accepted. *)
Lemma modify_profile_data_succeeds l items src tgt r h :
  h !! l = Some (ODict items) -> fields_typed h items ->
  exists m h', modify_profile_data (VRef l) src tgt r h = (Returned m, h').
Proof.
  intros Ho (Hname & Hcp & Hid).
  unfold modify_profile_data. rewrite py_bind_eq.
  unfold py_copy. simpl object_of. rewrite Ho, alloc_eq.
  rewrite py_bind_eq, (py_get_old _ _ _ _ _ _ Ho).
  rewrite py_bind_eq, py_replace_eq.
  assert (exists name, match dict_get "name" items with Some v => v | None => VStr "" end
                       = VStr name) as [name ->].
  { destruct (dict_get "name" items) as [v|]; [|by eexists].
    destruct (Hname v eq_refl) as [s ->]. by eexists. }
  simpl replace_in. cbv iota beta.
  rewrite py_bind_eq, py_setitem_new.
  rewrite py_bind_eq, py_contains_new.
  set (items1 := dict_set "name" (VStr (Str.replace src tgt name)) items).
  assert (Hcp1 : dict_get "compatible_printers" items1 = dict_get "compatible_printers" items).
  { apply dict_get_set_ne. discriminate. }
  destruct (dict_get "compatible_printers" items1) as [cp|] eqn:E.
  - destruct (Hcp cp (eq_sym Hcp1)) as (lp & ps & -> & Hlp & Hps).
    rewrite !py_bind_eq, py_getitem_new, E. rewrite py_bind_eq.
    assert (py_iter (VRef lp) (h ++ [ODict items1]) = (Returned ps, h ++ [ODict items1])) as ->.
    { unfold py_iter. simpl. by rewrite (lookup_app_l_Some _ _ _ _ Hlp). }
    rewrite py_bind_eq, mapM_py_replace.
    destruct (mapM_replace_in_total src tgt ps Hps) as [renamed ->].
    rewrite py_bind_eq, alloc_new. simpl "++".
    rewrite py_setitem_new. by apply (modify_tail_succeeds _ _ items).
  - rewrite py_bind_eq.
    change ((mret () : py unit) (h ++ [ODict items1])) with (Returned (), h ++ [ODict items1]).
    cbv iota beta. by apply (modify_tail_succeeds _ _ items).
Qed.

(** ** The transformer: what the caller sees *)

(** The record a returning call hands back, field by field. *)
Lemma modify_profile_data_output data src tgt r h m h' :
  modify_profile_data data src tgt r h = (Returned m, h') ->
  exists l items name items' lid,
    data = VRef l /\ h !! l = Some (ODict items) /\ h' !! l = Some (ODict items) /\
    m = VRef (length h) /\ l < length h /\
    object_of h' m = Some (ODict items') /\
    default (VStr "") (dict_get "name" items) = VStr name /\
    dict_get "name" items' = Some (VStr (Str.replace src tgt name)) /\
    dict_get "filament_settings_id" items' = Some (VRef lid) /\
    h' !! lid = Some (OList [VStr (new_filament_id r)]) /\
    (dict_get "compatible_printers" items = None ->
     dict_get "compatible_printers" items' = None) /\
    (forall k, k <> "name" -> k <> "compatible_printers" -> k <> "filament_settings_id" ->
       dict_get k items' = dict_get k items).
Proof.
  intros H. pose proof H as Hext. apply modify_profile_data_extends in Hext as [ext Hext].
  apply modify_profile_data_returns in H
    as (l & items & name & -> & Hl & Hname & -> & [Hcase _]).
  assert (Hl' : h' !! l = Some (ODict items)) by (rewrite Hext; by apply lookup_app_l_Some).
  pose proof (lookup_lt_Some _ _ _ Hl) as Hlt.
  destruct Hcase as [[Hcp ->]|(renamed & Hcp & _ & ->)].
  - exists l, items, name,
      (dict_set "filament_settings_id" (VRef (length h + 2))
         (dict_set "name" (VStr (Str.replace src tgt name)) items)), (length h + 2).
    repeat split; try done.
    + simpl. apply lookup_new.
    + rewrite dict_get_set_ne by done. apply dict_get_set_eq.
    + apply dict_get_set_eq.
    + apply (lookup_last_alloc h [OList [VStr ""]]).
    + intros _. rewrite dict_get_set_ne by done. exact Hcp.
    + intros k H1 H2 H3. rewrite !dict_get_set_ne by done. done.
  - exists l, items, name,
      (dict_set "filament_settings_id" (VRef (length h + 3))
         (dict_set "compatible_printers" (VRef (length h + 1))
            (dict_set "name" (VStr (Str.replace src tgt name)) items))), (length h + 3).
    repeat split; try done.
    + simpl. apply lookup_new.
    + rewrite !dict_get_set_ne by done. apply dict_get_set_eq.
    + apply dict_get_set_eq.
    + apply (lookup_last_alloc h [OList renamed; OList [VStr ""]]).
    + intros Hnone. rewrite dict_get_set_ne in Hcp by done. rewrite Hnone in Hcp.
      by destruct Hcp.
    + intros k H1 H2 H3. rewrite !dict_get_set_ne by done. done.
Qed.

(** The new identifier of a returned record: a fresh one-element list
    holding [PFUS] and sixteen hexadecimal digits. *)
Lemma modify_profile_data_new_id data src tgt r h m h' :
  modify_profile_data data src tgt r h = (Returned m, h') ->
  exists items' lid suffix,
    object_of h' m = Some (ODict items') /\
    dict_get "filament_settings_id" items' = Some (VRef lid) /\
    h !! lid = None /\
    h' !! lid = Some (OList [VStr ("PFUS" +:+ suffix)]) /\
    String.length suffix = 16 /\ all_hex suffix = true.
Proof.
  intros H. pose proof H as Hret.
  apply modify_profile_data_output in H
    as (l & items & name & items' & lid & _ & _ & _ & _ & _ & Hm & _ & _ & Hid & Hlid & _).
  apply modify_profile_data_returns in Hret as (l0 & items0 & name0 & _ & _ & _ & -> & Hcase & _).
  destruct (new_filament_id_shape r) as (suffix & Hs & Hlen & Hhex).
  exists items', lid, suffix. rewrite <- Hs. repeat split; try done.
  apply lookup_ge_None_2. simpl in Hm.
  destruct Hcase as [[_ ->]|(renamed & _ & _ & ->)];
    rewrite lookup_new in Hm; injection Hm as <-;
    rewrite dict_get_set_eq in Hid; injection Hid as <-; lia.
Qed.

(** A record whose identifier list is empty is never transformed. *)
Lemma modify_profile_data_empty_id_never_returns l lid items src tgt r h m h' :
  h !! l = Some (ODict items) ->
  dict_get "filament_settings_id" items = Some (VRef lid) ->
  h !! lid = Some (OList []) ->
  modify_profile_data (VRef l) src tgt r h <> (Returned m, h').
Proof.
  intros Hl Hid Hlid H.
  apply modify_profile_data_returns in H
    as (l0 & items0 & name & [= <-] & Hl0 & _ & _ & _ & Hfirst).
  rewrite Hl in Hl0. injection Hl0 as <-.
  destruct (Hfirst _ Hid) as (ext & oid & Hf). unfold py_first in Hf. simpl in Hf.
  by rewrite (lookup_app_l_Some _ _ _ _ Hlid) in Hf.
Qed.

(** C2. The claim holds that [modify_profile_data] succeeds and renews
    the identifier whatever [filament_settings_id] held, an empty value
    included. On the record [{"name": "Generic PLA 0.4",
    "filament_settings_id": []}] the call raises [IndexError] instead:
    it reads element 0 of the old list (for a log line) before it builds
    the new identifier. In a batch the file is counted as an error and
    no converted file is written. *)
Theorem modify_profile_data_empty_id_raises r :
  load empty_id_profile [] = (Returned (VRef 1), empty_id_store) /\
  fst (modify_profile_data (VRef 1) "0.4" "0.8" r empty_id_store) = Raised IndexError /\
  process_profiles (fun _ => r) "0.4" "0.8" (Directory empty_id_file) 0
    = (Returned (mk_results 0 0 1), Directory empty_id_file, 0).
Proof. split; [|split]; reflexivity. Qed.

(** C3. [modify_profile_data] leaves every object of the store it was
    called on as it was, the input record and all that it refers to
    included, whether it returns or raises; and a returned record is a
    new dict that agrees with the input on every field other than
    [name], [compatible_printers] and [filament_settings_id]. *)
Theorem modify_profile_data_frame data src tgt r h o h' :
  modify_profile_data data src tgt r h = (o, h') ->
  (forall l obj, h !! l = Some obj -> h' !! l = Some obj) /\
  (forall m, o = Returned m ->
     exists l items items',
       data = VRef l /\ h !! l = Some (ODict items) /\ h' !! l = Some (ODict items) /\
       m <> data /\ object_of h' m = Some (ODict items') /\
       forall k, k <> "name" -> k <> "compatible_printers" ->
                 k <> "filament_settings_id" ->
                 dict_get k items' = dict_get k items).
Proof.
  intros H. split.
  - apply modify_profile_data_extends in H as [ext ->].
    intros l obj. apply lookup_app_l_Some.
  - intros m ->. apply modify_profile_data_output in H
      as (l & items & name & items' & lid & -> & Hl & Hl' & -> & Hlt & Hm & _ & _ & _ & _ & _ & Hk).
    exists l, items, items'. repeat split; try done. intros [= E]. lia.
Qed.

Lemma modify_profile_data_frame_witness :
  exists m h' items',
    modify_profile_data (VRef 3) "0.4" "0.8" 7 sample_store = (Returned m, h') /\
    h' !! 3 = sample_store !! 3 /\
    object_of h' m = Some (ODict items') /\
    dict_get "filament_type" items' = Some (VRef 2).
Proof.
  destruct (modify_profile_data_frame (VRef 3) "0.4" "0.8" 7%N sample_store
              (fst (modify_profile_data (VRef 3) "0.4" "0.8" 7%N sample_store))
              (snd (modify_profile_data (VRef 3) "0.4" "0.8" 7%N sample_store)) eq_refl)
    as [Hframe Hout].
  destruct (Hout (VRef 4) eq_refl) as (l & items & items' & Hd & Hl & _ & _ & Hm & Hk).
  injection Hd as <-. injection Hl as <-.
  eexists (VRef 4), _, items'. split; [reflexivity|]. split; [|split].
  - apply Hframe. reflexivity.
  - exact Hm.
  - rewrite Hk by discriminate. reflexivity.
Defined.

(** C10. A record without a [name] field comes back with one: the
    returned record has [name] equal to the empty string (for a source
    size that is not empty, as every accepted size is), while
    [compatible_printers] stays absent when it was absent; and such a
    record is accepted when its other fields are typed as in the data
    model. *)
Theorem modify_profile_data_invents_name l items src tgt r h :
  h !! l = Some (ODict items) ->
  dict_get "name" items = None ->
  src <> "" ->
  (forall m h', modify_profile_data (VRef l) src tgt r h = (Returned m, h') ->
     exists items', object_of h' m = Some (ODict items') /\
                    dict_get "name" items' = Some (VStr "") /\
                    (dict_get "compatible_printers" items = None ->
                     dict_get "compatible_printers" items' = None)) /\
  (fields_typed h items ->
     exists m h', modify_profile_data (VRef l) src tgt r h = (Returned m, h')).
Proof.
  intros Hl Hname Hsrc. split.
  - intros m h' H. apply modify_profile_data_output in H
      as (l0 & items0 & name & items' & lid & [= <-] & Hl0 & _ & _ & _ & Hm & Hn & Hn' & _ & _ & Hcp & _).
    rewrite Hl in Hl0. injection Hl0 as <-.
    rewrite Hname in Hn. simpl in Hn. injection Hn as <-.
    rewrite replace_nonempty_nil in Hn' by done.
    exists items'. done.
  - intros Ht. by apply (modify_profile_data_succeeds l items).
Qed.

Lemma modify_profile_data_invents_name_witness :
  exists m h' items',
    modify_profile_data (VRef 1) "0.4" "0.8" 7 nameless_store = (Returned m, h') /\
    object_of h' m = Some (ODict items') /\
    dict_get "name" items' = Some (VStr "") /\
    dict_get "compatible_printers" items' = None.
Proof.
  destruct (modify_profile_data_invents_name 1 [("filament_type", VRef 0)] "0.4" "0.8" 7%N
              nameless_store eq_refl eq_refl ltac:(discriminate)) as [H _].
  eexists _, _.
  edestruct H as (items' & Hm & Hn & Hcp); [reflexivity|].
  exists items'. split; [reflexivity|]. split; [exact Hm|]. split; [exact Hn|].
  apply Hcp. reflexivity.
Defined.

(** * The store built by [json.load], and what [json.dump] accepts *)

Section JsonInduction.

Variable P : json -> Prop.
Hypothesis HNull : P JNull.
Hypothesis HBool : forall b, P (JBool b).
Hypothesis HInt : forall z, P (JInt z).
Hypothesis HFloat : forall bits, P (JFloat bits).
Hypothesis HStr : forall s, P (JStr s).
Hypothesis HArr : forall items, Forall P items -> P (JArr items).
Hypothesis HObj : forall members, Forall (fun kj => P (snd kj)) members -> P (JObj members).

Lemma json_nested_ind : forall j, P j.
Proof.
  fix IH 1.
  intros [| | | | |items|members];
    [apply HNull|apply HBool|apply HInt|apply HFloat|apply HStr| |].
  - apply HArr. revert items. fix IHitems 1.
    intros [|j items]; constructor; [apply IH|apply IHitems].
  - apply HObj. revert members. fix IHmembers 1.
    intros [|[k j] members]; constructor; [apply IH|apply IHmembers].
Qed.

End JsonInduction.

Lemma value_below_mono n n' v : n <= n' -> value_below n v -> value_below n' v.
Proof. destruct v; simpl; intros; lia || done. Qed.

Lemma heap_ordered_alloc h o :
  heap_ordered h -> object_below (length h) o -> heap_ordered (h ++ [o]).
Proof.
  intros Hh Ho i o' Hi. apply lookup_snoc_Some in Hi as [[Hlt Hi]|[-> ->]]; [by apply Hh|done].
Qed.

Lemma Forall_dict_set (Q : value -> Prop) k v d :
  Forall (fun kv => Q (snd kv)) d -> Q v -> Forall (fun kv => Q (snd kv)) (dict_set k v d).
Proof.
  intros Hd Hv. induction Hd as [|[k' v'] d Hx Hd IH]; simpl.
  - by constructor.
  - destruct (String.eqb k' k); constructor; done.
Qed.

Lemma Forall_dict_of_list (Q : value -> Prop) kvs d :
  Forall (fun kv => Q (snd kv)) kvs -> Forall (fun kv => Q (snd kv)) d ->
  Forall (fun kv => Q (snd kv)) (fold_left (fun d kv => dict_set (fst kv) (snd kv) d) kvs d).
Proof.
  intros Hkvs. revert d. induction Hkvs as [|kv kvs Hx _ IH]; simpl; intros d Hd; [done|].
  apply IH. by apply Forall_dict_set.
Qed.

Lemma load_ordered j h :
  heap_ordered h ->
  exists v ext, load j h = (Returned v, h ++ ext) /\
                heap_ordered (h ++ ext) /\ value_below (length (h ++ ext)) v.
Proof.
  revert h. induction j using json_nested_ind; intros h Hh;
    try (eexists _, []; rewrite app_nil_r; by repeat split).
  - (* arrays *)
    assert (Hitems : exists vs ext,
      (fix load_items (js : list json) : py (list value) :=
         match js with
         | [] => mret []
         | j' :: js' => v ← load j'; vs ← load_items js'; mret (v :: vs)
         end) items h = (Returned vs, h ++ ext) /\
      heap_ordered (h ++ ext) /\ Forall (value_below (length (h ++ ext))) vs).
    { revert h Hh. induction H as [|j js Hj _ IH]; intros h Hh.
      - exists [], []. rewrite app_nil_r. by repeat split.
      - destruct (Hj h Hh) as (v & e1 & E1 & O1 & B1).
        destruct (IH _ O1) as (vs & e2 & E2 & O2 & B2).
        exists (v :: vs), (e1 ++ e2). rewrite py_bind_eq, E1, py_bind_eq, E2.
        rewrite app_assoc. split; [done|]. split; [done|].
        constructor; [|done]. eapply value_below_mono; [|exact B1].
        rewrite !length_app. lia. }
    destruct Hitems as (vs & ext & E & O & B).
    exists (VRef (length (h ++ ext))), (ext ++ [OList vs]).
    simpl. rewrite py_bind_eq, E, alloc_eq. rewrite <- app_assoc.
    split; [done|]. rewrite app_assoc. split.
    + by apply heap_ordered_alloc.
    + simpl. rewrite (length_app (h ++ ext)). simpl. lia.
  - (* objects *)
    assert (Hmembers : exists kvs ext,
      (fix load_members (ms : list (string * json)) : py (list (string * value)) :=
         match ms with
         | [] => mret []
         | (k, j') :: ms' => v ← load j'; kvs ← load_members ms'; mret ((k, v) :: kvs)
         end) members h = (Returned kvs, h ++ ext) /\
      heap_ordered (h ++ ext) /\
      Forall (fun kv => value_below (length (h ++ ext)) (snd kv)) kvs).
    { revert h Hh. induction H as [|[k j] ms Hj _ IH]; intros h Hh.
      - exists [], []. rewrite app_nil_r. by repeat split.
      - destruct (Hj h Hh) as (v & e1 & E1 & O1 & B1).
        destruct (IH _ O1) as (kvs & e2 & E2 & O2 & B2).
        exists ((k, v) :: kvs), (e1 ++ e2). simpl in E1. rewrite py_bind_eq, E1, py_bind_eq, E2.
        rewrite app_assoc. split; [done|]. split; [done|].
        constructor; [|done]. eapply value_below_mono; [|exact B1].
        rewrite !length_app. lia. }
    destruct Hmembers as (kvs & ext & E & O & B).
    exists (VRef (length (h ++ ext))),
           (ext ++ [ODict (fold_left (fun d kv => dict_set (fst kv) (snd kv) d) kvs [])]).
    simpl. rewrite py_bind_eq, E, alloc_eq. rewrite <- app_assoc.
    split; [done|]. rewrite app_assoc. split.
    + apply heap_ordered_alloc; [done|]. simpl.
      apply (Forall_dict_of_list (value_below (length (h ++ ext)))); [done|constructor].
    + simpl. rewrite (length_app (h ++ ext)). simpl. lia.
Qed.

(** Dumping. *)

Lemma fmap_is_Some {A B} (f : A -> B) (o : option A) : is_Some (f <$> o) <-> is_Some o.
Proof. destruct o; simpl; split; intros [x Hx]; by eauto || discriminate. Qed.

Lemma dump_ref_is_Some n h l :
  is_Some (dump (S n) h (VRef l)) <->
  match h !! l with
  | Some (OList items) => Forall (fun v => is_Some (dump n h v)) items
  | Some (ODict items) => Forall (fun kv => is_Some (dump n h (snd kv))) items
  | None => False
  end.
Proof.
  simpl. destruct (h !! l) as [[items|items]|].
  - rewrite fmap_is_Some, mapM_is_Some. done.
  - rewrite fmap_is_Some, mapM_is_Some. apply Forall_proper; [|done].
    intros kv. simpl. apply fmap_is_Some.
  - split; [by intros [? ?]|done].
Qed.

Lemma dump_scalar_is_Some n h v : (forall l, v <> VRef l) -> is_Some (dump n h v).
Proof. destruct v, n; simpl; intros H; eauto; by destruct (H l). Qed.

Lemma dump_is_Some_mono n n' h ext v :
  n <= n' -> is_Some (dump n h v) -> is_Some (dump n' (h ++ ext) v).
Proof.
  revert n' v. induction n as [|n IH]; intros n' v Hle Hv.
  - destruct v; try (by apply dump_scalar_is_Some). simpl in Hv. by destruct Hv.
  - destruct v as [| | | | |l]; try (by apply dump_scalar_is_Some).
    destruct n' as [|n']; [lia|].
    apply dump_ref_is_Some in Hv. apply dump_ref_is_Some.
    destruct (h !! l) as [o|] eqn:Hl; [|done].
    rewrite (lookup_app_l_Some _ _ _ _ Hl).
    destruct o; (eapply Forall_impl; [exact Hv|]); simpl; intros; apply IH; (lia || done).
Qed.

Lemma dump_ordered h :
  heap_ordered h -> forall n v, n <= length h -> value_below n v -> is_Some (dump n h v).
Proof.
  intros Hh n. induction n as [|n IH]; intros v Hn Hv.
  - destruct v; try (by apply dump_scalar_is_Some). simpl in Hv. lia.
  - destruct v as [| | | | |l]; try (by apply dump_scalar_is_Some).
    simpl in Hv. apply dump_ref_is_Some.
    destruct (h !! l) as [o|] eqn:Hl; [|apply lookup_ge_None_1 in Hl; lia].
    pose proof (Hh _ _ Hl) as Ho.
    destruct o; simpl in Ho; (eapply Forall_impl; [exact Ho|]); simpl; intros x Hx;
      apply IH; try lia; (eapply value_below_mono; [|exact Hx]); lia.
Qed.

Lemma dump_str_list n h l items :
  h !! l = Some (OList items) -> Forall is_str items -> is_Some (dump (S n) h (VRef l)).
Proof.
  intros Hl Hs. apply dump_ref_is_Some. rewrite Hl.
  eapply Forall_impl; [exact Hs|]. intros v [s ->]. apply dump_scalar_is_Some. discriminate.
Qed.

Lemma lookup_second (h rest : heap) o o1 :
  (h ++ o :: o1 :: rest) !! (length h + 1) = Some o1.
Proof.
  rewrite lookup_app_r by lia.
  by replace (length h + 1 - length h) with 1 by lia.
Qed.

Lemma modify_profile_data_dumps data src tgt r h m h' :
  heap_ordered h -> value_below (length h) data ->
  modify_profile_data data src tgt r h = (Returned m, h') ->
  is_Some (json_dump h' m).
Proof.
  intros Hh Hdata H.
  apply modify_profile_data_returns in H
    as (l & items & name & -> & Hl & _ & -> & [Hcase _]).
  simpl in Hdata. unfold json_dump.
  assert (Hitems : forall n ext, length h <= n ->
            Forall (fun kv => is_Some (dump n (h ++ ext) (snd kv))) items).
  { intros n ext Hn. pose proof (Hh _ _ Hl) as Ho. simpl in Ho.
    eapply Forall_impl; [exact Ho|]. intros kv Hkv.
    apply (dump_is_Some_mono l); [lia|]. apply dump_ordered; [done|lia|done]. }
  destruct Hcase as [[_ ->]|(renamed & _ & Hren & ->)].
  - rewrite length_app. simpl length.
    replace (length h + 3) with (S (length h + 2)) by lia.
    apply dump_ref_is_Some. rewrite lookup_new.
    apply (Forall_dict_set (fun v => is_Some (dump (length h + 2) _ v))).
    + apply (Forall_dict_set (fun v => is_Some (dump (length h + 2) _ v))).
      * apply Hitems. lia.
      * apply dump_scalar_is_Some. discriminate.
    + replace (length h + 2) with (S (length h + 1)) at 1 by lia.
      eapply dump_str_list.
      * apply (lookup_last_alloc h [OList [VStr ""]]).
      * repeat constructor. by eexists.
  - rewrite length_app. simpl length.
    replace (length h + 4) with (S (length h + 3)) by lia.
    apply dump_ref_is_Some. rewrite lookup_new.
    apply (Forall_dict_set (fun v => is_Some (dump (length h + 3) _ v))).
    + apply (Forall_dict_set (fun v => is_Some (dump (length h + 3) _ v))).
      * apply (Forall_dict_set (fun v => is_Some (dump (length h + 3) _ v))).
        -- apply Hitems. lia.
        -- apply dump_scalar_is_Some. discriminate.
      * replace (length h + 3) with (S (length h + 2)) at 1 by lia.
        eapply dump_str_list; [apply lookup_second|exact Hren].
    + replace (length h + 3) with (S (length h + 2)) at 1 by lia.
      eapply dump_str_list.
      * apply (lookup_last_alloc h [OList renamed; OList [VStr ""]]).
      * repeat constructor. by eexists.
Qed.

Lemma load_then_modify_dumps j o h src tgt r m h' data :
  load j [] = (o, h) -> o = Returned data ->
  modify_profile_data data src tgt r h = (Returned m, h') ->
  is_Some (json_dump h' m).
Proof.
  intros Hload -> Hm.
  destruct (load_ordered j [] ltac:(by intros i o Hi)) as (v & ext & E & O & B).
  rewrite Hload in E. injection E as -> ->.
  by eapply modify_profile_data_dumps.
Qed.

(** * The batch converter: one file, then the whole run *)

Lemma lookup_entry_app name d ext e :
  lookup_entry name d = Some e -> lookup_entry name (d ++ ext) = Some e.
Proof.
  induction d as [|[n e'] d IH]; simpl; [done|].
  destruct (String.eqb n name); [done|exact IH].
Qed.

Lemma read_json_app name d ext :
  is_Some (lookup_entry name d) -> read_json (d ++ ext) name = read_json d name.
Proof. intros [e He]. unfold read_json. by rewrite (lookup_entry_app _ _ _ _ He), He. Qed.

Lemma path_exists_app name d ext :
  path_exists d name = true -> path_exists (d ++ ext) name = true.
Proof.
  unfold path_exists. destruct (lookup_entry name d) as [e|] eqn:E; [|done].
  by rewrite (lookup_entry_app _ _ _ _ E).
Qed.

Lemma lookup_entry_snoc name d e : is_Some (lookup_entry name (d ++ [(name, e)])).
Proof.
  induction d as [|[n e'] d IH]; simpl.
  - rewrite String.eqb_refl. by eexists.
  - destruct (String.eqb n name); [by eexists|exact IH].
Qed.

Lemma path_exists_snoc name d e : path_exists (d ++ [(name, e)]) name = true.
Proof. unfold path_exists. by destruct (lookup_entry_snoc name d e) as [x ->]. Qed.

Lemma load_returns j : exists data h, load j [] = (Returned data, h).
Proof.
  destruct (load_ordered j [] ltac:(by intros i o Hi)) as (v & ext & E & _). eauto.
Qed.

Lemma transforms_any_draw src tgt d name j data h r :
  transforms src tgt d name ->
  read_json d name = Returned j -> load j [] = (Returned data, h) ->
  exists m h', modify_profile_data data src tgt r h = (Returned m, h').
Proof.
  intros (j0 & data0 & h0 & r0 & m0 & h0' & Hr & Hl & Hm) Hr' Hl'.
  rewrite Hr in Hr'. injection Hr' as ->. rewrite Hl in Hl'. injection Hl' as -> ->.
  destruct (modify_profile_data data src tgt r h) as [[m|e] h1] eqn:E; [eauto|].
  apply (modify_profile_data_raises_any_draw _ _ _ _ r0) in E. congruence.
Qed.

Lemma transforms_app src tgt d ext name :
  is_Some (lookup_entry name d) ->
  transforms src tgt (d ++ ext) name <-> transforms src tgt d name.
Proof.
  intros Hn. unfold transforms. by rewrite (read_json_app _ _ _ Hn).
Qed.

Section BatchFacts.

Variable urandom : nat -> N.
Variables src tgt : string.

Local Notation "'cfile'" := (convert_file urandom src tgt).
Local Notation "'cfiles'" := (convert_files urandom src tgt).

Lemma convert_file_cases w name :
  (~ transforms src tgt (files w) name /\ exists e, cfile w name = (Failed e, w))
  \/ (transforms src tgt (files w) name /\
      path_exists (files w) (Str.replace src tgt name) = true /\
      cfile w name = (Skipped, mk_world (files w) (S (draws w))))
  \/ (transforms src tgt (files w) name /\
      path_exists (files w) (Str.replace src tgt name) = false /\
      exists j', cfile w name =
        (Created, mk_world (files w ++ [(Str.replace src tgt name, RegularFile (JsonText j'))])
                           (S (draws w)))).
Proof.
  unfold convert_file.
  destruct (read_json (files w) name) as [j|e] eqn:Hr.
  2:{ left. split; [|eauto]. intros (j0 & ? & ? & ? & ? & ? & Hr' & _). congruence. }
  destruct (load_returns j) as (data & h & Hl). rewrite Hl.
  destruct (modify_profile_data data src tgt (urandom (draws w)) h) as [[m|e] h'] eqn:Hm.
  2:{ left. split; [|eauto]. intros T.
      destruct (transforms_any_draw _ _ _ _ _ _ _ (urandom (draws w)) T Hr Hl) as (? & ? & ?).
      congruence. }
  assert (T : transforms src tgt (files w) name) by (by exists j, data, h, (urandom (draws w)), m, h').
  simpl files. simpl draws.
  destruct (path_exists (files w) (Str.replace src tgt name)) eqn:Hex.
  - right. left. done.
  - right. right. split; [done|]. split; [done|].
    destruct (load_then_modify_dumps _ _ _ _ _ _ _ _ _ Hl eq_refl Hm) as [j' ->]. eauto.
Qed.


Lemma convert_file_extends w name v w' :
  cfile w name = (v, w') ->
  exists ext, files w' = files w ++ ext /\
              Forall (fun e => exists n, fst e = Str.replace src tgt n) ext.
Proof.
  intros H.
  destruct (convert_file_cases w name) as [[_ [e E]]|[(_ & _ & E)|(_ & _ & j' & E)]];
    rewrite E in H; injection H as <- <-; simpl.
  - exists []. by rewrite app_nil_r.
  - exists []. by rewrite app_nil_r.
  - eexists. split; [done|]. repeat constructor. by eexists.
Qed.

Lemma convert_files_extends names r w r' w' :
  cfiles names r w = (r', w') ->
  exists ext, files w' = files w ++ ext /\
              Forall (fun e => exists n, fst e = Str.replace src tgt n) ext.
Proof.
  revert r w. induction names as [|name names IH]; simpl; intros r w H.
  - injection H as <- <-. exists []. by rewrite app_nil_r.
  - destruct (cfile w name) as [v w1] eqn:E.
    apply convert_file_extends in E as (e1 & E1 & F1).
    apply IH in H as (e2 & E2 & F2).
    exists (e1 ++ e2). rewrite E2, E1, app_assoc. split; [done|]. by apply Forall_app.
Qed.

Lemma convert_files_total names r w r' w' :
  cfiles names r w = (r', w') -> total r' = total r + length names.
Proof.
  revert r w. induction names as [|name names IH]; simpl; intros r w H.
  - injection H as <- <-. lia.
  - destruct (cfile w name) as [v w1] eqn:E. apply IH in H. rewrite H.
    destruct v; unfold total; simpl; lia.
Qed.

Lemma convert_files_app l1 l2 r w :
  cfiles (l1 ++ l2) r w = let '(r1, w1) := cfiles l1 r w in cfiles l2 r1 w1.
Proof.
  revert r w. induction l1 as [|name l1 IH]; simpl; intros r w.
  - by destruct (cfiles l2 r w).
  - destruct (cfile w name) as [v w1]. apply IH.
Qed.

Lemma tally_add_error r v : tally (add_error r) v = add_error (tally r v).
Proof. by destruct v. Qed.

Lemma convert_files_add_error names r w :
  cfiles names (add_error r) w =
  let '(r', w') := cfiles names r w in (add_error r', w').
Proof.
  revert r w. induction names as [|name names IH]; simpl; intros r w; [done|].
  destruct (cfile w name) as [v w1]. rewrite tally_add_error. apply IH.
Qed.


Lemma second_run names : forall r1 w1 r2 w2 r1' w1',
  Forall (fun n => is_Some (lookup_entry n (files w1))) names ->
  cfiles names r1 w1 = (r1', w1') ->
  files w2 = files w1' ->
  exists r2' w2',
    cfiles names r2 w2 = (r2', w2') /\ files w2' = files w2 /\
    success r2' = success r2 /\
    skipped r2' + success r1 + skipped r1 = skipped r2 + success r1' + skipped r1' /\
    errors r2' + errors r1 = errors r2 + errors r1'.
Proof.
  induction names as [|name names IH]; simpl; intros r1 w1 r2 w2 r1' w1' Hin H1 Hw.
  - injection H1 as <- <-. exists r2, w2. repeat split; lia.
  - apply Forall_cons in Hin as [Hname Hin].
    destruct (cfile w1 name) as [v w1a] eqn:E1.
    destruct (convert_file_extends _ _ _ _ E1) as (e1 & X1 & _).
    destruct (convert_files_extends _ _ _ _ _ H1) as (e2 & X2 & _).
    assert (Hw2 : files w2 = files w1 ++ (e1 ++ e2)) by (by rewrite Hw, X2, X1, app_assoc).
    assert (Hin' : Forall (fun n => is_Some (lookup_entry n (files w1a))) names).
    { eapply Forall_impl; [exact Hin|]. intros n [e He]. rewrite X1.
      rewrite (lookup_entry_app _ _ _ _ He). by eexists. }
    assert (HT : transforms src tgt (files w2) name <-> transforms src tgt (files w1) name).
    { rewrite Hw2. by apply transforms_app. }
    assert (Hstep : exists v2 w2a, cfile w2 name = (v2, w2a) /\ files w2a = files w2 /\
              match v with Failed _ => exists e, v2 = Failed e | _ => v2 = Skipped end).
    { destruct (convert_file_cases w1 name) as [[NT [e E]]|[(T & Hex & E)|(T & Hex & j' & E)]];
        rewrite E in E1; injection E1 as <- <-;
        destruct (convert_file_cases w2 name) as [[NT2 [e2' E2]]|[(T2 & Hex2 & E2)|(T2 & Hex2 & j2 & E2)]];
        try (by destruct NT; apply HT); try (by destruct NT2; apply HT);
        try (by rewrite E2; eexists _, _; eauto).
      - rewrite Hw2, (path_exists_app _ _ _ Hex) in Hex2. discriminate.
      - rewrite Hw, X2 in Hex2. simpl in Hex2.
        rewrite (path_exists_app _ _ _ (path_exists_snoc _ _ _)) in Hex2. discriminate. }
    destruct Hstep as (v2 & w2a & E2 & Hf2 & Hv).
    rewrite E2.
    destruct (IH (tally r1 v) w1a (tally r2 v2) w2a r1' w1' Hin' H1 ltac:(congruence))
      as (r2' & w2' & E & Hf & Hs & Hk & He).
    exists r2', w2'. split; [done|]. split; [congruence|].
    destruct v; [subst v2|subst v2|destruct Hv as [e' ->]]; simpl in *; repeat split; lia.
Qed.

End BatchFacts.

(** * Whole runs of the batch converter *)

Lemma glob_directory_app d ext pat :
  glob (Directory (d ++ ext)) pat =
  glob (Directory d) pat ++ List.filter (fnmatch pat) (map fst ext).
Proof. unfold glob. simpl. by rewrite map_app, List.filter_app. Qed.

Lemma glob_listed d pat :
  Forall (fun n => is_Some (lookup_entry n d)) (glob (Directory d) pat).
Proof.
  unfold glob. apply List.Forall_forall. intros name Hin.
  apply List.filter_In in Hin as [Hin _]. simpl in Hin.
  induction d as [|[n e] d IH]; simpl in *; [done|].
  destruct (String.eqb_spec n name) as [->|Hne]; [by eexists|].
  destruct Hin as [->|Hin]; [done|by apply IH].
Qed.

Section Runs.

Variable urandom : nat -> N.

Lemma process_profiles_extends src tgt d n o p' n' :
  process_profiles urandom src tgt (Directory d) n = (o, p', n') ->
  exists ext, p' = Directory (d ++ ext) /\
    Forall (fun e => exists name, fst e = Str.replace src tgt name) ext.
Proof.
  unfold process_profiles.
  destruct (glob (Directory d) _) as [|name names] eqn:G.
  - intros [= _ <- _]. exists []. by rewrite app_nil_r.
  - destruct (convert_files _ _ _ _ _ _) as [r w] eqn:E. intros [= _ <- _].
    apply convert_files_extends in E as (ext & -> & F). eauto.
Qed.

Lemma process_profiles_twice d n r1 p1 n1 :
  process_profiles urandom "0.4" "0.8" (Directory d) n = (Returned r1, p1, n1) ->
  exists r2 n2,
    process_profiles urandom "0.4" "0.8" p1 n1 = (Returned r2, p1, n2) /\
    success r2 = 0 /\ skipped r2 = success r1 + skipped r1 /\ errors r2 = errors r1.
Proof.
  intros H. pose proof H as X. apply process_profiles_extends in X as (ext & -> & Hext).
  revert H. unfold process_profiles.
  rewrite glob_directory_app, (filter_none _ (map fst ext)), app_nil_r.
  2:{ apply Forall_fmap. eapply Forall_impl; [exact Hext|].
      intros e [name Hn]. simpl. rewrite Hn. apply replaced_name_not_matched. }
  destruct (glob (Directory d) _) as [|name names] eqn:G; [discriminate|].
  destruct (convert_files _ _ _ _ _ (mk_world d n)) as [r w] eqn:E.
  intros [= -> Hw <-].
  edestruct (second_run urandom "0.4" "0.8" (name :: names)
              (mk_results 0 0 0) (mk_world d n) (mk_results 0 0 0)
              (mk_world (d ++ ext) (draws w)))
    as (r2 & w2 & E2 & Hf & Hs & Hk & He); [| exact E | done |].
  - rewrite <- G. apply glob_listed.
  - rewrite E2. simpl in *. exists r2, (draws w2). rewrite Hf.
    repeat split; lia.
Qed.

Lemma convert_file_garbled src tgt w name :
  lookup_entry name (files w) = Some (RegularFile Garbled) ->
  convert_file urandom src tgt w name = (Failed JSONDecodeError, w).
Proof. intros H. unfold convert_file, read_json. by rewrite H. Qed.

Lemma convert_files_no_errors src tgt names : forall r w r' w',
  Forall (fun name => transforms src tgt (files w) name) names ->
  convert_files urandom src tgt names r w = (r', w') -> errors r' = errors r.
Proof.
  induction names as [|name names IH]; simpl; intros r w r' w' HT H.
  - by injection H as <- <-.
  - apply Forall_cons in HT as [T HT].
    destruct (convert_file urandom src tgt w name) as [v w1] eqn:E.
    assert (Hv : (forall e, v <> Failed e) /\ exists ext, files w1 = files w ++ ext).
    { destruct (convert_file_cases urandom src tgt w name)
        as [[NT _]|[(_ & _ & E')|(_ & _ & j' & E')]]; [done| |];
        rewrite E' in E; injection E as <- <-; (split; [done|]); simpl.
      - exists []. by rewrite app_nil_r.
      - by eexists. }
    destruct Hv as [Hv [ext Hext]].
    apply IH in H.
    + rewrite H. destruct v; simpl; try done. by destruct (Hv e).
    + eapply Forall_impl; [exact HT|]. intros n' Tn. rewrite Hext.
      apply transforms_app; [|done].
      destruct Tn as (j & ? & ? & ? & ? & ? & Hr & _). unfold read_json in Hr.
      destruct (lookup_entry n' (files w)); [by eexists|done].
Qed.

Lemma convert_files_cons src tgt name rest r w :
  convert_files urandom src tgt (name :: rest) r w =
  let '(v, w') := convert_file urandom src tgt w name in
  convert_files urandom src tgt rest (tally r v) w'.
Proof. reflexivity. Qed.

Lemma process_profiles_directory src tgt d n :
  glob (Directory d) ("*" +:+ src +:+ "*.json") <> [] ->
  process_profiles urandom src tgt (Directory d) n =
  let '(r, w) := convert_files urandom src tgt (glob (Directory d) ("*" +:+ src +:+ "*.json"))
                   (mk_results 0 0 0) (mk_world d n) in
  (Returned r, Directory (files w), draws w).
Proof. unfold process_profiles. by destruct (glob (Directory d) _). Qed.

End Runs.

(** * Re-running the converter *)

(** A directory that already holds the 0.8 file next to the 0.4 one: the
    first run skips it, so the second run's [skipped] (1) is not the first
    run's [success] (0). *)
Lemma rerun_skipped_differs_from_success :
  process_profiles zero_draws "0.4" "0.8" (Directory converted_before) 0
    = (Returned (mk_results 0 1 0), Directory converted_before, 1) /\
  process_profiles zero_draws "0.4" "0.8" (Directory converted_before) 1
    = (Returned (mk_results 0 1 0), Directory converted_before, 2) /\
  skipped (mk_results 0 1 0) <> success (mk_results 0 1 0).
Proof. split; [|split]; [by vm_compute|by vm_compute|discriminate]. Qed.

(** C1. [process_profiles] never overwrites: for any sizes, a run only adds
    entries to the directory and every entry that was there is still there
    with the same content; a file whose target name exists is never
    [Created], leaves the directory as it was, and is [Skipped] whenever it
    loads and transforms.  Running "0.4" to "0.8" twice: the second run
    returns with [success = 0], [errors] as in the first run, the directory
    unchanged, and [skipped] equal to the first run's [success + skipped]
    (not its [success] alone). *)
Theorem process_profiles_rerun urandom d n :
  (forall src tgt o p' n',
     process_profiles urandom src tgt (Directory d) n = (o, p', n') ->
     exists ext, p' = Directory (d ++ ext) /\
       forall name e, lookup_entry name d = Some e ->
                      lookup_entry name (d ++ ext) = Some e) /\
  (forall src tgt w name,
     path_exists (files w) (Str.replace src tgt name) = true ->
     exists v n', convert_file urandom src tgt w name = (v, mk_world (files w) n') /\
                  v <> Created /\
                  (transforms src tgt (files w) name -> v = Skipped)) /\
  (forall r1 p1 n1,
     process_profiles urandom "0.4" "0.8" (Directory d) n = (Returned r1, p1, n1) ->
     exists r2 n2,
       process_profiles urandom "0.4" "0.8" p1 n1 = (Returned r2, p1, n2) /\
       success r2 = 0 /\ skipped r2 = success r1 + skipped r1 /\ errors r2 = errors r1).
Proof.
  split; [|split].
  - intros src tgt o p' n' H. apply process_profiles_extends in H as (ext & -> & _).
    exists ext. split; [done|]. intros name e. apply lookup_entry_app.
  - intros src tgt w name Hex.
    destruct (convert_file_cases urandom src tgt w name)
      as [[NT [e E]]|[(T & _ & E)|(_ & Hno & _)]].
    + exists (Failed e), (draws w). destruct w. by repeat split.
    + exists Skipped, (S (draws w)). by repeat split.
    + congruence.
  - apply process_profiles_twice.
Qed.

Lemma process_profiles_rerun_witness :
  exists r1 p1 n1 r2 n2,
    process_profiles zero_draws "0.4" "0.8" (Directory one_garbled) 0 = (Returned r1, p1, n1) /\
    process_profiles zero_draws "0.4" "0.8" p1 n1 = (Returned r2, p1, n2) /\
    success r2 = 0 /\ skipped r2 = success r1 + skipped r1 /\ errors r2 = errors r1.
Proof.
  destruct (process_profiles_rerun zero_draws one_garbled 0) as (_ & _ & H).
  eexists _, _, _.
  edestruct H as (r2 & n2 & H2); [vm_compute; reflexivity|].
  exists r2, n2. split; [reflexivity|exact H2].
Defined.

(** * No matching file *)

(** C4. For a source size accepted by [validate_nozzle_size], if no
    profile file of the directory, that is no listed name matching
    [*.json], contains the size, [process_profiles] raises
    [NozzleConversionError] with the size in its message; the file system is
    the one it was given and no identifier was drawn, so no file was
    processed or written.  Names that do not end in [.json] may contain the
    size. *)
Theorem process_profiles_no_match urandom src tgt p n :
  validate_nozzle_size src = true ->
  Forall (fun name => fnmatch "*.json" name = true -> Str.contains src name = false)
         (entry_names p) ->
  process_profiles urandom src tgt p n =
    (Raised (NozzleConversionError
               ("🔍 No profiles found matching '" +:+ src +:+ "' nozzle size")), p, n).
Proof.
  intros Hv Hd. apply validate_nozzle_size_literal in Hv. unfold process_profiles.
  assert (G : glob p ("*" +:+ src +:+ "*.json") = []).
  { unfold glob. apply filter_none.
    eapply Forall_impl; [exact Hd|].
    intros e He.
    destruct (fnmatch ("*" +:+ src +:+ "*.json") e) eqn:F; [|done].
    pose proof (glob_size_contains _ _ _ Hv F) as C.
    rewrite He in C; [done|]. by apply (fnmatch_size_json src). }
  rewrite G. by destruct p.
Qed.

Lemma process_profiles_no_match_witness :
  process_profiles zero_draws "0.4" "0.8" (Directory only_06) 0 =
    (Raised (NozzleConversionError "🔍 No profiles found matching '0.4' nozzle size"),
     Directory only_06, 0).
Proof.
  apply (process_profiles_no_match zero_draws "0.4" "0.8" (Directory only_06) 0).
  - reflexivity.
  - constructor; [intros H; vm_compute in H; discriminate H|].
    constructor; [intros _; reflexivity|].
    constructor; [intros _; reflexivity|constructor].
Defined.

(** * One unreadable file among the matched ones *)

(** An entry found only after an extension comes from the extension. *)
Lemma lookup_entry_new (P : entry -> Prop) name d ext e :
  lookup_entry name d = None -> lookup_entry name (d ++ ext) = Some e ->
  Forall (fun x => P (snd x)) ext -> P e.
Proof.
  intros Hd He Hext. induction d as [|[n e'] d IH]; simpl in *.
  - induction Hext as [|[n e'] ext Hx _ IH]; simpl in *; [done|].
    destruct (String.eqb n name); [by injection He as <-|by apply IH].
  - destruct (String.eqb n name); [done|by apply IH].
Qed.

Lemma transforms_listed src tgt d name :
  transforms src tgt d name -> is_Some (lookup_entry name d).
Proof.
  intros (j & _ & _ & _ & _ & _ & H & _). unfold read_json in H.
  by destruct (lookup_entry name d).
Qed.

Section BatchTargets.

Variable urandom : nat -> N.
Variables src tgt : string.

(** One turn of the loop adds parsed documents only, and after it the
    target of a file that transforms is there. *)
Lemma convert_file_target w name v w' :
  convert_file urandom src tgt w name = (v, w') ->
  exists ext,
    files w' = files w ++ ext /\
    Forall (fun x => exists j, snd x = RegularFile (JsonText j)) ext /\
    (transforms src tgt (files w) name ->
     path_exists (files w') (Str.replace src tgt name) = true).
Proof.
  intros H.
  destruct (convert_file_cases urandom src tgt w name)
    as [[NT [e E]]|[(_ & Hex & E)|(_ & _ & j' & E)]];
    rewrite E in H; injection H as <- <-; simpl.
  - exists []. rewrite app_nil_r. by repeat split.
  - exists []. rewrite app_nil_r. by repeat split.
  - eexists. split; [done|]. split; [repeat constructor; by eexists|].
    intros _. apply path_exists_snoc.
Qed.

Lemma convert_files_adds names : forall r w r' w',
  convert_files urandom src tgt names r w = (r', w') ->
  exists ext,
    files w' = files w ++ ext /\
    Forall (fun x => exists j, snd x = RegularFile (JsonText j)) ext.
Proof.
  induction names as [|name names IH]; intros r w r' w' H; simpl in H.
  - injection H as <- <-. exists []. by rewrite app_nil_r.
  - destruct (convert_file urandom src tgt w name) as [v w1] eqn:E.
    apply convert_file_target in E as (e1 & E1 & F1 & _).
    apply IH in H as (e2 & E2 & F2).
    exists (e1 ++ e2). rewrite E2, E1, app_assoc. split; [done|]. by apply Forall_app.
Qed.

(** After the loop, the target of every file of the list that transforms
    is there: the entry it had before the loop, or a parsed document. *)
Lemma convert_files_targets names : forall r w r' w' name,
  convert_files urandom src tgt names r w = (r', w') ->
  In name names -> transforms src tgt (files w) name ->
  exists e,
    lookup_entry (Str.replace src tgt name) (files w') = Some e /\
    (lookup_entry (Str.replace src tgt name) (files w) = None ->
     exists j, e = RegularFile (JsonText j)).
Proof.
  induction names as [|n0 names IH]; intros r w r' w' name H Hin T; [done|].
  simpl in H. destruct (convert_file urandom src tgt w n0) as [v w1] eqn:E.
  apply convert_file_target in E as (e1 & E1 & F1 & Hn0).
  assert (Hlate : forall e,
            lookup_entry (Str.replace src tgt name) (files w1) = Some e ->
            lookup_entry (Str.replace src tgt name) (files w') = Some e /\
            (lookup_entry (Str.replace src tgt name) (files w) = None ->
             exists j, e = RegularFile (JsonText j))).
  { intros e He. split.
    - destruct (convert_files_adds _ _ _ _ _ H) as (e2 & -> & _).
      by apply lookup_entry_app.
    - intros Hno. rewrite E1 in He.
      by apply (lookup_entry_new (fun e => exists j, e = RegularFile (JsonText j))
                  _ _ _ _ Hno He). }
  destruct (lookup_entry (Str.replace src tgt name) (files w1)) as [e|] eqn:L.
  { exists e. by apply Hlate. }
  destruct Hin as [->|Hin].
  - apply Hn0 in T. unfold path_exists in T. by rewrite L in T.
  - destruct (IH _ _ _ _ name H Hin) as (e & He & Hj).
    + rewrite E1. by apply transforms_app; [apply transforms_listed in T|].
    + exists e. split; [done|]. intros _. by apply Hj.
Qed.

End BatchTargets.

(** C5. When one of the matched files does not parse, the run still
    returns: its counters are those of converting the other matched files
    in the same order, with [errors] one higher; the files written and the
    identifiers drawn are those of the other files; the three counters add
    up to the number of matched files.  Every other matched file that
    loads and transforms is processed: its turn ends [Created] or
    [Skipped] with its target in the directory, and the target is there
    after the run, as the entry that was there before the run or else as
    a parsed document.  When every other file loads and transforms,
    [errors] is exactly 1 and the other files are all counted as created
    or skipped. *)
Theorem process_profiles_garbled_file urandom src tgt d n pre bad post :
  glob (Directory d) ("*" +:+ src +:+ "*.json") = pre ++ bad :: post ->
  lookup_entry bad d = Some (RegularFile Garbled) ->
  exists r w,
    convert_files urandom src tgt (pre ++ post) (mk_results 0 0 0) (mk_world d n) = (r, w) /\
    process_profiles urandom src tgt (Directory d) n
      = (Returned (add_error r), Directory (files w), draws w) /\
    total (add_error r) = length (pre ++ bad :: post) /\
    (forall l1 name l2, pre ++ post = l1 ++ name :: l2 -> transforms src tgt d name ->
       exists r1 w1 v w2,
         convert_files urandom src tgt l1 (mk_results 0 0 0) (mk_world d n) = (r1, w1) /\
         convert_file urandom src tgt w1 name = (v, w2) /\
         (v = Created \/ v = Skipped) /\
         path_exists (files w2) (Str.replace src tgt name) = true) /\
    (forall name, In name (pre ++ post) -> transforms src tgt d name ->
       exists e,
         lookup_entry (Str.replace src tgt name) (files w) = Some e /\
         (lookup_entry (Str.replace src tgt name) d = None ->
          exists j, e = RegularFile (JsonText j))) /\
    (Forall (fun name => transforms src tgt d name) (pre ++ post) ->
     errors (add_error r) = 1 /\
     success (add_error r) + skipped (add_error r) = length (pre ++ post)).
Proof.
  intros G Hbad. rewrite process_profiles_directory by (rewrite G; by destruct pre).
  rewrite G, !convert_files_app.
  destruct (convert_files urandom src tgt pre _ _) as [r0 w0] eqn:E0.
  rewrite convert_files_cons.
  pose proof E0 as X. apply convert_files_extends in X as (ext & Hext & _). simpl in Hext.
  rewrite convert_file_garbled by (by rewrite Hext; apply lookup_entry_app).
  change (tally r0 (Failed JSONDecodeError)) with (add_error r0).
  rewrite convert_files_add_error.
  destruct (convert_files urandom src tgt post r0 w0) as [r w] eqn:E1.
  assert (E : convert_files urandom src tgt (pre ++ post) (mk_results 0 0 0) (mk_world d n)
              = (r, w)) by (by rewrite convert_files_app, E0).
  exists r, w. split; [done|]. split; [done|].
  pose proof (convert_files_total _ _ _ _ _ _ _ _ E) as Ht.
  split; [|split; [|split]].
  - rewrite !length_app in *. simpl. unfold total in *. simpl in *. lia.
  - intros l1 name l2 _ T.
    destruct (convert_files urandom src tgt l1 (mk_results 0 0 0) (mk_world d n))
      as [r1 w1] eqn:E1'.
    exists r1, w1.
    destruct (convert_files_extends _ _ _ _ _ _ _ _ E1') as (ext1 & Hext1 & _).
    simpl in Hext1.
    assert (T1 : transforms src tgt (files w1) name).
    { rewrite Hext1. apply transforms_app; [by apply transforms_listed in T|done]. }
    destruct (convert_file_cases urandom src tgt w1 name)
      as [[NT _]|[(_ & Hex & Ec)|(_ & _ & j' & Ec)]]; [done| |].
    + eexists Skipped, _. split; [done|]. split; [exact Ec|]. split; [by right|done].
    + eexists Created, _. split; [done|]. split; [exact Ec|]. split; [by left|].
      apply path_exists_snoc.
  - intros name Hin T.
    by apply (convert_files_targets urandom src tgt _ _ _ _ _ name E).
  - intros HT. apply convert_files_no_errors in E; [|done].
    unfold total in Ht. simpl in *. lia.
Qed.

Lemma process_profiles_garbled_file_witness :
  exists r d' n',
    process_profiles zero_draws "0.4" "0.8" (Directory one_garbled) 0
      = (Returned r, Directory d', n') /\
    total r = 3 /\
    is_Some (lookup_entry "PLA@0.8.json" d') /\ is_Some (lookup_entry "PETG@0.8.json" d').
Proof.
  assert (T : transforms "0.4" "0.8" one_garbled "PLA@0.4.json" /\
              transforms "0.4" "0.8" one_garbled "PETG@0.4.json").
  { split; eexists _, _, _, 0%N, _, _;
      (split; [reflexivity|split; [reflexivity|reflexivity]]). }
  destruct T as [T1 T2].
  destruct (process_profiles_garbled_file zero_draws "0.4" "0.8" one_garbled 0
              ["PLA@0.4.json"] "ABS@0.4.json" ["PETG@0.4.json"] eq_refl eq_refl)
    as (r & w & _ & Hp & Ht & _ & Hw & _).
  exists (add_error r), (files w), (draws w).
  split; [exact Hp|]. split; [exact Ht|]. split.
  - destruct (Hw "PLA@0.4.json" ltac:(left; reflexivity) T1) as (e & He & _).
    exists e. exact He.
  - destruct (Hw "PETG@0.4.json" ltac:(right; left; reflexivity) T2) as (e & He & _).
    exists e. exact He.
Defined.

(** * Sorting by a key *)

Lemma key_lt_asym a b : key_lt a b = true -> key_lt b a = false.
Proof.
  revert b. induction a as [|x a IH]; intros [|y b]; simpl; try done.
  destruct (Z.eqb_spec x y) as [->|Hne].
  - rewrite Z.eqb_refl. apply IH.
  - destruct (Z.eqb_spec y x) as [->|_]; [done|]. intros H. apply Z.ltb_lt in H.
    apply Z.ltb_ge. lia.
Qed.

Lemma key_le_trans a b c : key_le a b -> key_le b c -> key_le a c.
Proof.
  unfold key_le. revert a b. induction c as [|z c IH]; intros [|x a] [|y b]; simpl; try done.
  destruct (Z.eqb_spec y x) as [Hyx|Hyx]; destruct (Z.eqb_spec z y) as [Hzy|Hzy];
    destruct (Z.eqb_spec z x) as [Hzx|Hzx]; subst; try done;
    rewrite ?Z.ltb_ge; try lia.
  apply IH.
Qed.

Lemma key_le_nil_r a : key_le a [] -> a = [].
Proof. unfold key_le. by destruct a. Qed.

Section SortFacts.

Context {A K : Type}.
Variable lt : K -> K -> bool.
Hypothesis lt_asym : forall a b, lt a b = true -> lt b a = false.
Hypothesis le_trans : forall a b c, lt b a = false -> lt c b = false -> lt c a = false.

Local Notation "'le'" := (fun x y : K * A => lt (fst y) (fst x) = false).

Lemma insert_sorted_perm (x : K * A) l : Permutation (insert_sorted lt x l) (x :: l).
Proof.
  induction l as [|y l IH]; simpl; [done|].
  destruct (lt (fst y) (fst x)); [|done].
  rewrite IH. apply perm_swap.
Qed.

Lemma stable_sort_perm (l : list (K * A)) : Permutation (stable_sort lt l) l.
Proof.
  induction l as [|x l IH]; simpl; [done|].
  rewrite insert_sorted_perm. by constructor.
Qed.

Lemma insert_sorted_sorted (x : K * A) l :
  StronglySorted le l -> StronglySorted le (insert_sorted lt x l).
Proof.
  induction l as [|y l IH]; simpl; intros Hs.
  - repeat constructor.
  - apply StronglySorted_inv in Hs as [Hs Hy].
    destruct (lt (fst y) (fst x)) eqn:Hyx.
    + constructor; [by apply IH|].
      rewrite insert_sorted_perm. constructor; [by apply lt_asym|done].
    + constructor; [by constructor|]. constructor; [done|].
      eapply Forall_impl; [exact Hy|]. intros z Hz. simpl in *. by eapply le_trans.
Qed.

Lemma stable_sort_sorted (l : list (K * A)) : StronglySorted le (stable_sort lt l).
Proof.
  induction l as [|x l IH]; simpl; [constructor|]. by apply insert_sorted_sorted.
Qed.

Lemma sort_by_key_Returned (key : A -> outcome K) l sorted :
  sort_by_key lt key l = Returned sorted ->
  exists keys,
    mapM key sorted = Returned keys /\
    StronglySorted (fun a b => lt b a = false) keys /\
    Permutation sorted l.
Proof.
  unfold sort_by_key. rewrite outcome_bind_eq.
  destruct (mapM key l) as [keys|e] eqn:Hk; [|done]. intros [= <-].
  apply mapM_Returned in Hk.
  set (ps := stable_sort lt (zip keys l)).
  assert (Hal : Forall (fun p => key (snd p) = Returned (fst p)) ps).
  { unfold ps. rewrite stable_sort_perm.
    clear ps. induction Hk; simpl; constructor; done. }
  exists (map fst ps). split; [|split].
  - apply mapM_Returned. clear -Hal. induction Hal; simpl; constructor; done.
  - pose proof (stable_sort_sorted (zip keys l)) as Hs. fold ps in Hs.
    clear -Hs. induction Hs as [|p ps' Hs IH Hp]; simpl; constructor; [done|].
    clear -Hp. induction Hp; simpl; constructor; done.
  - unfold ps. rewrite stable_sort_perm.
    change (map snd (zip keys l)) with ((zip keys l).*2).
    rewrite snd_zip; [done|]. apply Forall2_length in Hk. lia.
Qed.

Lemma sort_by_key_Raised (key : A -> outcome K) l x e0 :
  In x l -> key x = Raised e0 -> exists e, sort_by_key lt key l = Raised e.
Proof.
  intros Hin Hx. unfold sort_by_key. rewrite outcome_bind_eq.
  destruct (mapM_Raised key l x e0 Hin Hx) as [e ->]. eauto.
Qed.

Lemma sort_by_key_Raised_inv (key : A -> outcome K) l e :
  sort_by_key lt key l = Raised e -> exists x, In x l /\ key x = Raised e.
Proof.
  unfold sort_by_key. rewrite outcome_bind_eq.
  destruct (mapM key l) as [keys|e'] eqn:Hk; [done|]. intros [= ->].
  by apply mapM_Raised_inv.
Qed.

End SortFacts.

(** * The profile scanner *)

Lemma StronglySorted_lookup {A} (R : A -> A -> Prop) l i j x y :
  StronglySorted R l -> i < j -> l !! i = Some x -> l !! j = Some y -> R x y.
Proof.
  intros Hs. revert i j. induction Hs as [|a l Hs IH Ha]; intros i j Hij Hi Hj; [done|].
  destruct j as [|j]; [lia|]. simpl in Hj.
  destruct i as [|i]; simpl in Hi.
  - injection Hi as ->. rewrite Forall_forall in Ha. apply Ha.
    apply list_elem_of_lookup. eauto.
  - apply (IH i j); [lia|done|done].
Qed.

(** grouping *)

Lemma setdefault_append_new k v g :
  exists vs, In (k, vs) (setdefault_append k v g) /\ In v vs.
Proof.
  induction g as [|[k' vs'] g (vs & Hin & Hv)]; simpl.
  - exists [v]. split; [by left|by left].
  - destruct (String.eqb_spec k' k) as [->|_].
    + exists (vs' ++ [v]). split; [by left|]. apply in_or_app. right. by left.
    + exists vs. split; [by right|done].
Qed.

Lemma setdefault_append_old k v g k0 v0 vs0 :
  In (k0, vs0) g -> In v0 vs0 ->
  exists vs, In (k0, vs) (setdefault_append k v g) /\ In v0 vs.
Proof.
  induction g as [|[k' vs'] g IH]; simpl; [done|]. intros [[= -> ->]|Hin] Hv.
  - destruct (String.eqb _ k).
    + exists (vs0 ++ [v]). split; [simpl; by left|]. apply in_or_app. by left.
    + exists vs0. split; [simpl; by left|done].
  - destruct (String.eqb k' k).
    + exists vs0. split; [by right|done].
    + destruct (IH Hin Hv) as (vs & ? & ?). exists vs. split; [by right|done].
Qed.

Lemma collect_groups_In names name :
  In name names ->
  exists vs, In (fst (material_and_variant name), vs) (collect_groups names) /\
             In (snd (material_and_variant name)) vs.
Proof.
  unfold collect_groups.
  assert (Hold : forall names g k0 v0 vs0, In (k0, vs0) g -> In v0 vs0 ->
    exists vs, In (k0, vs)
      (fold_left (fun groups name =>
                    let '(base_material, variant) := material_and_variant name in
                    setdefault_append base_material variant groups) names g) /\ In v0 vs).
  { clear. induction names as [|n names IH]; cbn [fold_left]; intros g k0 v0 vs0 Hin Hv; [eauto|].
    destruct (material_and_variant n) as [m v].
    destruct (setdefault_append_old m v g k0 v0 vs0 Hin Hv) as (vs & Hin' & Hv').
    exact (IH _ _ _ vs Hin' Hv'). }
  generalize (@nil (string * list string)).
  induction names as [|n names IH]; cbn [fold_left]; intros g Hin; [done|].
  destruct Hin as [->|Hin]; [|by apply IH].
  destruct (material_and_variant name) as [m v]. cbn [fst snd].
  destruct (setdefault_append_new m v g) as (vs & Hin' & Hv').
  exact (Hold _ _ _ _ vs Hin' Hv').
Qed.

(** the scanner *)

Lemma get_profile_groups_eq p :
  get_profile_groups p = mapM sort_group (collect_groups (glob p "*.json")).
Proof. reflexivity. Qed.

Lemma sort_group_Returned material found g :
  sort_group (material, found) = Returned g ->
  exists sorted, g = (material, sorted) /\
                 sort_by_key key_lt variant_sort_key found = Returned sorted.
Proof.
  unfold sort_group. rewrite outcome_bind_eq.
  destruct (sort_by_key _ _ _) as [sorted|e]; [|done]. intros [= <-]. eauto.
Qed.

Lemma py_float_Raised y e : py_float y = Raised e -> e = ValueError.
Proof.
  unfold py_float. destruct (Str.split "." y) as [|i [|f [|? ?]]]; try by intros [= <-].
  - destruct (Str.isdigit i); [done|by intros [= <-]].
  - destruct (_ && _); [done|by intros [= <-]].
Qed.

Lemma variant_sort_key_Raised x e : variant_sort_key x = Raised e -> e = ValueError.
Proof.
  unfold variant_sort_key. intros H. apply mapM_Raised_inv in H as (y & _ & Hy).
  by apply py_float_Raised in Hy.
Qed.

Lemma get_profile_groups_Raised p e :
  get_profile_groups p = Raised e -> e = ValueError /\ exists d, p = Directory d.
Proof.
  rewrite get_profile_groups_eq. intros H. split.
  - apply mapM_Raised_inv in H as ([m vs] & _ & Hg).
    unfold sort_group in Hg. rewrite outcome_bind_eq in Hg.
    destruct (sort_by_key _ _ _) as [sorted|e'] eqn:Hs; [done|]. injection Hg as ->.
    apply sort_by_key_Raised_inv in Hs as (x & _ & Hx).
    by apply variant_sort_key_Raised in Hx.
  - destruct p; try done. eauto.
Qed.

Lemma material_and_variant_no_sep name :
  Str.contains "@" (stem name) = false ->
  material_and_variant name = (Str.strip (stem name), "default").
Proof. intros H. unfold material_and_variant. by rewrite (split_no_sep "@" _ H). Qed.

Lemma material_and_variant_one_sep name a b :
  Str.contains "@" a = false -> Str.contains "@" b = false ->
  stem name = a +:+ "@" +:+ b ->
  material_and_variant name = (Str.strip a, Str.strip b).
Proof.
  intros Ha Hb Hs. unfold material_and_variant. rewrite Hs.
  change ("@" +:+ b) with (String "@" b).
  by rewrite (split_app_sep "@" _ _ Ha), (split_no_sep "@" _ Hb).
Qed.

Lemma material_and_variant_more_sep name a b c :
  Str.contains "@" a = false -> Str.contains "@" b = false ->
  stem name = a +:+ "@" +:+ b +:+ "@" +:+ c ->
  material_and_variant name = (Str.strip a, Str.strip b).
Proof.
  intros Ha Hb Hs. unfold material_and_variant. rewrite Hs.
  change ("@" +:+ b +:+ "@" +:+ c) with (String "@" (b +:+ String "@" c)).
  by rewrite (split_app_sep "@" _ _ Ha), (split_app_sep "@" _ _ Hb).
Qed.

Lemma get_profile_groups_lists p groups name :
  get_profile_groups p = Returned groups ->
  In name (glob p "*.json") ->
  exists variants,
    In (fst (material_and_variant name), variants) groups /\
    In (snd (material_and_variant name)) variants.
Proof.
  rewrite get_profile_groups_eq. intros H Hname. apply mapM_Returned in H.
  destruct (collect_groups_In _ _ Hname) as (vs & Hg & Hv).
  destruct (Forall2_In_l _ _ _ _ H Hg) as (g & Hin & Hsort).
  apply sort_group_Returned in Hsort as (sorted & -> & Hsort).
  apply (sort_by_key_Returned key_lt key_lt_asym) in Hsort as (keys & _ & _ & Hperm).
  2:{ intros a b c. apply key_le_trans. }
  exists sorted. split; [done|].
  eapply Permutation_in; [symmetry; exact Hperm|done].
Qed.

Lemma py_float_two_dots a b c :
  py_float (a +:+ "." +:+ b +:+ "." +:+ c) = Raised ValueError.
Proof.
  unfold py_float.
  change ("." +:+ b +:+ "." +:+ c) with (String "." (b +:+ String "." c)).
  pose proof (split_length_app "." a (b +:+ String "." c)) as H.
  rewrite (split_length_app "." b c) in H.
  pose proof (split_length "." a). pose proof (split_length "." b).
  pose proof (split_length "." c).
  destruct (Str.split "." _) as [|i [|f [|g rest]]]; simpl in H; try done; lia.
Qed.

(** * The order of the variants *)

(** C6. For a directory whose profile files have ASCII names: in every
    group that [get_profile_groups] returns, the labels are a
    rearrangement of the labels collected for that material, their sort
    keys (the numeric tokens of each label as floats) are in ascending
    lexicographic order, and every label with an empty key comes before
    every label with a non-empty one.  The files [PLA@1 mm.json],
    [PLA@0.4 mm.json], [PLA@0.8 mm.json] give
    ["0.4 mm"; "0.8 mm"; "1 mm"]. *)
Theorem get_profile_groups_sorted_by_key p groups :
  Forall (fun name => is_ascii name = true) (glob p "*.json") ->
  get_profile_groups p = Returned groups ->
  (forall material variants, In (material, variants) groups ->
     exists keys found,
       mapM variant_sort_key variants = Returned keys /\
       StronglySorted key_le keys /\
       In (material, found) (collect_groups (glob p "*.json")) /\
       Permutation variants found /\
       (forall i j a b, i < j -> variants !! i = Some a -> variants !! j = Some b ->
          variant_sort_key b = Returned [] -> variant_sort_key a = Returned [])) /\
  get_profile_groups (Directory three_variants)
    = Returned [("PLA", ["0.4 mm"; "0.8 mm"; "1 mm"])].
Proof.
  intros _ H. split; [|by vm_compute].
  intros material variants Hin. revert H.
  rewrite get_profile_groups_eq. intros H.
  apply mapM_Returned in H.
  destruct (Forall2_In_r _ _ _ _ H Hin) as ([m found] & Hfound & Hsort).
  apply sort_group_Returned in Hsort as (sorted & [= -> ->] & Hsort).
  apply (sort_by_key_Returned key_lt key_lt_asym) in Hsort as (keys & Hkeys & Hsorted & Hperm).
  2:{ intros a b c. apply key_le_trans. }
  exists keys, found. repeat split; try done.
  intros i j a b Hij Ha Hb Hkb.
  pose proof Hkeys as HF. apply mapM_Returned in HF.
  destruct (Forall2_lookup_l _ _ _ _ _ HF Ha) as (ka & Hka & Hak).
  destruct (Forall2_lookup_l _ _ _ _ _ HF Hb) as (kb & Hkb' & Hbk).
  rewrite Hkb in Hbk. injection Hbk as <-.
  pose proof (StronglySorted_lookup _ _ _ _ _ _ Hsorted Hij Hka Hkb') as Hle.
  apply key_le_nil_r in Hle. by subst.
Qed.

Lemma get_profile_groups_sorted_by_key_witness :
  exists keys,
    mapM variant_sort_key ["0.4 mm"; "0.8 mm"; "1 mm"] = Returned keys /\
    StronglySorted key_le keys.
Proof.
  destruct (get_profile_groups_sorted_by_key (Directory three_variants)
              [("PLA", ["0.4 mm"; "0.8 mm"; "1 mm"])]
              ltac:(vm_compute; repeat constructor) eq_refl) as [H _].
  destruct (H "PLA" ["0.4 mm"; "0.8 mm"; "1 mm"] (or_introl eq_refl))
    as (keys & found & Hk & Hs & _).
  exists keys. split; [exact Hk|exact Hs].
Defined.

(** * Material and variant of a file name *)

(** The stem [A@B@C] is listed under material [A] with variant [B]: what
    follows the second separator is dropped, so the variant is not
    [B@C]. *)
Lemma variant_stops_at_second_separator :
  get_profile_groups (Directory three_parts) = Returned [("A", ["B"])] /\
  snd (material_and_variant "A@B@C.json") <> Str.strip "B@C".
Proof. split; [by vm_compute|]. vm_compute. discriminate. Qed.

(** C7. Every file with an ASCII name that [get_profile_groups] lists
    appears in the result under the material and variant that
    [material_and_variant] gives its name.  The material is the stripped
    text before the first [@].  The
    variant is ["default"] when the stem has no [@], and otherwise the
    stripped text between the first [@] and the second one (or the end of
    the stem when there is no second one): the stem is split at every [@]
    and only the first two parts are used. *)
Theorem material_and_variant_of_name p groups name :
  is_ascii name = true ->
  get_profile_groups p = Returned groups ->
  In name (glob p "*.json") ->
  (exists variants,
     In (fst (material_and_variant name), variants) groups /\
     In (snd (material_and_variant name)) variants) /\
  (Str.contains "@" (stem name) = false ->
   material_and_variant name = (Str.strip (stem name), "default")) /\
  (forall a b,
     Str.contains "@" a = false -> Str.contains "@" b = false ->
     stem name = a +:+ "@" +:+ b ->
     material_and_variant name = (Str.strip a, Str.strip b)) /\
  (forall a b c,
     Str.contains "@" a = false -> Str.contains "@" b = false ->
     stem name = a +:+ "@" +:+ b +:+ "@" +:+ c ->
     material_and_variant name = (Str.strip a, Str.strip b)).
Proof.
  intros _ H Hname. split; [by eapply get_profile_groups_lists|].
  split; [apply material_and_variant_no_sep|].
  split; [apply material_and_variant_one_sep|apply material_and_variant_more_sep].
Qed.

Lemma material_and_variant_of_name_witness :
  material_and_variant "A@B@C.json" = (Str.strip "A", Str.strip "B").
Proof.
  destruct (material_and_variant_of_name (Directory three_parts) [("A", ["B"])] "A@B@C.json"
              eq_refl eq_refl (or_introl eq_refl)) as (_ & _ & _ & H).
  apply (H "A" "B" "C"); reflexivity.
Defined.

(** * A path that is not a directory *)

(** For a path that does not exist the scanner returns the empty grouping;
    it raises nothing. *)
Lemma get_profile_groups_missing_returns :
  get_profile_groups Missing = Returned [] /\
  forall e, get_profile_groups Missing <> Raised e.
Proof. split; [reflexivity|discriminate]. Qed.

(** C8. For a path that is missing or not a directory, [get_profile_groups]
    returns the empty grouping: [Path.glob] yields no file there and raises
    nothing.  The only exception [get_profile_groups] ever raises is the
    [ValueError] of the sort key, and only on an existing directory. *)
Theorem get_profile_groups_no_directory p :
  is_directory p = false ->
  get_profile_groups p = Returned [] /\
  (forall q e, get_profile_groups q = Raised e -> e = ValueError /\ is_directory q = true).
Proof.
  intros Hp. split.
  - by destruct p.
  - intros q e H. apply get_profile_groups_Raised in H as [-> [d ->]]. done.
Qed.

Lemma get_profile_groups_no_directory_witness :
  get_profile_groups Missing = Returned [].
Proof.
  destruct (get_profile_groups_no_directory Missing eq_refl) as [H _]. exact H.
Defined.

(** * A token with two dots *)

(** C9. If a listed file's variant has a whitespace-separated token with
    two or more dots that passes the digit test made after removing the
    dots, then [float] raises [ValueError] on that token and so does
    [get_profile_groups]; no grouping is returned. *)
Theorem get_profile_groups_raises_on_dotted_token d name a b c :
  In name (glob (Directory d) "*.json") ->
  In (a +:+ "." +:+ b +:+ "." +:+ c) (Str.split_ws (snd (material_and_variant name))) ->
  is_numeric_token (a +:+ "." +:+ b +:+ "." +:+ c) = true ->
  py_float (a +:+ "." +:+ b +:+ "." +:+ c) = Raised ValueError /\
  get_profile_groups (Directory d) = Raised ValueError.
Proof.
  intros Hname Hy Hnum.
  pose proof (py_float_two_dots a b c) as Hfloat. split; [done|].
  destruct (collect_groups_In _ _ Hname) as (vs & Hg & Hv).
  assert (Hkey : exists e, variant_sort_key (snd (material_and_variant name)) = Raised e).
  { unfold variant_sort_key.
    apply (mapM_Raised _ _ (a +:+ "." +:+ b +:+ "." +:+ c) ValueError); [|done].
    apply List.filter_In. done. }
  destruct Hkey as [e Hkey].
  destruct (sort_by_key_Raised key_lt variant_sort_key vs _ _ Hv Hkey) as [e' Hs].
  assert (Hgroup : exists e'', sort_group (fst (material_and_variant name), vs) = Raised e'').
  { unfold sort_group. rewrite outcome_bind_eq, Hs. eauto. }
  destruct Hgroup as [e'' Hgroup].
  destruct (mapM_Raised sort_group _ _ _ Hg Hgroup) as [e3 H3].
  rewrite <- get_profile_groups_eq in H3.
  destruct (get_profile_groups_Raised _ _ H3) as [-> _]. done.
Qed.

Lemma get_profile_groups_raises_on_dotted_token_witness :
  py_float "1.2.3" = Raised ValueError /\
  get_profile_groups (Directory two_dots) = Raised ValueError.
Proof.
  apply (get_profile_groups_raises_on_dotted_token two_dots "PLA@1.2.3.json" "1" "2" "3").
  - left. reflexivity.
  - left. reflexivity.
  - reflexivity.
Defined.

(** * Further properties: the batch converter *)

Section BatchCounts.

Variable urandom : nat -> N.
Variables src tgt : string.

Lemma convert_file_written w name v w' :
  convert_file urandom src tgt w name = (v, w') ->
  exists ext,
    files w' = files w ++ ext /\
    length ext = success (tally (mk_results 0 0 0) v) /\
    draws w' = draws w + success (tally (mk_results 0 0 0) v)
                       + skipped (tally (mk_results 0 0 0) v) /\
    Forall (fun e => exists j, e = (Str.replace src tgt name, RegularFile (JsonText j))) ext.
Proof.
  intros H.
  destruct (convert_file_cases urandom src tgt w name)
    as [[_ [e E]]|[(_ & _ & E)|(_ & _ & j' & E)]];
    rewrite E in H; injection H as <- <-; simpl.
  - exists []. rewrite app_nil_r. repeat split; try lia; constructor.
  - exists []. rewrite app_nil_r. repeat split; try lia; constructor.
  - eexists [_]. repeat split; try lia. repeat constructor. by eexists.
Qed.

Lemma convert_files_written names : forall r w r' w',
  convert_files urandom src tgt names r w = (r', w') ->
  exists ext,
    files w' = files w ++ ext /\
    length ext + success r = success r' /\
    draws w' + success r + skipped r = draws w + success r' + skipped r' /\
    Forall (fun e => exists name j, In name names /\
                       e = (Str.replace src tgt name, RegularFile (JsonText j))) ext.
Proof.
  induction names as [|name names IH]; intros r w r' w' H; simpl in H.
  - injection H as <- <-. exists []. rewrite app_nil_r. repeat split; try lia; constructor.
  - destruct (convert_file urandom src tgt w name) as [v w1] eqn:E.
    apply convert_file_written in E as (e1 & F1 & L1 & D1 & A1).
    apply IH in H as (e2 & F2 & L2 & D2 & A2).
    exists (e1 ++ e2). rewrite F2, F1, app_assoc, length_app. split; [done|].
    assert (success (tally r v) = success r + success (tally (mk_results 0 0 0) v) /\
            skipped (tally r v) = skipped r + skipped (tally (mk_results 0 0 0) v))
      as [Hs Hk] by (destruct v; simpl; lia).
    split; [lia|]. split; [lia|].
    apply Forall_app. split.
    + eapply Forall_impl; [exact A1|]. intros e [j ->]. exists name, j. split; [by left|done].
    + eapply Forall_impl; [exact A2|]. intros e (n0 & j & Hin & ->). exists n0, j.
      split; [by right|done].
Qed.

End BatchCounts.

(** X1. When [process_profiles] returns, its three counters add up to
    the number of files the pattern matched, and that number is at least
    one: every matched file is counted exactly once. *)
Theorem process_profiles_counts urandom src tgt p n r p' n' :
  process_profiles urandom src tgt p n = (Returned r, p', n') ->
  total r = length (glob p ("*" +:+ src +:+ "*.json")) /\ 0 < total r.
Proof.
  unfold process_profiles.
  destruct (glob p _) as [|name names] eqn:G; [discriminate|].
  destruct p as [| |d]; try discriminate.
  destruct (convert_files _ _ _ _ _ _) as [r0 w] eqn:E. intros [= -> <- <-].
  apply convert_files_total in E. unfold total in *. simpl in *. lia.
Qed.

Lemma process_profiles_counts_witness :
  total (mk_results 2 0 1) = 3 /\ 0 < total (mk_results 2 0 1).
Proof.
  apply (process_profiles_counts zero_draws "0.4" "0.8" (Directory one_garbled) 0
           (mk_results 2 0 1)
           (snd (fst (process_profiles zero_draws "0.4" "0.8" (Directory one_garbled) 0)))
           (snd (process_profiles zero_draws "0.4" "0.8" (Directory one_garbled) 0))).
  reflexivity.
Defined.

(** X2. When [process_profiles] returns, the directory is the old one
    followed by the new files; there are exactly [success] of them, each
    a parsed document named after a matched file with the size replaced;
    and one identifier was drawn for every file counted as success or
    skipped. *)
Theorem process_profiles_writes urandom src tgt p n r p' n' :
  process_profiles urandom src tgt p n = (Returned r, p', n') ->
  exists d ext,
    p = Directory d /\ p' = Directory (d ++ ext) /\
    length ext = success r /\
    n' = n + success r + skipped r /\
    Forall (fun e => exists name j,
              In name (glob p ("*" +:+ src +:+ "*.json")) /\
              e = (Str.replace src tgt name, RegularFile (JsonText j))) ext.
Proof.
  unfold process_profiles.
  destruct (glob p _) as [|name names] eqn:G; [discriminate|].
  destruct p as [| |d]; try discriminate.
  destruct (convert_files _ _ _ _ _ _) as [r0 w] eqn:E. intros [= -> <- <-].
  apply convert_files_written in E as (ext & F & L & D & A).
  simpl in *. exists d, ext. rewrite F. repeat split; try lia. exact A.
Qed.

Lemma process_profiles_writes_witness :
  exists ext,
    snd (fst (process_profiles zero_draws "0.4" "0.8" (Directory one_garbled) 0))
      = Directory (one_garbled ++ ext) /\ length ext = 2.
Proof.
  destruct (process_profiles_writes zero_draws "0.4" "0.8" (Directory one_garbled) 0
              (mk_results 2 0 1)
              (snd (fst (process_profiles zero_draws "0.4" "0.8" (Directory one_garbled) 0)))
              (snd (process_profiles zero_draws "0.4" "0.8" (Directory one_garbled) 0))
              eq_refl) as (d & ext & Hd & Hp & Hl & _).
  injection Hd as <-. exists ext. split; [exact Hp|exact Hl].
Defined.

(** X3. For a size accepted by [validate_nozzle_size], the files that
    [process_profiles] selects are the listed names of the form
    [a ++ size ++ b ++ ".json"]: the size may stand anywhere in the name,
    also inside a longer number. *)
Theorem glob_size_matches src d name :
  validate_nozzle_size src = true ->
  In name (glob (Directory d) ("*" +:+ src +:+ "*.json")) <->
  In name (map fst d) /\ exists a b, name = a +:+ src +:+ b +:+ ".json".
Proof.
  intros Hv. apply validate_nozzle_size_literal in Hv.
  unfold glob. rewrite List.filter_In. simpl entry_names.
  apply and_iff_compat_l.
  change ("*" +:+ src +:+ "*.json") with (String "*" (src +:+ String "*" ".json")).
  rewrite fnmatch_star_iff. split.
  - intros (a & b & -> & H).
    apply (fnmatch_literal_iff src) in H as (b' & -> & H); [|done].
    apply fnmatch_star_iff in H as (b & c & -> & H).
    apply (fnmatch_literal_iff ".json" "") in H as (e & -> & H); [|done].
    apply fnmatch_nil in H as ->. by exists a, b.
  - intros (a & b & ->). exists a, (src +:+ b +:+ ".json"). split; [done|].
    apply fnmatch_literal_iff; [done|]. exists (b +:+ ".json"). split; [done|].
    apply fnmatch_star_iff. exists b, ".json". split; [done|]. reflexivity.
Qed.

Lemma glob_size_matches_witness :
  In "PLA@10.4.json" (glob (Directory [("PLA@10.4.json", sample_file)]) ("*" +:+ "0.4" +:+ "*.json")).
Proof.
  apply (glob_size_matches "0.4" [("PLA@10.4.json", sample_file)] "PLA@10.4.json" eq_refl).
  split; [left; reflexivity|]. exists "PLA@1", "". reflexivity.
Defined.

(** * Further properties: sizes and replacement *)

Lemma all_digits_append a b :
  Str.all_digits (a +:+ b) = Str.all_digits a && Str.all_digits b.
Proof. induction a as [|c a IH]; [done|]. rewrite append_cons. simpl. by rewrite IH, andb_assoc. Qed.

Lemma isdigit_all_digits s : Str.isdigit s = true -> Str.all_digits s = true.
Proof. by destruct s. Qed.

Lemma all_digits_no_dot a : Str.all_digits a = true -> Str.contains "." a = false.
Proof.
  induction a as [|c a IH]; [done|]. simpl Str.all_digits. intros H.
  apply andb_true_iff in H as [Hc H]. rewrite contains_char_cons, (IH H), orb_false_r.
  destruct (Ascii.eqb_spec c "."); [subst; discriminate|done].
Qed.

Lemma replace_first_char_no_sep c new a :
  Str.contains (String c "") a = false -> Str.replace_first_char c new a = a.
Proof.
  induction a as [|d a IH]; [done|]. rewrite contains_char_cons. intros H.
  apply orb_false_iff in H as [Hd H]. simpl. by rewrite Hd, IH.
Qed.

Lemma replace_first_char_app c new a b :
  Str.contains (String c "") a = false ->
  Str.replace_first_char c new (a +:+ String c b) = a +:+ new +:+ b.
Proof.
  induction a as [|d a IH].
  - intros _. rewrite !append_nil. simpl. by rewrite Ascii.eqb_refl.
  - rewrite contains_char_cons. intros H. apply orb_false_iff in H as [Hd H].
    rewrite !append_cons. simpl. by rewrite Hd, IH.
Qed.

Lemma first_sep c s :
  Str.contains (String c "") s = false \/
  exists a b, s = a +:+ String c b /\ Str.contains (String c "") a = false.
Proof.
  induction s as [|d s IH]; [by left|].
  destruct (Ascii.eqb_spec d c) as [->|Hne].
  - right. by exists "", s.
  - destruct IH as [H|(a & b & -> & H)].
    + left. rewrite contains_char_cons, H. by destruct (Ascii.eqb_spec d c).
    + right. exists (String d a), b. split; [done|].
      rewrite contains_char_cons, H. by destruct (Ascii.eqb_spec d c).
Qed.

(** X8. Among the ASCII strings, [validate_nozzle_size] accepts exactly
    those made of digits with at most one dot and at least one digit: the
    dot may come first or last; an empty string, a lone dot, a sign or a
    second dot is rejected. *)
Theorem validate_nozzle_size_accepts s :
  is_ascii s = true ->
  validate_nozzle_size s = true <->
  Str.isdigit s = true \/
  exists a b, s = a +:+ "." +:+ b /\ Str.isdigit (a +:+ b) = true.
Proof.
  intros _. unfold validate_nozzle_size. split.
  - destruct (first_sep "." s) as [H|(a & b & -> & H)].
    + rewrite replace_first_char_no_sep by done. by left.
    + rewrite replace_first_char_app by done. rewrite append_nil. right. by exists a, b.
  - intros [H|(a & b & -> & H)].
    + rewrite replace_first_char_no_sep; [done|].
      by apply all_digits_no_dot, isdigit_all_digits.
    + change ("." +:+ b) with (String "." b).
      rewrite replace_first_char_app, append_nil; [done|].
      apply isdigit_all_digits in H. rewrite all_digits_append in H.
      apply andb_true_iff in H as [H _]. by apply all_digits_no_dot.
Qed.

Lemma validate_nozzle_size_accepts_witness : validate_nozzle_size ".4" = true.
Proof.
  apply (validate_nozzle_size_accepts ".4"); [reflexivity|].
  right. exists "", "4". split; reflexivity.
Defined.

(** [str.replace]: the characters skipped after an occurrence, a text
    replaced by itself, and a string without an occurrence *)

Lemma replace_from_skip old new a b :
  Str.replace_from old new (a +:+ b) (String.length a) = Str.replace_from old new b 0.
Proof.
  induction a as [|c a IH]; [by destruct b|]. rewrite append_cons. simpl. apply IH.
Qed.

Lemma prefix_split a s : String.prefix a s = true -> exists t, s = a +:+ t.
Proof.
  revert s. induction a as [|c a IH]; intros s H; [by exists s|].
  destruct s as [|d s]; [done|]. rewrite prefix_cons in H.
  apply andb_true_iff in H as [Hc H]. apply Ascii.eqb_eq in Hc as ->.
  destruct (IH _ H) as [t ->]. by exists t.
Qed.

Lemma replace_from_occurrence c o new t :
  Str.replace_from (String c o) new (String c o +:+ t) 0
  = new +:+ Str.replace_from (String c o) new t 0.
Proof.
  rewrite append_cons. cbn [Str.replace_from].
  replace (String.prefix (String c o) (String c (o +:+ t))) with true.
  2:{ symmetry. rewrite prefix_cons, Ascii.eqb_refl. simpl.
      clear. induction o as [|d o IH]; [apply prefix_nil|].
      rewrite append_cons, prefix_cons, Ascii.eqb_refl. done. }
  f_equal. replace (String.length (String c o) - 1) with (String.length o) by (simpl; lia).
  apply replace_from_skip.
Qed.

Lemma replace_same old s : Str.replace old old s = s.
Proof.
  destruct old as [|c o]; simpl.
  - induction s as [|d s IH]; simpl; [done|]. by rewrite IH.
  - remember (String.length s) as n eqn:Hn. revert s Hn.
    induction n as [n IH] using lt_wf_ind. intros s Hn.
    destruct s as [|d s]; [done|].
    destruct (String.prefix (String c o) (String d s)) eqn:P.
    + apply prefix_split in P as [t E]. rewrite E, replace_from_occurrence.
      rewrite (IH (String.length t)); [done| |done].
      rewrite Hn, E, length_append. simpl. lia.
    + cbn [Str.replace_from]. rewrite P. f_equal. apply (IH (String.length s)); [|done].
      subst n. simpl. lia.
Qed.

Lemma replace_absent old new s :
  old <> "" -> Str.contains old s = false -> Str.replace old new s = s.
Proof.
  intros Hold. destruct old as [|c o]; [done|]. simpl Str.replace.
  induction s as [|d s IH]; [done|]. rewrite contains_cons. intros H.
  apply orb_false_iff in H as [P H]. cbn [Str.replace_from]. rewrite P. f_equal. by apply IH.
Qed.

Section SameSize.

Variable urandom : nat -> N.
Variable size : string.

Lemma convert_files_same_size names : forall r w r' w',
  Forall (fun n => is_Some (lookup_entry n (files w))) names ->
  convert_files urandom size size names r w = (r', w') ->
  files w' = files w /\ success r' = success r.
Proof.
  induction names as [|name names IH]; intros r w r' w' HF H; simpl in H.
  - by injection H as <- <-.
  - apply Forall_cons in HF as [Hname HF].
    assert (Hex : path_exists (files w) (Str.replace size size name) = true).
    { rewrite replace_same. unfold path_exists. by destruct Hname as [e ->]. }
    destruct (convert_file_cases urandom size size w name)
      as [[_ [e E]]|[(_ & _ & E)|(_ & Hno & _)]]; [| |congruence];
      rewrite E in H; apply IH in H; simpl in *; done.
Qed.

End SameSize.

(** X4. Converting a size to itself writes nothing: the run returns
    with [success = 0] and leaves the directory as it was, since every
    target name is the name of the file itself. *)
Theorem process_profiles_same_size urandom size p n r p' n' :
  process_profiles urandom size size p n = (Returned r, p', n') ->
  success r = 0 /\ p' = p.
Proof.
  unfold process_profiles.
  destruct (glob p _) as [|name names] eqn:G; [discriminate|].
  destruct p as [| |d]; try discriminate.
  destruct (convert_files _ _ _ _ _ _) as [r0 w] eqn:E. intros [= -> <- <-].
  apply convert_files_same_size in E as [-> ->]; [done|].
  rewrite <- G. apply glob_listed.
Qed.

Lemma process_profiles_same_size_witness :
  success (mk_results 0 2 1) = 0 /\
  snd (fst (process_profiles zero_draws "0.4" "0.4" (Directory one_garbled) 0))
    = Directory one_garbled.
Proof.
  apply (process_profiles_same_size zero_draws "0.4" (Directory one_garbled) 0
           (mk_results 0 2 1) _
           (snd (process_profiles zero_draws "0.4" "0.4" (Directory one_garbled) 0))).
  reflexivity.
Defined.

(** * Further properties: the transformer *)

(** What a returning call did with [compatible_printers]. *)
Lemma modify_profile_data_iterates l items cp src tgt r h m h' :
  h !! l = Some (ODict items) ->
  dict_get "compatible_printers" items = Some cp ->
  modify_profile_data (VRef l) src tgt r h = (Returned m, h') ->
  exists name printers renamed,
    default (VStr "") (dict_get "name" items) = VStr name /\
    py_iter cp (h ++ [ODict (dict_set "name" (VStr (Str.replace src tgt name)) items)])
      = (Returned printers,
         h ++ [ODict (dict_set "name" (VStr (Str.replace src tgt name)) items)]) /\
    mapM (replace_in src tgt) printers = Returned renamed /\
    m = VRef (length h) /\
    h' = h ++ [ODict (dict_set "filament_settings_id" (VRef (length h + 3))
                        (dict_set "compatible_printers" (VRef (length h + 1))
                           (dict_set "name" (VStr (Str.replace src tgt name)) items)));
               OList renamed; OList [VStr ""]; OList [VStr (new_filament_id r)]].
Proof.
  intros Ho Hcp0.
  unfold modify_profile_data. rewrite py_bind_eq.
  unfold py_copy. simpl object_of. rewrite Ho.
  unfold alloc at 1.
  rewrite py_bind_eq. unfold py_get at 1.
  rewrite (object_of_app h [ODict items] (VRef l) (ODict items) Ho).
  rewrite py_bind_eq. unfold py_replace at 1.
  destruct (match dict_get "name" items with Some v => v | None => VStr "" end)
    as [| | | |name|] eqn:Hn; try discriminate.
  simpl replace_in. cbv iota beta.
  rewrite py_bind_eq, py_setitem_new.
  rewrite py_bind_eq, py_contains_new.
  set (items1 := dict_set "name" (VStr (Str.replace src tgt name)) items).
  assert (Hcp : dict_get "compatible_printers" items1 = Some cp).
  { unfold items1. rewrite dict_get_set_ne; done. }
  rewrite Hcp. intros H.
  rewrite py_bind_eq in H. rewrite py_bind_eq, py_getitem_new, Hcp in H.
  rewrite py_bind_eq in H.
  destruct (py_iter cp _) as [[printers|e] hi] eqn:Hi; [|discriminate].
  pose proof (py_iter_heap _ _ _ _ Hi) as ->.
  rewrite py_bind_eq, mapM_py_replace in H.
  destruct (mapM (replace_in src tgt) printers) as [renamed|e] eqn:Hr; [|discriminate].
  rewrite py_bind_eq, alloc_new in H. simpl "++" in H.
  rewrite Nat.add_1_r in H.
  replace (S (length h)) with (length h + 1) in H by lia.
  rewrite py_setitem_new in H.
  apply (modify_tail _ _ _ _ _ _ _ _ Ho) in H as (-> & -> & _).
  exists name, printers, renamed. repeat split; done.
Qed.

Lemma mapM_replace_in_strs src tgt ps :
  mapM (replace_in src tgt) (map VStr ps)
  = Returned (map (fun p => VStr (Str.replace src tgt p)) ps).
Proof.
  induction ps as [|p ps IH]; [done|]. simpl. by rewrite IH.
Qed.

Lemma chars_strs s :
  chars s = map VStr (map (fun c => String c "") (list_ascii_of_string s)).
Proof. induction s as [|c s IH]; simpl; [done|]. by rewrite IH. Qed.

(** X5. For a record with a string [name] and a list of strings as
    [compatible_printers], a returning call gives a record whose [name]
    is the old one with every occurrence of the source size replaced and
    whose [compatible_printers] is a new list with the replacement made
    in every element; the list of the input is a different object and
    keeps its elements. *)
Theorem modify_profile_data_renames l items name lp printers src tgt r h m h' :
  h !! l = Some (ODict items) ->
  dict_get "name" items = Some (VStr name) ->
  dict_get "compatible_printers" items = Some (VRef lp) ->
  h !! lp = Some (OList (map VStr printers)) ->
  modify_profile_data (VRef l) src tgt r h = (Returned m, h') ->
  exists items' lp',
    object_of h' m = Some (ODict items') /\
    dict_get "name" items' = Some (VStr (Str.replace src tgt name)) /\
    dict_get "compatible_printers" items' = Some (VRef lp') /\
    h' !! lp' = Some (OList (map (fun p => VStr (Str.replace src tgt p)) printers)) /\
    lp' <> lp /\
    h' !! lp = Some (OList (map VStr printers)).
Proof.
  intros Hl Hname Hcp Hlp H.
  destruct (modify_profile_data_iterates _ _ _ _ _ _ _ _ _ Hl Hcp H)
    as (name' & ps & renamed & Hn & Hi & Hr & -> & ->).
  rewrite Hname in Hn. simpl in Hn. injection Hn as <-.
  unfold py_iter in Hi. simpl object_of in Hi.
  rewrite (lookup_app_l_Some _ _ _ _ Hlp) in Hi. injection Hi as <-.
  rewrite mapM_replace_in_strs in Hr. injection Hr as <-.
  eexists _, (length h + 1). simpl object_of. rewrite lookup_new.
  split; [done|]. split.
  { rewrite !dict_get_set_ne by done. apply dict_get_set_eq. }
  split.
  { rewrite dict_get_set_ne by done. apply dict_get_set_eq. }
  split; [apply lookup_second|].
  split; [apply lookup_lt_Some in Hlp; lia|].
  by apply lookup_app_l_Some.
Qed.

Lemma modify_profile_data_renames_witness :
  exists m h' items' lp',
    modify_profile_data (VRef 3) "0.4" "0.8" 7 sample_store = (Returned m, h') /\
    object_of h' m = Some (ODict items') /\
    dict_get "name" items' = Some (VStr "Generic PLA 0.8") /\
    dict_get "compatible_printers" items' = Some (VRef lp') /\
    h' !! lp' = Some (OList [VStr "Voron 0.8 nozzle"; VStr "Ender 0.8"]).
Proof.
  eexists _, _.
  edestruct (modify_profile_data_renames 3
               [("name", VStr "Generic PLA 0.4"); ("compatible_printers", VRef 0);
                ("filament_settings_id", VRef 1); ("filament_type", VRef 2)]
               "Generic PLA 0.4" 0 ["Voron 0.4 nozzle"; "Ender 0.4"] "0.4" "0.8" 7%N
               sample_store)
    as (items' & lp' & Hm & Hn & Hc & Hp & _);
    [reflexivity|reflexivity|reflexivity|reflexivity|reflexivity|].
  exists items', lp'. split; [reflexivity|]. split; [exact Hm|].
  split; [exact Hn|]. split; [exact Hc|exact Hp].
Defined.

(** A record with a string as [compatible_printers] is accepted. *)
Lemma modify_profile_data_string_succeeds l items s src tgt r h :
  h !! l = Some (ODict items) ->
  dict_get "compatible_printers" items = Some (VStr s) ->
  (forall v, dict_get "name" items = Some v -> is_str v) ->
  (forall v, dict_get "filament_settings_id" items = Some v ->
     exists l' x xs, v = VRef l' /\ h !! l' = Some (OList (x :: xs))) ->
  exists m h', modify_profile_data (VRef l) src tgt r h = (Returned m, h').
Proof.
  intros Ho Hcp Hname Hid.
  unfold modify_profile_data. rewrite py_bind_eq.
  unfold py_copy. simpl object_of. rewrite Ho, alloc_eq.
  rewrite py_bind_eq, (py_get_old _ _ _ _ _ _ Ho).
  rewrite py_bind_eq, py_replace_eq.
  assert (exists name, match dict_get "name" items with Some v => v | None => VStr "" end
                       = VStr name) as [name ->].
  { destruct (dict_get "name" items) as [v|]; [|by eexists].
    destruct (Hname v eq_refl) as [s' ->]. by eexists. }
  simpl replace_in. cbv iota beta.
  rewrite py_bind_eq, py_setitem_new.
  rewrite py_bind_eq, py_contains_new.
  set (items1 := dict_set "name" (VStr (Str.replace src tgt name)) items).
  assert (Hcp1 : dict_get "compatible_printers" items1 = Some (VStr s)).
  { unfold items1. by rewrite dict_get_set_ne. }
  rewrite Hcp1.
  rewrite !py_bind_eq, py_getitem_new, Hcp1. rewrite py_bind_eq.
  assert (py_iter (VStr s) (h ++ [ODict items1]) = (Returned (chars s), h ++ [ODict items1])) as ->
    by done.
  rewrite py_bind_eq, mapM_py_replace, chars_strs, mapM_replace_in_strs.
  rewrite py_bind_eq, alloc_new. simpl "++".
  rewrite py_setitem_new. by apply (modify_tail_succeeds _ _ items).
Qed.

(** X6. A [compatible_printers] that is an ASCII string is not
    rejected: for a record whose [name], if any, is a string and whose
    [filament_settings_id], if any, is a list with a first element, the
    call returns; the comprehension has iterated over the characters of
    the string, and the result holds the list of the one-character
    strings (each with the replacement applied to it). *)
Theorem modify_profile_data_splits_string l items s src tgt r h :
  h !! l = Some (ODict items) ->
  dict_get "compatible_printers" items = Some (VStr s) ->
  is_ascii s = true ->
  (forall v, dict_get "name" items = Some v -> is_str v) ->
  (forall v, dict_get "filament_settings_id" items = Some v ->
     exists l' x xs, v = VRef l' /\ h !! l' = Some (OList (x :: xs))) ->
  exists m h' items' lp',
    modify_profile_data (VRef l) src tgt r h = (Returned m, h') /\
    object_of h' m = Some (ODict items') /\
    dict_get "compatible_printers" items' = Some (VRef lp') /\
    h' !! lp' = Some (OList (map (fun c => VStr (Str.replace src tgt (String c "")))
                               (list_ascii_of_string s))).
Proof.
  intros Hl Hcp _ Hname Hid.
  destruct (modify_profile_data_string_succeeds l items s src tgt r h Hl Hcp Hname Hid)
    as (m & h' & H).
  exists m, h'.
  destruct (modify_profile_data_iterates _ _ _ _ _ _ _ _ _ Hl Hcp H)
    as (name' & ps & renamed & Hn & Hi & Hr & -> & ->).
  unfold py_iter in Hi. injection Hi as <-.
  rewrite chars_strs, mapM_replace_in_strs in Hr. injection Hr as <-.
  eexists _, (length h + 1). split; [done|]. simpl object_of. rewrite lookup_new.
  split; [done|]. split.
  { rewrite dict_get_set_ne by done. apply dict_get_set_eq. }
  rewrite lookup_second. by rewrite map_map.
Qed.

Lemma modify_profile_data_splits_string_witness :
  exists m h' items' lp',
    modify_profile_data (VRef 0) "0.4" "0.8" 7 [ODict [("compatible_printers", VStr "0.4")]]
      = (Returned m, h') /\
    object_of h' m = Some (ODict items') /\
    dict_get "compatible_printers" items' = Some (VRef lp') /\
    h' !! lp' = Some (OList [VStr "0"; VStr "."; VStr "4"]).
Proof.
  apply (modify_profile_data_splits_string 0 [("compatible_printers", VStr "0.4")]
           "0.4" "0.4" "0.8" 7%N [ODict [("compatible_printers", VStr "0.4")]]).
  - reflexivity.
  - reflexivity.
  - reflexivity.
  - intros v H. discriminate H.
  - intros v H. discriminate H.
Defined.

Lemma get_append_l i a b c : String.get i a = Some c -> String.get i (a +:+ b) = Some c.
Proof.
  revert i. induction a as [|d a IH]; intros i; [done|].
  rewrite append_cons. destruct i; simpl; [done|]. apply IH.
Qed.

Lemma get_append_r a b : String.get (String.length a) (a +:+ b) = String.get 0 b.
Proof. induction a as [|d a IH]; [done|]. rewrite append_cons. simpl. apply IH. Qed.

(** The [i]-th character of [hex w n] is the digit of weight [16 ^ (w - 1 - i)]. *)
Lemma get_hex w : forall n i, i < w ->
  String.get i (hex w n) = Some (hex_digit ((n / 16 ^ N.of_nat (w - 1 - i)) mod 16)%N).
Proof.
  induction w as [|w IH]; intros n i Hi; [lia|]. simpl hex.
  destruct (decide (i = w)) as [->|Hne].
  - rewrite <- (length_hex w (n / 16)) at 1. rewrite get_append_r.
    replace (S w - 1 - w) with 0 by lia. simpl. by rewrite N.div_1_r.
  - rewrite (get_append_l _ _ _ _ (IH (n / 16)%N i ltac:(lia))). do 2 f_equal.
    replace (S w - 1 - i) with (S (w - 1 - i)) by lia.
    rewrite Nat2N.inj_succ, N.pow_succ_r', N.Div0.div_div. done.
Qed.

Lemma get_substring_0 k s i : i < k -> String.get i (String.substring 0 k s) = String.get i s.
Proof.
  revert k i. induction s as [|c s IH]; intros k i Hi.
  - by destruct k.
  - destruct k as [|k]; [lia|]. simpl. destruct i; [done|]. apply IH. lia.
Qed.

Lemma uuid4_version r : ((uuid4 r / 16 ^ 19) mod 16 = 4)%N.
Proof.
  unfold uuid4.
  change (16 ^ 19)%N with (2 ^ 76)%N. rewrite <- N.shiftr_div_pow2.
  change 16%N with (2 ^ 4)%N. rewrite <- N.land_ones.
  apply N.bits_inj. intros i.
  rewrite N.land_spec, N.shiftr_spec' , N.lor_spec, N.ldiff_spec.
  destruct (N.ltb_spec i 4) as [Hi|Hi].
  - rewrite N.ones_spec_low by done. rewrite andb_true_r.
    rewrite (N.shiftl_spec_high' 4 76) by lia.
    rewrite (N.shiftl_spec_high' 0xf000 64) by lia.
    replace (i + 76 - 76)%N with i by lia.
    replace (i + 76 - 64)%N with (i + 12)%N by lia.
    assert (i = 0 \/ i = 1 \/ i = 2 \/ i = 3)%N as Hcases by lia.
    destruct Hcases as [Hc|[Hc|[Hc|Hc]]]; subst i;
      simpl; rewrite ?andb_false_r; reflexivity.
  - rewrite N.ones_spec_high by done. rewrite andb_false_r.
    symmetry. change 4%N with (N.land 4 (N.ones 3)) . rewrite N.land_spec.
    rewrite N.ones_spec_high by lia. apply andb_false_r.
Qed.

Lemma new_filament_id_version r :
  String.get 16 (new_filament_id r) = Some "4"%char.
Proof.
  unfold new_filament_id.
  change (String.get 12 (String.substring 0 16 (hex 32 (uuid4 r))) = Some "4"%char).
  rewrite get_substring_0 by lia. rewrite get_hex by lia.
  change (N.of_nat (32 - 1 - 12)) with 19%N. by rewrite uuid4_version.
Qed.

(** *** The identifier as a function of the draw *)

Lemma hex_add a : forall b n,
  hex (a + b) n = hex a (n / 16 ^ N.of_nat b)%N +:+ hex b n.
Proof.
  induction b as [|b IH]; intros n.
  - rewrite Nat.add_0_r. simpl. rewrite N.div_1_r.
    induction (hex a n) as [|c s IHs]; [done|]. rewrite append_cons. by f_equal.
  - rewrite Nat.add_succ_r. simpl hex. rewrite IH, N.Div0.div_div.
    rewrite Nat2N.inj_succ, N.pow_succ_r'. by rewrite append_assoc.
Qed.

Lemma substring_0_append a b :
  String.substring 0 (String.length a) (a +:+ b) = a.
Proof.
  induction a as [|c a IH]; [by destruct b|]. rewrite append_cons. simpl. by rewrite IH.
Qed.

Lemma append_inv_head a x y : a +:+ x = a +:+ y -> x = y.
Proof.
  induction a as [|c a IH]; [done|]. rewrite !append_cons. intros H. injection H as H. by apply IH.
Qed.

Lemma append_snoc_inj a b c d :
  a +:+ String c "" = b +:+ String d "" -> a = b /\ c = d.
Proof.
  revert b. induction a as [|x a IH]; intros [|y b] H.
  - by injection H as ->.
  - rewrite append_cons, append_nil in H. injection H as -> H. by destruct b.
  - rewrite append_cons, append_nil in H. injection H as -> H. by destruct a.
  - rewrite !append_cons in H. injection H as -> H. by destruct (IH _ H) as [-> ->].
Qed.

Lemma hex_digit_inj a b : (a < 16)%N -> (b < 16)%N -> hex_digit a = hex_digit b -> a = b.
Proof.
  intros Ha Hb H.
  assert (Ha' : In a [0;1;2;3;4;5;6;7;8;9;10;11;12;13;14;15]%N) by (simpl; lia).
  assert (Hb' : In b [0;1;2;3;4;5;6;7;8;9;10;11;12;13;14;15]%N) by (simpl; lia).
  simpl in Ha', Hb'.
  repeat (destruct Ha' as [<-|Ha']; [repeat (destruct Hb' as [<-|Hb']; [done||discriminate H|]); done|]).
  done.
Qed.

Lemma low_digit_bits n m :
  (n mod 16 = m mod 16)%N <-> forall i, (i < 4)%N -> N.testbit n i = N.testbit m i.
Proof.
  change 16%N with (2 ^ 4)%N. split.
  - intros H i Hi. by rewrite <- (N.mod_pow2_bits_low n 4 i), <- (N.mod_pow2_bits_low m 4 i), H.
  - intros H. apply N.bits_inj. intros i. destruct (N.ltb_spec i 4).
    + rewrite !N.mod_pow2_bits_low by done. by apply H.
    + by rewrite !N.mod_pow2_bits_high.
Qed.

(** Two numbers have the same [w] hexadecimal digits exactly when their
    low [4 * w] bits agree. *)
Lemma hex_eq_bits w : forall n m,
  hex w n = hex w m <-> forall i, (i < 4 * N.of_nat w)%N -> N.testbit n i = N.testbit m i.
Proof.
  induction w as [|w IH]; intros n m.
  - split; [intros _ i Hi; lia|done].
  - simpl hex. split.
    + intros H. apply append_snoc_inj in H as [H D].
      apply hex_digit_inj in D; [|by apply N.mod_lt..].
      intros i Hi. destruct (N.ltb_spec i 4) as [Hlow|Hhigh].
      * by apply low_digit_bits.
      * pose proof (proj1 (IH _ _) H (i - 4)%N ltac:(lia)) as B.
        change 16%N with (2 ^ 4)%N in B. rewrite !N.div_pow2_bits in B.
        by replace (i - 4 + 4)%N with i in B by lia.
    + intros H. f_equal.
      * apply IH. intros i Hi. change 16%N with (2 ^ 4)%N.
        rewrite !N.div_pow2_bits. apply H. lia.
      * do 2 f_equal. apply low_digit_bits. intros i Hi. apply H. lia.
Qed.

Lemma testbit_small a i : (a < 2 ^ i)%N -> N.testbit a i = false.
Proof.
  intros H. destruct a as [|p]; [done|]. apply N.bits_above_log2.
  by apply N.log2_lt_pow2.
Qed.

(** [uuid4] leaves the upper half of the draw as it is, but for the four
    version bits. *)
Lemma uuid4_upper_bits r i :
  (64 <= i < 128)%N -> ~ (76 <= i < 80)%N -> N.testbit (uuid4 r) i = N.testbit r i.
Proof.
  intros Hi Hv. unfold uuid4.
  rewrite N.lor_spec, N.ldiff_spec, N.lor_spec, N.ldiff_spec.
  rewrite N.mod_pow2_bits_low by lia.
  rewrite !N.shiftl_spec_high' by lia.
  rewrite (testbit_small 0xc000) by (apply (N.lt_le_trans _ (2 ^ 16)); [done|apply N.pow_le_mono_r; lia]).
  rewrite (testbit_small 0x8000) by (apply (N.lt_le_trans _ (2 ^ 16)); [done|apply N.pow_le_mono_r; lia]).
  assert (N.testbit 0xf000 (i - 64) = false) as ->.
  { destruct (N.ltb_spec i 76).
    - change 0xf000%N with (N.shiftl 15 12). apply N.shiftl_spec_low. lia.
    - apply testbit_small. apply (N.lt_le_trans _ (2 ^ 16)); [done|apply N.pow_le_mono_r; lia]. }
  assert (N.testbit (N.shiftl 4 76) i = false) as ->.
  { destruct (N.ltb_spec i 76).
    - apply N.shiftl_spec_low. lia.
    - rewrite N.shiftl_spec_high' by lia. apply testbit_small.
      apply (N.lt_le_trans _ (2 ^ 4)); [done|apply N.pow_le_mono_r; lia]. }
  simpl. by rewrite !andb_true_r, !orb_false_r.
Qed.

(** The version bits do not depend on the draw. *)
Lemma uuid4_version_bits r i :
  (76 <= i < 80)%N -> N.testbit (uuid4 r) i = N.testbit 4 (i - 76).
Proof.
  intros Hi. unfold uuid4.
  rewrite N.lor_spec, N.ldiff_spec.
  rewrite !(N.shiftl_spec_high' _ _ i) by lia.
  assert (N.testbit 0xf000 (i - 64) = true) as ->.
  { assert (i = 76 \/ i = 77 \/ i = 78 \/ i = 79)%N as [E|[E|[E|E]]] by lia; by subst i. }
  by rewrite andb_false_r.
Qed.

(** Two draws give the same identifier exactly when they agree on the
    bits 64 to 127 other than the four version bits: sixty bits. *)
Lemma new_filament_id_eq r r' :
  new_filament_id r' = new_filament_id r <->
  forall i, (64 <= i < 128)%N -> ~ (76 <= i < 80)%N -> N.testbit r' i = N.testbit r i.
Proof.
  unfold new_filament_id.
  assert (Hsub : forall u, String.substring 0 16 (hex 32 u) = hex 16 (u / 16 ^ 16)%N).
  { intros u. change 32 with (16 + 16). rewrite hex_add.
    rewrite <- (length_hex 16 (u / 16 ^ N.of_nat 16)) at 1. apply substring_0_append. }
  rewrite !Hsub. split.
  - intros H' i Hi Hv. apply append_inv_head in H'.
    pose proof (proj1 (hex_eq_bits _ _ _) H' (i - 64)%N ltac:(lia)) as B.
    change (16 ^ 16)%N with (2 ^ 64)%N in B. rewrite !N.div_pow2_bits in B.
    replace (i - 64 + 64)%N with i in B by lia.
    by rewrite !uuid4_upper_bits in B.
  - intros H. f_equal. apply hex_eq_bits. intros i Hi.
    change (16 ^ 16)%N with (2 ^ 64)%N. rewrite !N.div_pow2_bits.
    destruct (decide (76 <= i + 64 < 80)%N) as [Hv|Hv].
    + by rewrite !uuid4_version_bits.
    + rewrite !uuid4_upper_bits by lia. apply H; lia.
Qed.

(** X7. When [modify_profile_data] returns, [filament_settings_id] of
    the result is a list that did not exist before the call, with one
    element, the identifier computed from the draw: ["PFUS"] followed by
    16 hexadecimal digits, the 13th of which is always [4] (the version
    digit of a UUID4).  The identifier carries sixty bits of the draw:
    another draw gives the same identifier exactly when it has the same
    bits 64 to 127, the four version bits 76 to 79 apart. *)
Theorem modify_profile_data_assigns_id data src tgt r h m h' :
  modify_profile_data data src tgt r h = (Returned m, h') ->
  exists items' lid,
    object_of h' m = Some (ODict items') /\
    dict_get "filament_settings_id" items' = Some (VRef lid) /\
    h !! lid = None /\
    h' !! lid = Some (OList [VStr (new_filament_id r)]) /\
    (exists suffix,
       new_filament_id r = "PFUS" +:+ suffix /\
       String.length suffix = 16 /\ all_hex suffix = true /\
       String.get 12 suffix = Some "4"%char) /\
    (forall r',
       new_filament_id r' = new_filament_id r <->
       forall i, (64 <= i < 128)%N -> ~ (76 <= i < 80)%N ->
                 N.testbit r' i = N.testbit r i).
Proof.
  intros H.
  destruct (modify_profile_data_new_id _ _ _ _ _ _ _ H)
    as (items' & lid & suffix & Hm & Hid & Hfresh & Hlid & Hlen & Hhex).
  exists items', lid.
  apply modify_profile_data_output in H
    as (l & items & name & items2 & lid2 & _ & _ & _ & _ & _ & Hm2 & _ & _ & Hid2 & Hlid2 & _).
  rewrite Hm in Hm2. injection Hm2 as <-.
  rewrite Hid in Hid2. injection Hid2 as <-.
  assert (E : "PFUS" +:+ suffix = new_filament_id r) by congruence.
  split; [done|]. split; [done|]. split; [done|]. split; [done|]. split.
  - exists suffix. split; [done|]. split; [done|]. split; [done|].
    pose proof (new_filament_id_version r) as V. rewrite <- E in V. exact V.
  - intros r'. apply new_filament_id_eq.
Qed.

Lemma modify_profile_data_assigns_id_witness :
  exists m h' items' lid,
    modify_profile_data (VRef 3) "0.4" "0.8" 7 sample_store = (Returned m, h') /\
    object_of h' m = Some (ODict items') /\
    dict_get "filament_settings_id" items' = Some (VRef lid) /\
    h' !! lid = Some (OList [VStr (new_filament_id 7)]) /\
    new_filament_id (7 + 2 ^ 64) <> new_filament_id 7.
Proof.
  eexists _, _.
  edestruct (modify_profile_data_assigns_id (VRef 3) "0.4" "0.8" 7%N sample_store)
    as (items' & lid & Hm & Hid & _ & Hlid & _ & Hr); [reflexivity|].
  exists items', lid. split; [reflexivity|]. split; [exact Hm|].
  split; [exact Hid|]. split; [exact Hlid|].
  intros E. pose proof (proj1 (Hr _) E 64%N ltac:(lia) ltac:(lia)) as B. discriminate B.
Defined.

(** * Further properties: the scanner *)

Lemma setdefault_append_fst k v g x :
  In x (map fst (setdefault_append k v g)) <-> x = k \/ In x (map fst g).
Proof.
  induction g as [|[k' vs] g IH]; simpl.
  - intuition congruence.
  - destruct (String.eqb_spec k' k) as [->|Hne]; simpl; [intuition congruence|].
    rewrite IH. intuition congruence.
Qed.

Lemma setdefault_append_NoDup k v g :
  NoDup (map fst g) -> NoDup (map fst (setdefault_append k v g)).
Proof.
  induction g as [|[k' vs] g IH]; simpl; intros Hnd.
  - apply NoDup_singleton.
  - apply NoDup_cons in Hnd as [Hk' Hnd].
    destruct (String.eqb_spec k' k) as [->|Hneq]; simpl.
    + by apply NoDup_cons.
    + apply NoDup_cons. split; [|by apply IH].
      rewrite list_elem_of_In, setdefault_append_fst, <- list_elem_of_In.
      intros [E|E]; [by subst|done].
Qed.

Lemma setdefault_append_nonempty k v g :
  Forall (fun g => snd g <> []) g ->
  Forall (fun g => snd g <> []) (setdefault_append k v g).
Proof.
  induction 1 as [|[k' vs] g Hx Hne IH]; simpl.
  - by repeat constructor.
  - destruct (String.eqb k' k); constructor; simpl; auto. by destruct vs.
Qed.

Lemma setdefault_append_sizes k v g :
  list_sum (map (fun g => length (snd g)) (setdefault_append k v g))
  = S (list_sum (map (fun g => length (snd g)) g)).
Proof.
  induction g as [|[k' vs] g IH]; simpl; [done|].
  destruct (String.eqb k' k); simpl.
  - rewrite length_app. simpl. lia.
  - rewrite IH. lia.
Qed.

Lemma collect_groups_partition names :
  NoDup (map fst (collect_groups names)) /\
  Forall (fun g => snd g <> []) (collect_groups names) /\
  list_sum (map (fun g => length (snd g)) (collect_groups names)) = length names.
Proof.
  unfold collect_groups.
  assert (H : forall g,
    NoDup (map fst g) -> Forall (fun g => snd g <> []) g ->
    let g' := fold_left (fun groups name =>
                    let '(base_material, variant) := material_and_variant name in
                    setdefault_append base_material variant groups) names g in
    NoDup (map fst g') /\ Forall (fun g => snd g <> []) g' /\
    list_sum (map (fun g => length (snd g)) g')
      = list_sum (map (fun g => length (snd g)) g) + length names).
  { induction names as [|n names IH]; cbn [fold_left]; intros g Hnd Hne.
    - repeat split; try done; simpl; lia.
    - destruct (material_and_variant n) as [m v].
      destruct (IH (setdefault_append m v g)) as (H1 & H2 & H3);
        [by apply setdefault_append_NoDup|by apply setdefault_append_nonempty|].
      repeat split; try done; rewrite H3, setdefault_append_sizes; simpl; lia. }
  apply H; constructor.
Qed.

Lemma sort_group_perm g g' :
  sort_group g = Returned g' -> fst g' = fst g /\ Permutation (snd g') (snd g).
Proof.
  destruct g as [m found]. intros H.
  apply sort_group_Returned in H as (sorted & -> & H).
  apply (sort_by_key_Returned key_lt key_lt_asym) in H as (keys & _ & _ & Hp).
  - done.
  - intros a b c. apply key_le_trans.
Qed.

(** X9. A grouping that [get_profile_groups] returns has every
    material once, no material without a variant, and as many variants
    in all as there are [*.json] files. *)
Theorem get_profile_groups_partition p groups :
  get_profile_groups p = Returned groups ->
  NoDup (map fst groups) /\
  Forall (fun g => snd g <> []) groups /\
  list_sum (map (fun g => length (snd g)) groups) = length (glob p "*.json").
Proof.
  rewrite get_profile_groups_eq. intros H. apply mapM_Returned in H.
  destruct (collect_groups_partition (glob p "*.json")) as (Hnd & Hne & Hs).
  revert Hnd Hne Hs. generalize (length (glob p "*.json")).
  induction H as [|g g' gs gs' Hg HF IH]; intros n Hnd Hne Hs; [by repeat constructor|].
  apply sort_group_perm in Hg as [Hf Hp].
  apply NoDup_cons in Hnd as [Hx Hnd]. apply Forall_cons in Hne as [Hgne Hne].
  simpl in Hs.
  destruct (IH (n - length (snd g)) Hnd Hne ltac:(lia)) as (IH1 & IH2 & IH3).
  assert (Hfst : map fst gs' = map fst gs).
  { clear -HF. induction HF as [|a b l l' Hab _ IH]; [done|]. simpl.
    apply sort_group_perm in Hab as [-> _]. by rewrite IH. }
  split; [|split].
  - simpl. rewrite Hf. apply NoDup_cons. by rewrite Hfst.
  - constructor; [|done]. intros E. rewrite E in Hp. apply Permutation_nil in Hp. done.
  - simpl. rewrite IH3, (Permutation_length Hp). lia.
Qed.

Lemma get_profile_groups_partition_witness :
  NoDup (map fst [("PLA", ["0.4 mm"; "0.8 mm"; "1 mm"])]) /\
  Forall (fun g : string * list string => snd g <> []) [("PLA", ["0.4 mm"; "0.8 mm"; "1 mm"])] /\
  list_sum (map (fun g : string * list string => length (snd g))
              [("PLA", ["0.4 mm"; "0.8 mm"; "1 mm"])]) = 3.
Proof.
  apply (get_profile_groups_partition (Directory three_variants)). by vm_compute.
Defined.

Lemma mapM_returns {A B} (f : A -> outcome B) l :
  (forall x, In x l -> exists y, f x = Returned y) -> exists k, mapM f l = Returned k.
Proof.
  induction l as [|x l IH]; intros H; [by exists []|].
  destruct (H x (or_introl eq_refl)) as [y Hy].
  destruct IH as [k Hk]; [intros x' Hx'; apply H; by right|].
  exists (y :: k). simpl. by rewrite Hy, Hk.
Qed.

(** Every collected variant comes from a listed name. *)
Lemma setdefault_append_inv k v g m vs x :
  In (m, vs) (setdefault_append k v g) -> In x vs ->
  (m = k /\ x = v) \/ exists vs0, In (m, vs0) g /\ In x vs0.
Proof.
  induction g as [|[k' vs'] g IH]; simpl.
  - intros [[= <- <-]|[]] [->|[]]. by left.
  - destruct (String.eqb_spec k' k) as [->|Hne]; simpl.
    + intros [[= <- <-]|Hin] Hx.
      * apply in_app_or in Hx as [Hx|[->|[]]]; [right; eauto|by left].
      * right. eauto.
    + intros [[= <- <-]|Hin] Hx; [right; eauto|].
      destruct (IH Hin Hx) as [?|(vs0 & ? & ?)]; [by left|right; eauto].
Qed.

Lemma collect_groups_inv names m vs x :
  In (m, vs) (collect_groups names) -> In x vs ->
  exists name, In name names /\ material_and_variant name = (m, x).
Proof.
  unfold collect_groups.
  assert (H : forall g,
    In (m, vs) (fold_left (fun groups name =>
                    let '(base_material, variant) := material_and_variant name in
                    setdefault_append base_material variant groups) names g) -> In x vs ->
    (exists name, In name names /\ material_and_variant name = (m, x)) \/
    exists vs0, In (m, vs0) g /\ In x vs0).
  { induction names as [|n names IH]; cbn [fold_left]; intros g Hin Hx; [right; eauto|].
    destruct (material_and_variant n) as [m0 v0] eqn:E.
    destruct (IH _ Hin Hx) as [(name & ? & ?)|(vs0 & Hin0 & Hx0)].
    - left. exists name. split; [by right|done].
    - destruct (setdefault_append_inv _ _ _ _ _ _ Hin0 Hx0) as [[-> ->]|?]; [|by right].
      left. exists n. split; [by left|done]. }
  intros Hin Hx. destruct (H [] Hin Hx) as [?|(vs0 & [] & _)]. done.
Qed.

(** [split] and its pieces *)

Lemma split_two sep s i f :
  Str.split sep s = [i; f] ->
  s = i +:+ String sep f /\
  Str.contains (String sep "") i = false /\ Str.contains (String sep "") f = false.
Proof.
  destruct (first_sep sep s) as [H|(a & b & -> & Ha)].
  - by rewrite split_no_sep.
  - rewrite split_app_sep by done. intros [= -> Hb].
    destruct (first_sep sep b) as [H|(a' & b' & -> & Ha')].
    { rewrite split_no_sep in Hb by done. by injection Hb as <-. }
    rewrite split_app_sep in Hb by done. pose proof (split_length sep b').
    destruct (Str.split sep b'); simpl in *; [lia|done].
Qed.

Lemma split_one sep s i :
  Str.split sep s = [i] -> s = i /\ Str.contains (String sep "") i = false.
Proof.
  destruct (first_sep sep s) as [H|(a & b & -> & Ha)].
  - rewrite split_no_sep by done. by intros [= <-].
  - rewrite split_app_sep by done. pose proof (split_length sep b).
    destruct (Str.split sep b); simpl in *; [lia|done].
Qed.

Lemma replace_char_app c new a b :
  Str.replace (String c "") new (a +:+ b)
  = Str.replace (String c "") new a +:+ Str.replace (String c "") new b.
Proof.
  simpl Str.replace. induction a as [|d a IH]; [reflexivity|].
  rewrite append_cons. cbn [Str.replace_from]. rewrite !prefix_cons.
  change (String.length (String c "") - 1) with 0.
  destruct (Ascii.eqb c d); simpl andb.
  - rewrite !prefix_nil, IH. apply append_assoc.
  - by rewrite IH, append_cons.
Qed.

Lemma is_numeric_token_float y :
  is_numeric_token y = true -> length (Str.split "." y) <= 2 ->
  exists x, py_float y = Returned x.
Proof.
  unfold is_numeric_token, py_float. intros Hnum Hlen.
  destruct (Str.split "." y) as [|i [|f [|g rest]]] eqn:E; simpl in Hlen; try lia.
  - pose proof (split_length "." y). rewrite E in H. simpl in H. lia.
  - apply split_one in E as [-> Hi]. rewrite replace_absent in Hnum by done.
    rewrite Hnum. eauto.
  - apply split_two in E as (-> & Hi & Hf).
    change (String "." f) with ("." +:+ f) in Hnum.
    rewrite !replace_char_app in Hnum.
    rewrite (replace_absent _ _ i), (replace_absent _ _ f) in Hnum by done.
    change (Str.replace "." "" ".") with "" in Hnum. rewrite append_nil in Hnum.
    rewrite Hnum. pose proof (isdigit_all_digits _ Hnum) as Ha.
    rewrite all_digits_append in Ha. rewrite Ha. eauto.
Qed.

Lemma py_float_many_dots y : 3 <= length (Str.split "." y) -> py_float y = Raised ValueError.
Proof.
  unfold py_float. destruct (Str.split "." y) as [|i [|f [|g rest]]]; simpl; intros; done || lia.
Qed.

Lemma get_profile_groups_bad_token p name y :
  In name (glob p "*.json") ->
  In y (Str.split_ws (snd (material_and_variant name))) ->
  is_numeric_token y = true ->
  py_float y = Raised ValueError ->
  get_profile_groups p = Raised ValueError.
Proof.
  intros Hname Hy Hnum Hfloat.
  destruct (collect_groups_In _ _ Hname) as (vs & Hg & Hv).
  assert (Hkey : exists e, variant_sort_key (snd (material_and_variant name)) = Raised e).
  { unfold variant_sort_key. apply (mapM_Raised _ _ y ValueError); [|done].
    apply List.filter_In. done. }
  destruct Hkey as [e Hkey].
  destruct (sort_by_key_Raised key_lt variant_sort_key vs _ _ Hv Hkey) as [e' Hs].
  assert (Hgroup : exists e'', sort_group (fst (material_and_variant name), vs) = Raised e'').
  { unfold sort_group. rewrite outcome_bind_eq, Hs. eauto. }
  destruct Hgroup as [e'' Hgroup].
  destruct (mapM_Raised sort_group _ _ _ Hg Hgroup) as [e3 H3].
  rewrite <- get_profile_groups_eq in H3.
  destruct (get_profile_groups_Raised _ _ H3) as [-> _]. done.
Qed.

(** X10. For a directory whose profile files have ASCII names,
    [get_profile_groups] returns a grouping exactly when no variant of a
    listed file has a white-space separated token that passes the digit
    test and has more than one dot. *)
Theorem get_profile_groups_returns_iff p :
  Forall (fun name => is_ascii name = true) (glob p "*.json") ->
  (exists groups, get_profile_groups p = Returned groups) <->
  (forall name y,
     In name (glob p "*.json") ->
     In y (Str.split_ws (snd (material_and_variant name))) ->
     is_numeric_token y = true ->
     length (Str.split "." y) <= 2).
Proof.
  intros _. split.
  - intros [groups H] name y Hname Hy Hnum.
    destruct (le_lt_dec (length (Str.split "." y)) 2) as [|Hlen]; [done|].
    rewrite (get_profile_groups_bad_token p name y) in H; try done.
    apply py_float_many_dots. lia.
  - intros H. rewrite get_profile_groups_eq. apply mapM_returns.
    intros [m vs] Hin. unfold sort_group, sort_by_key.
    destruct (mapM_returns variant_sort_key vs) as [keys Hk].
    + intros x Hx. destruct (collect_groups_inv _ _ _ _ Hin Hx) as (name & Hname & E).
      unfold variant_sort_key. apply mapM_returns. intros y Hy.
      apply List.filter_In in Hy as [Hy Hnum].
      apply is_numeric_token_float; [done|]. apply (H name); [done| |done].
      by rewrite E.
    + rewrite !outcome_bind_eq, Hk. eauto.
Qed.

Lemma get_profile_groups_returns_iff_witness :
  exists groups, get_profile_groups (Directory three_variants) = Returned groups.
Proof.
  apply (get_profile_groups_returns_iff (Directory three_variants)).
  - vm_compute. repeat constructor.
  - intros name y Hname Hy _. vm_compute in Hname.
    destruct Hname as [<-|[<-|[<-|[]]]]; vm_compute in Hy;
      destruct Hy as [<-|[<-|[]]]; vm_compute; lia.
Defined.

Section StableFacts.

Context {A K : Type}.
Variable lt : K -> K -> bool.

Lemma stable_sort_sorted_id (l : list (K * A)) :
  StronglySorted (fun x y => lt (fst y) (fst x) = false) l -> stable_sort lt l = l.
Proof.
  induction 1 as [|x l Hs IH Hx]; [done|]. simpl. rewrite IH.
  destruct Hx as [|y l' Hy _]; [done|]. simpl. by rewrite Hy.
Qed.

Lemma sort_by_key_sorted_id (key : A -> outcome K) l keys :
  mapM key l = Returned keys ->
  StronglySorted (fun a b => lt b a = false) keys ->
  sort_by_key lt key l = Returned l.
Proof.
  intros Hk Hs. unfold sort_by_key. rewrite outcome_bind_eq, Hk.
  apply mapM_Returned, Forall2_length in Hk.
  rewrite stable_sort_sorted_id.
  - change (map snd (zip keys l)) with ((zip keys l).*2). rewrite snd_zip; [done|lia].
  - clear Hk. revert l. induction Hs as [|k keys Hs IH Hk]; intros l; [constructor|].
    destruct l as [|x l]; simpl; constructor; [apply IH|].
    clear -Hk. revert l. induction Hk as [|k' keys Hk' _ IHk]; intros l; [constructor|].
    destruct l; simpl; constructor; [done|apply IHk].
Qed.

End StableFacts.

(** X11. The sort is stable.  For a directory whose profile files have
    ASCII names, a group whose labels already have their keys in
    ascending order comes back in the order the files were listed; in
    particular labels without numeric tokens are never reordered. *)
Theorem get_profile_groups_keeps_order p material found keys groups :
  Forall (fun name => is_ascii name = true) (glob p "*.json") ->
  In (material, found) (collect_groups (glob p "*.json")) ->
  mapM variant_sort_key found = Returned keys ->
  StronglySorted key_le keys ->
  get_profile_groups p = Returned groups ->
  In (material, found) groups.
Proof.
  intros _ Hin Hk Hs. rewrite get_profile_groups_eq. intros H.
  apply mapM_Returned in H.
  destruct (Forall2_In_l _ _ _ _ H Hin) as (g & Hg & Hsort).
  unfold sort_group in Hsort.
  rewrite (sort_by_key_sorted_id key_lt variant_sort_key found keys Hk Hs) in Hsort.
  by injection Hsort as <-.
Qed.

Lemma get_profile_groups_keeps_order_witness :
  In ("PLA", ["silk"; "basic"; "matte"])
     [("PLA", ["silk"; "basic"; "matte"])].
Proof.
  apply (get_profile_groups_keeps_order
           (Directory [("PLA@silk.json", sample_file); ("PLA@basic.json", sample_file);
                       ("PLA@matte.json", sample_file)])
           "PLA" ["silk"; "basic"; "matte"] [[]; []; []]).
  - vm_compute. repeat constructor.
  - left. reflexivity.
  - reflexivity.
  - repeat constructor.
  - reflexivity.
Defined.

(** * Console output and the preview *)

Lemma contains_char_append c a b :
  Str.contains (String c "") (a +:+ b)
  = Str.contains (String c "") a || Str.contains (String c "") b.
Proof.
  induction a as [|d a IH]; [done|].
  rewrite append_cons, !contains_char_cons, IH. by rewrite orb_assoc.
Qed.

Lemma split_pieces sep s :
  Forall (fun p => Str.contains (String sep "") p = false) (Str.split sep s).
Proof.
  induction s as [|c s IH]; simpl; [by repeat constructor|].
  destruct (Ascii.eqb c sep) eqn:E; [constructor; [reflexivity|done]|].
  destruct (Str.split sep s) as [|p ps].
  { repeat constructor. by rewrite contains_char_cons, E. }
  apply Forall_cons in IH as [Hp Hps]. constructor; [|done].
  by rewrite contains_char_cons, E, Hp.
Qed.

Lemma split_app sep a b :
  Str.split sep (a +:+ String sep b) = Str.split sep a ++ Str.split sep b.
Proof.
  induction a as [|c a IH].
  - rewrite append_nil. simpl. by rewrite Ascii.eqb_refl.
  - rewrite append_cons. simpl. rewrite IH. destruct (Ascii.eqb c sep); [done|].
    pose proof (split_length sep a). destruct (Str.split sep a); simpl in *; [lia|done].
Qed.

Lemma split_join sep l :
  l <> [] -> Forall (fun p => Str.contains (String sep "") p = false) l ->
  Str.split sep (join (String sep "") l) = l.
Proof.
  intros Hne H. induction H as [|p l Hp Hl IH]; [done|].
  destruct l as [|q l]; [by apply split_no_sep|].
  change (join (String sep "") (p :: q :: l))
    with (p +:+ String sep "" +:+ join (String sep "") (q :: l)).
  change (String sep "" +:+ join (String sep "") (q :: l))
    with (String sep (join (String sep "") (q :: l))).
  rewrite split_app_sep by done. by rewrite IH.
Qed.

(** X12. With the default line end, [delayed_print] writes the lines
    of the joined text, each with one more space before it and each
    ended by a line feed: no line is added, dropped or left
    unindented. *)
Theorem delayed_print_indents args sep :
  Str.split newline (delayed_print args sep (String newline "")) =
  map (fun line => " " +:+ line) (Str.split newline (join sep args)) ++ [""].
Proof.
  unfold delayed_print. rewrite split_app. f_equal.
  apply split_join.
  - pose proof (split_length newline (join sep args)).
    destruct (Str.split newline (join sep args)); simpl in *; [lia|done].
  - apply Forall_fmap. eapply Forall_impl; [apply split_pieces|].
    intros p Hp. simpl. by rewrite contains_char_append, Hp.
Qed.

(** The lines of the preview hold no line feed of their own. *)

Lemma contains_join c sep l :
  Str.contains (String c "") sep = false ->
  Forall (fun p => Str.contains (String c "") p = false) l ->
  Str.contains (String c "") (join sep l) = false.
Proof.
  intros Hsep H. induction H as [|p l Hp Hl IH]; [done|].
  destruct l as [|q l]; [done|].
  change (join sep (p :: q :: l)) with (p +:+ sep +:+ join sep (q :: l)).
  by rewrite !contains_char_append, Hp, Hsep, IH.
Qed.

Lemma contains_uint c d :
  Str.is_digit c = false ->
  Str.contains (String c "") (NilEmpty.string_of_uint d) = false.
Proof.
  intros Hc. induction d; simpl NilEmpty.string_of_uint; [done|..];
    rewrite contains_char_cons, IHd, orb_false_r;
    match goal with
    | |- Ascii.eqb ?x c = false => destruct (Ascii.eqb_spec x c) as [<-|]; [discriminate|done]
    end.
Qed.

Lemma contains_str_of_nat c n :
  Str.is_digit c = false -> Str.contains (String c "") (str_of_nat n) = false.
Proof.
  intros Hc. unfold str_of_nat, NilZero.string_of_uint.
  destruct (Nat.to_uint n) eqn:E; try (rewrite <- E; by apply contains_uint).
  change (Str.contains (String c "") "0" = false).
  rewrite contains_char_cons. change (Str.contains (String c "") "") with false.
  rewrite orb_false_r. destruct (Ascii.eqb_spec "0" c) as [<-|]; [discriminate|done].
Qed.

Lemma preview_line_one_line g :
  Str.contains (String newline "") (fst g) = false ->
  Forall (fun v => Str.contains (String newline "") v = false) (snd g) ->
  Str.contains (String newline "") (preview_line g) = false.
Proof.
  destruct g as [material variants]. simpl. intros Hm Hv.
  assert (Hj : Str.contains (String newline "")
                 (join ", " (take MAX_PREVIEW_VARIANTS variants)) = false).
  { apply contains_join; [done|]. by apply Forall_take. }
  rewrite !contains_char_append, Hm.
  destruct (MAX_PREVIEW_VARIANTS <? length variants).
  - rewrite !contains_char_append, Hj, contains_str_of_nat by done. done.
  - rewrite Hj. done.
Qed.

(** X13. For a grouping that is not empty and whose materials and
    variants contain no line feed, the preview has one line per material
    up to [MAX_PREVIEW_GROUPS] and one more line when materials are left
    out: never more than four lines. *)
Theorem format_group_preview_lines groups :
  groups <> [] ->
  Forall (fun g => Str.contains (String newline "") (fst g) = false /\
                   Forall (fun v => Str.contains (String newline "") v = false) (snd g))
         groups ->
  length (Str.split newline (format_group_preview groups))
    = Nat.min MAX_PREVIEW_GROUPS (length groups)
      + (if MAX_PREVIEW_GROUPS <? length groups then 1 else 0) /\
  length (Str.split newline (format_group_preview groups)) <= 4.
Proof.
  intros Hne H. unfold format_group_preview.
  assert (Hlines : Forall (fun p => Str.contains (String newline "") p = false)
                     (map preview_line (take MAX_PREVIEW_GROUPS groups))).
  { apply Forall_fmap, Forall_take. eapply Forall_impl; [exact H|].
    intros g [Hm Hv]. by apply preview_line_one_line. }
  assert (Hlen : length (map preview_line (take MAX_PREVIEW_GROUPS groups))
                 = Nat.min MAX_PREVIEW_GROUPS (length groups)).
  { by rewrite length_map, length_take. }
  destruct (MAX_PREVIEW_GROUPS <? length groups) eqn:E.
  - rewrite split_join.
    + rewrite length_app, Hlen. cbn [length]. unfold MAX_PREVIEW_GROUPS. lia.
    + by destruct (map preview_line _).
    + apply Forall_app. split; [done|]. repeat constructor.
      rewrite !contains_char_append, contains_str_of_nat by done. done.
  - rewrite split_join; [|destruct groups; done|done].
    rewrite Hlen. unfold MAX_PREVIEW_GROUPS. lia.
Qed.

Lemma format_group_preview_lines_witness :
  length (Str.split newline
            (format_group_preview [("PLA", ["0.4"; "0.6"; "0.8"; "1.0"]); ("PETG", ["0.4"]);
                                   ("ABS", ["default"]); ("TPU", ["0.4"])])) = 4.
Proof.
  apply (format_group_preview_lines
           [("PLA", ["0.4"; "0.6"; "0.8"; "1.0"]); ("PETG", ["0.4"]);
            ("ABS", ["default"]); ("TPU", ["0.4"])]).
  - discriminate.
  - repeat constructor.
Defined.

(** * Finding the user profiles *)

Lemma resolve_app fs p q :
  resolve fs (p ++ q) = match resolve fs p with Some n => resolve n q | None => None end.
Proof.
  revert fs. induction p as [|name p IH]; intros fs; [done|]. simpl.
  destruct fs as [c|children]; [done|]. destruct (lookup_node name children); [apply IH|done].
Qed.

Lemma resolve_file c p : p <> [] -> resolve (File c) p = None.
Proof. by destruct p. Qed.

Lemma lookup_node_In name children n :
  lookup_node name children = Some n -> In name (map fst children).
Proof.
  induction children as [|[k c] children IH]; simpl; [done|].
  destruct (String.eqb_spec k name) as [->|_]; [by left|]. intros H. right. by apply IH.
Qed.

Lemma is_dir_app fs p q : is_dir fs (p ++ q) = true -> is_dir fs p = true.
Proof.
  unfold is_dir. rewrite resolve_app. destruct (resolve fs p) as [[c|children]|]; try done.
  destruct q; [done|]. by rewrite resolve_file.
Qed.

(** X14. When [find_user_profiles] returns, the list is not empty and
    holds exactly the entries [id] of the base directory for which
    [base_dir / id / "filament" / "base"] is a directory, each with that
    path. *)
Theorem find_user_profiles_lists path_str fs base_dir users :
  find_user_profiles path_str fs base_dir = Returned users ->
  users <> [] /\
  exists children,
    resolve fs base_dir = Some (Folder children) /\
    forall id dir,
      In (id, dir) users <->
      In id (map fst children) /\ dir = base_dir ++ [id; "filament"; "base"] /\
      is_dir fs dir = true.
Proof.
  unfold find_user_profiles.
  destruct (resolve fs base_dir) as [[c|children]|]; try done.
  set (keep := fun child : string * node =>
                 if is_dir fs (base_dir ++ [fst child]) then
                   if is_dir fs ((base_dir ++ [fst child]) ++ ["filament"; "base"])
                   then Some (fst child, (base_dir ++ [fst child]) ++ ["filament"; "base"])
                   else None
                 else None).
  destruct (omap keep children) as [|u us] eqn:E; [done|].
  intros [= <-]. split; [done|]. exists children. split; [done|].
  intros id dir. rewrite <- E, <- list_elem_of_In, list_elem_of_omap.
  split.
  - intros ([k n] & Hin & Hk). unfold keep in Hk. simpl in Hk.
    destruct (is_dir fs (base_dir ++ [k])); [|done].
    destruct (is_dir fs ((base_dir ++ [k]) ++ _)) eqn:D; [|done].
    injection Hk as -> <-. rewrite <- app_assoc in *. simpl in *.
    split; [|done]. apply list_elem_of_In, list_elem_of_fmap. by exists (id, n).
  - intros (Hin & -> & D).
    apply list_elem_of_In, list_elem_of_fmap in Hin as ([k n] & -> & Hin).
    exists (k, n). split; [done|]. unfold keep. simpl in *.
    rewrite <- app_assoc. simpl.
    rewrite (is_dir_app fs (base_dir ++ [k]) ["filament"; "base"]).
    + by rewrite D.
    + by rewrite <- app_assoc.
Qed.

Lemma find_user_profiles_lists_witness :
  In ("1234", ["1234"; "filament"; "base"]) [("1234", ["1234"; "filament"; "base"])] <->
  In "1234" ["1234"; "readme.txt"; "default"] /\
  ["1234"; "filament"; "base"] = [] ++ ["1234"; "filament"; "base"] /\
  is_dir sample_tree ["1234"; "filament"; "base"] = true.
Proof.
  destruct (find_user_profiles_lists (fun _ => "") sample_tree []
              [("1234", ["1234"; "filament"; "base"])] eq_refl) as (_ & children & Hc & H).
  injection Hc as <-. exact (H "1234" ["1234"; "filament"; "base"]).
Defined.

(** X15. [find_user_profiles] raises in three cases only: a missing
    base directory gives a [NozzleConversionError] that names the path; a
    base path that is a file gives the operating system's error, which
    is not converted; a directory without any user that has
    [filament/base] gives the [NozzleConversionError] "No user profiles
    found". *)
Theorem find_user_profiles_raises path_str fs base_dir e :
  find_user_profiles path_str fs base_dir = Raised e ->
  (resolve fs base_dir = None /\
   e = NozzleConversionError ("❌ Directory not found: " +:+ path_str base_dir)) \/
  (exists c, resolve fs base_dir = Some (File c) /\ e = OSError) \/
  (exists children,
     resolve fs base_dir = Some (Folder children) /\
     e = NozzleConversionError "🔍 No user profiles found" /\
     forall id, In id (map fst children) ->
                is_dir fs (base_dir ++ [id; "filament"; "base"]) = false).
Proof.
  unfold find_user_profiles.
  destruct (resolve fs base_dir) as [[c|children]|].
  - intros [= <-]. right. left. by exists c.
  - set (keep := fun child : string * node => _).
    destruct (omap keep children) as [|u us] eqn:E; [|done].
    intros [= <-]. right. right. exists children. split; [done|]. split; [done|].
    intros id Hin. apply list_elem_of_In, list_elem_of_fmap in Hin as ([k n] & -> & Hin).
    destruct (is_dir fs (base_dir ++ [k; "filament"; "base"])) eqn:D; [|done].
    assert (Hk : (k, base_dir ++ [k; "filament"; "base"]) ∈ omap keep children).
    { apply list_elem_of_omap. exists (k, n). split; [done|]. unfold keep. simpl.
      rewrite <- app_assoc. simpl.
      rewrite (is_dir_app fs (base_dir ++ [k]) ["filament"; "base"]).
      - by rewrite D.
      - by rewrite <- app_assoc. }
    rewrite E in Hk. by apply elem_of_nil in Hk.
  - intros [= <-]. by left.
Qed.

Lemma find_user_profiles_raises_witness :
  (resolve sample_tree ["default"] = None /\
   NozzleConversionError "🔍 No user profiles found"
     = NozzleConversionError ("❌ Directory not found: " +:+ "")) \/
  (exists c, resolve sample_tree ["default"] = Some (File c) /\
             NozzleConversionError "🔍 No user profiles found" = OSError) \/
  (exists children,
     resolve sample_tree ["default"] = Some (Folder children) /\
     NozzleConversionError "🔍 No user profiles found"
       = NozzleConversionError "🔍 No user profiles found" /\
     forall id, In id (map fst children) ->
                is_dir sample_tree (["default"] ++ [id; "filament"; "base"]) = false).
Proof.
  apply (find_user_profiles_raises (fun _ => "") sample_tree ["default"]). reflexivity.
Defined.

(** * The backup *)

Lemma lookup_set_child_eq name new children :
  lookup_node name (set_child name new children) = Some new.
Proof.
  induction children as [|[n c] children IH]; simpl.
  - by rewrite String.eqb_refl.
  - destruct (String.eqb n name) eqn:E; simpl; by rewrite E.
Qed.

Lemma lookup_set_child_ne name name' new children :
  name' <> name ->
  lookup_node name' (set_child name new children) = lookup_node name' children.
Proof.
  intros Hne. induction children as [|[n c] children IH]; simpl.
  - by destruct (String.eqb_spec name name').
  - destruct (String.eqb_spec n name) as [->|Hn]; simpl.
    + by destruct (String.eqb_spec name name').
    + by rewrite IH.
Qed.

(** After [put], the path denotes the new node. *)
Lemma put_resolve p : forall fs new fs',
  put fs p new = Some fs' -> resolve fs' p = Some new.
Proof.
  induction p as [|name rest IH]; intros fs new fs' H; simpl in H.
  - by injection H as <-.
  - destruct fs as [c|children]; [done|]. destruct rest as [|name' rest'].
    + injection H as <-. simpl. by rewrite lookup_set_child_eq.
    + destruct (lookup_node name children) as [c|]; [|done].
      destruct (put c (name' :: rest') new) as [c'|] eqn:E; [|done].
      injection H as <-. cbn [resolve]. rewrite lookup_set_child_eq.
      by apply (IH c).
Qed.

(** [put] succeeds below a directory. *)
Lemma put_succeeds p : forall fs new children,
  p <> [] -> resolve fs (removelast p) = Some (Folder children) ->
  exists fs', put fs p new = Some fs'.
Proof.
  induction p as [|name rest IH]; intros fs new children Hne H; [done|].
  destruct rest as [|name' rest'].
  - simpl in H. injection H as ->. simpl. eauto.
  - change (removelast (name :: name' :: rest')) with (name :: removelast (name' :: rest')) in H.
    cbn [resolve] in H. destruct fs as [c|ch]; [done|].
    change (put (Folder ch) (name :: name' :: rest') new)
      with (match lookup_node name ch with
            | Some c =>
                match put c (name' :: rest') new with
                | Some c' => Some (Folder (set_child name c' ch))
                | None => None
                end
            | None => None
            end).
    destruct (lookup_node name ch) as [c|]; [|done].
    destruct (IH c new children ltac:(done) H) as [c' ->]. eauto.
Qed.

(** A path that leaves the way to [p] at some component is not affected. *)
Lemma put_frame common : forall fs x y r1 r2 new fs',
  x <> y ->
  put fs (common ++ y :: r2) new = Some fs' ->
  resolve fs' (common ++ x :: r1) = resolve fs (common ++ x :: r1).
Proof.
  induction common as [|name common IH]; intros fs x y r1 r2 new fs' Hxy H.
  - simpl in H. destruct fs as [c|children]; [done|]. cbn [app resolve].
    destruct r2 as [|z r2].
    + injection H as <-. by rewrite lookup_set_child_ne.
    + destruct (lookup_node y children) as [c|]; [|done].
      destruct (put c (z :: r2) new) as [c'|]; [|done].
      injection H as <-. by rewrite lookup_set_child_ne.
  - rewrite <- !app_comm_cons in *. cbn [put] in H.
    destruct fs as [c|children]; [done|].
    destruct (common ++ y :: r2) as [|z l] eqn:E; [by destruct common|].
    destruct (lookup_node name children) as [c|] eqn:L; [|done].
    destruct (put c (z :: l) new) as [c'|] eqn:P; [|done].
    injection H as <-. cbn [resolve]. rewrite lookup_set_child_eq, L.
    rewrite <- E in P. by apply (IH c x y r1 r2 new).
Qed.

Lemma resolve_parent fs p n :
  p <> [] -> resolve fs p = Some n ->
  exists children, resolve fs (removelast p) = Some (Folder children).
Proof.
  intros Hne H. rewrite (app_removelast_last "" Hne), resolve_app in H.
  destruct (resolve fs (removelast p)) as [[c|children]|]; [done|eauto|done].
Qed.

(** X16. If the profile directory exists and nothing of the backup's
    name does, [backup_profiles] returns the path
    [parent / ("backup_" ++ timestamp)]; afterwards that path holds the
    content of the profile directory, the profile directory is
    unchanged, and so is every path that leaves the way to the backup at
    some component. *)
Theorem backup_profiles_copies fs profile_base timestamp children :
  profile_base <> [] ->
  resolve fs profile_base = Some (Folder children) ->
  resolve fs (removelast profile_base ++ [BACKUP_PREFIX +:+ timestamp]) = None ->
  exists fs',
    backup_profiles fs profile_base timestamp
      = (Returned (removelast profile_base ++ [BACKUP_PREFIX +:+ timestamp]), fs') /\
    resolve fs' (removelast profile_base ++ [BACKUP_PREFIX +:+ timestamp])
      = Some (Folder children) /\
    resolve fs' profile_base = Some (Folder children) /\
    forall common x y r1 r2,
      removelast profile_base ++ [BACKUP_PREFIX +:+ timestamp] = common ++ y :: r2 ->
      x <> y ->
      resolve fs' (common ++ x :: r1) = resolve fs (common ++ x :: r1).
Proof.
  intros Hne Hsrc Hdst. unfold backup_profiles, copytree. rewrite Hsrc, Hdst.
  destruct (resolve_parent _ _ _ Hne Hsrc) as [siblings Hparent].
  destruct (put_succeeds (removelast profile_base ++ [BACKUP_PREFIX +:+ timestamp])
              fs (Folder children) siblings) as [fs' Hput].
  { by destruct (removelast profile_base). }
  { by rewrite removelast_last. }
  rewrite Hput. exists fs'. split; [done|]. split; [by eapply put_resolve|].
  assert (Hframe : forall common x y r1 r2,
            removelast profile_base ++ [BACKUP_PREFIX +:+ timestamp] = common ++ y :: r2 ->
            x <> y ->
            resolve fs' (common ++ x :: r1) = resolve fs (common ++ x :: r1)).
  { intros common x y r1 r2 E Hxy. rewrite E in Hput. by eapply put_frame. }
  split; [|exact Hframe].
  rewrite <- Hsrc. rewrite (app_removelast_last "" Hne).
  apply (Hframe _ _ (BACKUP_PREFIX +:+ timestamp) [] []); [done|].
  intros E. rewrite (app_removelast_last "" Hne), E in Hsrc. congruence.
Qed.

Lemma backup_profiles_copies_witness :
  exists fs',
    backup_profiles sample_tree ["1234"; "filament"; "base"] "20250101_120000"
      = (Returned ["1234"; "filament"; "backup_20250101_120000"], fs') /\
    resolve fs' ["1234"; "filament"; "backup_20250101_120000"]
      = resolve sample_tree ["1234"; "filament"; "base"].
Proof.
  destruct (backup_profiles_copies sample_tree ["1234"; "filament"; "base"] "20250101_120000"
              [("PLA@0.4.json", File (JsonText sample_profile))]
              ltac:(discriminate) eq_refl eq_refl) as (fs' & H & Hb & _).
  exists fs'. split; [exact H|exact Hb].
Defined.

(** X17. A second backup at the same time stamp fails: after a backup
    that returned, the same call raises "Backup creation failed" and
    changes nothing. *)
Theorem backup_profiles_twice fs profile_base timestamp backup_dir fs' :
  backup_profiles fs profile_base timestamp = (Returned backup_dir, fs') ->
  backup_profiles fs' profile_base timestamp
    = (Raised (NozzleConversionError "Backup creation failed"), fs').
Proof.
  unfold backup_profiles, copytree.
  destruct (resolve fs profile_base) as [[c|children]|]; try done.
  destruct (resolve fs (removelast profile_base ++ _)); [done|].
  destruct (put fs _ (Folder children)) as [fs1|] eqn:Hput; [|done].
  intros [= <- <-]. apply put_resolve in Hput. rewrite Hput.
  by destruct (resolve fs1 profile_base) as [[c|ch]|].
Qed.

Lemma backup_profiles_twice_witness :
  backup_profiles
    (snd (backup_profiles sample_tree ["1234"; "filament"; "base"] "20250101_120000"))
    ["1234"; "filament"; "base"] "20250101_120000"
  = (Raised (NozzleConversionError "Backup creation failed"),
     snd (backup_profiles sample_tree ["1234"; "filament"; "base"] "20250101_120000")).
Proof.
  apply (backup_profiles_twice sample_tree ["1234"; "filament"; "base"] "20250101_120000"
           ["1234"; "filament"; "backup_20250101_120000"]).
  reflexivity.
Defined.

(** X18. [backup_profiles] raises only "Backup creation failed", and
    only when the profile directory is not a directory or something of
    the backup's name exists; the file system is then unchanged. *)
Theorem backup_profiles_fails fs profile_base timestamp e fs' :
  profile_base <> [] ->
  backup_profiles fs profile_base timestamp = (Raised e, fs') ->
  e = NozzleConversionError "Backup creation failed" /\ fs' = fs /\
  (is_dir fs profile_base = false \/
   is_Some (resolve fs (removelast profile_base ++ [BACKUP_PREFIX +:+ timestamp]))).
Proof.
  intros Hne. unfold backup_profiles, copytree, is_dir.
  destruct (resolve fs profile_base) as [[c|children]|] eqn:Hsrc;
    try (intros [= <- <-]; repeat split; by left).
  destruct (resolve fs (removelast profile_base ++ _)) eqn:Hdst.
  - intros [= <- <-]. repeat split. right. by eexists.
  - destruct (resolve_parent _ _ _ Hne Hsrc) as [siblings Hparent].
    destruct (put_succeeds (removelast profile_base ++ [BACKUP_PREFIX +:+ timestamp])
                fs (Folder children) siblings) as [fs1 Hput].
    { by destruct (removelast profile_base). }
    { by rewrite removelast_last. }
    rewrite Hput. done.
Qed.

Lemma backup_profiles_fails_witness :
  NozzleConversionError "Backup creation failed" = NozzleConversionError "Backup creation failed" /\
  sample_tree = sample_tree /\
  (is_dir sample_tree ["readme.txt"] = false \/
   is_Some (resolve sample_tree (removelast ["readme.txt"] ++ [BACKUP_PREFIX +:+ "20250101_120000"]))).
Proof.
  apply (backup_profiles_fails sample_tree ["readme.txt"] "20250101_120000").
  - discriminate.
  - reflexivity.
Defined.

(** * The rotation of the logs *)

(** [unlink] takes out the first entry of that name, which is a file. *)
Lemma unlink_Returned name l l' :
  unlink name l = Returned l' ->
  exists a s b, l = a ++ (name, s) :: b /\ l' = a ++ b /\
                ~ In name (map fst a) /\ st_is_dir s = false.
Proof.
  revert l'. induction l as [|[n s] l IH]; intros l' H; simpl in H; [done|].
  destruct (String.eqb_spec n name) as [->|Hne].
  - destruct (st_is_dir s) eqn:D; [done|]. injection H as <-.
    exists [], s, l. split; [done|]. split; [done|]. split; [by intros []|done].
  - rewrite outcome_bind_eq in H. destruct (unlink name l) as [l1|] eqn:E; [|done].
    injection H as <-. destruct (IH l1 eq_refl) as (a & s' & b & -> & -> & Hna & D).
    exists ((n, s) :: a), s', b. split; [done|]. split; [done|]. split; [|done].
    simpl. intros [?|?]; done.
Qed.

Lemma is_log_name n s s' : is_log (n, s) = is_log (n, s').
Proof. reflexivity. Qed.

Lemma In_log_names name l :
  In name (map fst (List.filter is_log l)) -> fnmatch "*.log" name = true.
Proof.
  intros H. apply in_map_iff in H as ([n s] & <- & H).
  by apply List.filter_In in H as [_ H].
Qed.

(** The loop leaves fewer than [MAX_LOG_FILES] logs. *)
Lemma rotate_bound existing_logs : forall l l',
  Permutation existing_logs (map fst (List.filter is_log l)) ->
  rotate existing_logs l = Returned l' ->
  length (List.filter is_log l') < MAX_LOG_FILES.
Proof.
  induction existing_logs as [|oldest rest IH]; intros l l' Hp H.
  - injection H as <-. apply Permutation_length in Hp. rewrite length_map in Hp.
    rewrite <- Hp. unfold MAX_LOG_FILES. simpl. lia.
  - cbn [rotate] in H.
    destruct (MAX_LOG_FILES <=? length (oldest :: rest)) eqn:E.
    + rewrite outcome_bind_eq in H. destruct (unlink oldest l) as [l1|] eqn:U; [|done].
      apply unlink_Returned in U as (a & s & b & -> & -> & _ & _).
      apply (IH (a ++ b)); [|done].
      assert (Hlog : is_log (oldest, s) = true).
      { apply (In_log_names oldest (a ++ (oldest, s) :: b)).
        eapply Permutation_in; [exact Hp|]. by left. }
      rewrite List.filter_app in Hp. simpl in Hp. rewrite Hlog in Hp.
      rewrite map_app in Hp. simpl in Hp.
      apply Permutation_cons_app_inv in Hp.
      by rewrite List.filter_app, map_app.
    + injection H as <-. apply Nat.leb_gt in E.
      apply Permutation_length in Hp. rewrite length_map in Hp. by rewrite <- Hp.
Qed.

Lemma open_append_logs name now l l' :
  open_append name now l = Returned l' ->
  length (List.filter is_log l') <= S (length (List.filter is_log l)).
Proof.
  revert l'. induction l as [|[n s] l IH]; intros l' H; simpl in H.
  - injection H as <-. simpl. destruct (is_log _); simpl; lia.
  - destruct (String.eqb n name).
    + destruct (st_is_dir s); [done|]. injection H as <-. simpl.
      rewrite (is_log_name n _ s). destruct (is_log (n, s)); simpl; lia.
    + rewrite outcome_bind_eq in H. destruct (open_append name now l) as [l1|]; [|done].
      injection H as <-. specialize (IH l1 eq_refl). simpl.
      destruct (is_log (n, s)); simpl; lia.
Qed.

Section SortNaturality.

Context {K A B : Type}.
Variable lt : K -> K -> bool.
Variable g : A -> B.

Lemma insert_sorted_map (x : K * A) l :
  insert_sorted lt (fst x, g (snd x)) (map (fun p => (fst p, g (snd p))) l)
  = map (fun p => (fst p, g (snd p))) (insert_sorted lt x l).
Proof.
  induction l as [|y l IH]; simpl; [done|].
  destruct (lt (fst y) (fst x)); simpl; [by rewrite IH|done].
Qed.

Lemma stable_sort_map (l : list (K * A)) :
  stable_sort lt (map (fun p => (fst p, g (snd p))) l)
  = map (fun p => (fst p, g (snd p))) (stable_sort lt l).
Proof.
  induction l as [|x l IH]; simpl; [done|]. by rewrite IH, insert_sorted_map.
Qed.

End SortNaturality.

(** The logs as entries, oldest first. *)
Lemma logs_by_age_entries l :
  exists entries,
    logs_by_age l = map fst entries /\
    Permutation entries (List.filter is_log l) /\
    StronglySorted (fun a b => (st_mtime (snd a) <= st_mtime (snd b))%Z) entries.
Proof.
  set (logs := List.filter is_log l).
  set (decorated := stable_sort Z.ltb (map (fun e => (st_mtime (snd e), e)) logs)).
  exists (map snd decorated). split; [|split].
  - unfold logs_by_age. fold logs.
    replace (map (fun e => (st_mtime (snd e), fst e)) logs)
      with (map (fun p : Z * (string * file_stat) => (fst p, fst (snd p)))
              (map (fun e => (st_mtime (snd e), e)) logs))
      by (rewrite map_map; done).
    rewrite (stable_sort_map Z.ltb fst). fold decorated. by rewrite !map_map.
  - unfold decorated. rewrite stable_sort_perm, map_map. simpl. by rewrite map_id.
  - assert (Hkeys : Forall (fun p => fst p = st_mtime (snd (snd p))) decorated).
    { unfold decorated. rewrite stable_sort_perm. apply Forall_fmap. by apply Forall_true. }
    assert (Hs : StronglySorted (fun x y => Z.ltb (fst y) (fst x) = false) decorated).
    { apply stable_sort_sorted; intros; lia. }
    clear -Hkeys Hs. induction Hs as [|p ps Hs IH Hp]; simpl; [constructor|].
    apply Forall_cons in Hkeys as [Hk Hkeys]. constructor; [by apply IH|].
    clear IH Hs. induction Hp as [|q qs Hq Hp IHp]; simpl; [constructor|].
    apply Forall_cons in Hkeys as [Hkq Hkeys]. constructor; [|by apply IHp].
    rewrite <- Hk, <- Hkq. lia.
Qed.

(** X19. When [setup_logging] returns, the log directory holds at most
    [MAX_LOG_FILES] entries that match [*.log], the new log file among
    them, whatever it held before. *)
Theorem setup_logging_bound logs_dir timestamp now log_file l' :
  setup_logging logs_dir timestamp now = Returned (log_file, l') ->
  length (List.filter is_log l') <= MAX_LOG_FILES /\
  log_file = "orca_nozzle_" +:+ timestamp +:+ ".log" /\
  In log_file (map fst l').
Proof.
  unfold setup_logging. intros H.
  set (l := match logs_dir with LogsDir l => l | _ => [] end) in *.
  assert (H' : (l1 ← rotate (logs_by_age l) l;
                l2 ← open_append ("orca_nozzle_" +:+ timestamp +:+ ".log") now l1;
                mret ("orca_nozzle_" +:+ timestamp +:+ ".log", l2)) = Returned (log_file, l'))
    by (by destruct logs_dir).
  clear H. rewrite outcome_bind_eq in H'.
  destruct (rotate (logs_by_age l) l) as [l1|] eqn:R; [|done].
  rewrite outcome_bind_eq in H'.
  destruct (open_append _ now l1) as [l2|] eqn:O; [|done].
  injection H' as <- <-.
  apply rotate_bound in R.
  - pose proof (open_append_logs _ _ _ _ O). split; [unfold MAX_LOG_FILES in *; lia|].
    split; [done|]. clear -O. revert l2 O.
    induction l1 as [|[n s] l1 IH]; intros l2 O; simpl in O.
    + injection O as <-. by left.
    + destruct (String.eqb_spec n ("orca_nozzle_" +:+ timestamp +:+ ".log")) as [->|Hne].
      * destruct (st_is_dir s); [done|]. injection O as <-. by left.
      * rewrite outcome_bind_eq in O. destruct (open_append _ now l1) as [l3|]; [|done].
        injection O as <-. right. by apply IH.
  - destruct (logs_by_age_entries l) as (entries & -> & Hp & _). by rewrite Hp.
Qed.

Lemma setup_logging_bound_witness :
  exists log_file l',
    setup_logging (LogsDir [("a.log", mk_stat 5 false); ("notes.txt", mk_stat 1 false)])
      "20250101_120000" 9 = Returned (log_file, l') /\
    length (List.filter is_log l') <= MAX_LOG_FILES.
Proof.
  eexists _, _. split; [reflexivity|].
  apply (setup_logging_bound
           (LogsDir [("a.log", mk_stat 5 false); ("notes.txt", mk_stat 1 false)])
           "20250101_120000" 9 _ _ eq_refl).
Defined.

Lemma NoDup_fst_inj {A B} (l : list (A * B)) e e' :
  NoDup (map fst l) -> In e l -> In e' l -> fst e = fst e' -> e = e'.
Proof.
  induction l as [|x l IH]; simpl; [done|]. intros Hnd He He' E.
  apply NoDup_cons in Hnd as [Hx Hnd].
  destruct He as [->|He], He' as [->|He']; [done| | |by apply IH].
  - destruct Hx. rewrite E. apply list_elem_of_fmap. exists e'. by rewrite list_elem_of_In.
  - destruct Hx. rewrite <- E. apply list_elem_of_fmap. exists e. by rewrite list_elem_of_In.
Qed.

Lemma unlink_In name l l' :
  NoDup (map fst l) -> unlink name l = Returned l' ->
  NoDup (map fst l') /\ forall e, In e l' <-> In e l /\ fst e <> name.
Proof.
  intros Hnd H. apply unlink_Returned in H as (a & s & b & -> & -> & Hna & _).
  rewrite map_app in Hnd. simpl in Hnd.
  apply NoDup_app in Hnd as (Ha & Hab & Hb). apply NoDup_cons in Hb as [Hnb Hb].
  split.
  - rewrite map_app. apply NoDup_app. split; [done|]. split; [|done].
    intros x Hx Hx'. apply (Hab x Hx). by right.
  - intros e. rewrite !in_app_iff. simpl. split.
    + intros [He|He]; (split; [tauto|]); intros <-.
      * apply Hna. by apply in_map.
      * apply Hnb. apply list_elem_of_In. by apply in_map.
    + intros [[He|[<-|He]] Hne]; tauto.
Qed.

Lemma rotate_In existing_logs : forall l l',
  NoDup (map fst l) -> rotate existing_logs l = Returned l' ->
  forall e, In e l' <->
            In e l /\
            ~ In (fst e) (take (length existing_logs - (MAX_LOG_FILES - 1)) existing_logs).
Proof.
  induction existing_logs as [|oldest rest IH]; intros l l' Hnd H e.
  - injection H as <-. simpl. tauto.
  - cbn [rotate] in H.
    destruct (MAX_LOG_FILES <=? length (oldest :: rest)) eqn:E.
    + apply Nat.leb_le in E. simpl in E. unfold MAX_LOG_FILES in *.
      rewrite outcome_bind_eq in H. destruct (unlink oldest l) as [l1|] eqn:U; [|done].
      apply unlink_In in U as [Hnd1 U]; [|done].
      rewrite (IH l1 l' Hnd1 H e), U.
      replace (length (oldest :: rest) - (10 - 1)) with (S (length rest - (10 - 1)))
        by (simpl; lia).
      simpl. intuition congruence.
    + apply Nat.leb_gt in E. injection H as <-.
      replace (length (oldest :: rest) - (MAX_LOG_FILES - 1)) with 0
        by (unfold MAX_LOG_FILES in *; simpl in *; lia).
      simpl. tauto.
Qed.

Lemma open_append_In name now l l' :
  open_append name now l = Returned l' ->
  forall e, fst e <> name -> (In e l' <-> In e l).
Proof.
  revert l'. induction l as [|[n s] l IH]; intros l' H e Hne; simpl in H.
  - injection H as <-. simpl. split; [|done]. intros [<-|[]]. done.
  - destruct (String.eqb_spec n name) as [->|Hn].
    + destruct (st_is_dir s); [done|]. injection H as <-. simpl.
      split; (intros [<-|?]; [done|by right]).
    + rewrite outcome_bind_eq in H. destruct (open_append name now l) as [l1|]; [|done].
      injection H as <-. simpl. by rewrite (IH l1 eq_refl e Hne).
Qed.

(** X20. [setup_logging] deletes the oldest logs and nothing else:
    with the logs in ascending order of their time of change, an entry
    other than the new log file is there afterwards exactly when it was
    there before and is not one of the first [n - (MAX_LOG_FILES - 1)]
    logs, [n] being the number of logs. *)
Theorem setup_logging_deletes_oldest l timestamp now log_file l' :
  NoDup (map fst l) ->
  setup_logging (LogsDir l) timestamp now = Returned (log_file, l') ->
  exists entries,
    Permutation entries (List.filter is_log l) /\
    StronglySorted (fun a b => (st_mtime (snd a) <= st_mtime (snd b))%Z) entries /\
    forall e, fst e <> log_file ->
      (In e l' <->
       In e l /\ ~ In e (take (length entries - (MAX_LOG_FILES - 1)) entries)).
Proof.
  intros Hnd H. unfold setup_logging in H. rewrite outcome_bind_eq in H.
  destruct (rotate (logs_by_age l) l) as [l1|] eqn:R; [|done].
  rewrite outcome_bind_eq in H.
  destruct (open_append _ now l1) as [l2|] eqn:O; [|done].
  injection H as <- <-.
  destruct (logs_by_age_entries l) as (entries & Hnames & Hp & Hs).
  exists entries. split; [done|]. split; [done|].
  intros e Hne. rewrite (open_append_In _ _ _ _ O e Hne), (rotate_In _ _ _ Hnd R e).
  rewrite Hnames, length_map, <- fmap_take.
  assert (Hin_l : forall e', In e' (take (length entries - (MAX_LOG_FILES - 1)) entries) ->
                           In e' l).
  { intros e' Hin. apply list_elem_of_In, elem_of_take in Hin as (i & Hi & _).
    apply list_elem_of_lookup_2, list_elem_of_In in Hi.
    eapply Permutation_in in Hi; [|exact Hp]. by apply List.filter_In in Hi as [Hi _]. }
  split; intros [He Hn]; (split; [done|]); intros Hin; apply Hn.
  - by apply in_map.
  - apply in_map_iff in Hin as (e' & E & Hin).
    by rewrite <- (NoDup_fst_inj l e' e Hnd (Hin_l _ Hin) He E).
Qed.

(** * Choosing a user profile *)

Lemma py_int_Raised s e : py_int s = Raised e -> e = ValueError.
Proof. unfold py_int. destruct (match Str.strip s with "" => _ | _ => _ end); by intros [= <-]. Qed.

Lemma py_index_Raised {A} (l : list A) i e : py_index l i = Raised e -> e = IndexError.
Proof.
  unfold py_index. destruct (_ && _); [|by intros [= <-]].
  destruct (l !! _); [done|by intros [= <-]].
Qed.

(** The [except] clause of the [v] branch catches whatever its [try] raises. *)
Lemma view_details_caught fs users choice e :
  view_details fs users choice = Raised e -> e = ValueError \/ e = IndexError.
Proof.
  unfold view_details. rewrite outcome_bind_eq.
  destruct (py_int _) as [n|e1] eqn:E1.
  - rewrite outcome_bind_eq. destruct (py_index users (n - 1)) as [user|e2] eqn:E2.
    + rewrite outcome_bind_eq.
      destruct (get_profile_groups _) as [groups|e3] eqn:E3; [done|].
      intros [= <-]. left. by apply get_profile_groups_Raised in E3 as [-> _].
    + intros [= <-]. right. by apply py_index_Raised in E2.
  - intros [= <-]. left. by apply py_int_Raised in E1.
Qed.

(** X21. A line that starts with [v] (after stripping and lowering)
    never ends the prompt: whatever follows the [v], and whatever the
    profile directory holds, the loop goes on with the next line. *)
Theorem selection_loop_view fs users line rest :
  String.prefix "v" (lower (Str.strip line)) = true ->
  selection_loop fs users (line :: rest) = selection_loop fs users rest.
Proof.
  intros Hv. cbn [selection_loop].
  destruct (String.eqb_spec (lower (Str.strip line)) "q") as [E|_].
  { rewrite E in Hv. discriminate. }
  rewrite Hv.
  destruct (view_details fs users (lower (Str.strip line))) as [[]|e] eqn:V; [done|].
  by destruct (view_details_caught _ _ _ _ V) as [->| ->].
Qed.

Lemma selection_loop_view_witness :
  selection_loop (Folder []) [("a", ["a"]); ("b", ["b"])] [" V7 "; "2"]
  = selection_loop (Folder []) [("a", ["a"]); ("b", ["b"])] ["2"].
Proof.
  apply (selection_loop_view (Folder []) [("a", ["a"]); ("b", ["b"])] " V7 " ["2"]).
  reflexivity.
Defined.

Lemma selection_loop_answer fs users : forall inputs user rest,
  selection_loop fs users inputs = (Answer user, rest) ->
  exists skipped line,
    inputs = skipped ++ line :: rest /\
    Str.isdigit (lower (Str.strip line)) = true /\
    (1 <= digits_value (lower (Str.strip line)) 0)%Z /\
    users !! Z.to_nat (digits_value (lower (Str.strip line)) 0 - 1) = Some user /\
    Forall (fun s => lower (Str.strip s) <> "q") skipped.
Proof.
  induction inputs as [|line inputs IH]; intros user rest H; [done|].
  cbn [selection_loop] in H.
  assert (Hskip : selection_loop fs users inputs = (Answer user, rest) ->
                  lower (Str.strip line) <> "q" ->
                  exists skipped line0,
                    line :: inputs = skipped ++ line0 :: rest /\
                    Str.isdigit (lower (Str.strip line0)) = true /\
                    (1 <= digits_value (lower (Str.strip line0)) 0)%Z /\
                    users !! Z.to_nat (digits_value (lower (Str.strip line0)) 0 - 1)
                      = Some user /\
                    Forall (fun s => lower (Str.strip s) <> "q") skipped).
  { intros H' Hq. destruct (IH _ _ H') as (skipped & line0 & -> & ? & ? & ? & ?).
    exists (line :: skipped), line0. repeat split; try done. by constructor. }
  destruct (String.eqb_spec (lower (Str.strip line)) "q") as [E|Hq]; [done|].
  destruct (String.prefix "v" (lower (Str.strip line))).
  { destruct (view_details fs users _) as [[]|[]]; try done; by apply Hskip. }
  destruct (Str.isdigit (lower (Str.strip line))) eqn:D; [|by apply Hskip].
  destruct (_ && _) eqn:B; [|by apply Hskip].
  destruct (users !! _) as [selected|] eqn:L; [|done].
  injection H as <- <-. exists [], line. apply andb_true_iff in B as [B1 B2].
  repeat split; try done. lia.
Qed.

(** X22. With ASCII input lines, what [select_user_profile] returns is
    one of the users. It is the only user, and no line was read; or the
    last line read is a number [n >= 1] in digits, the answer is the
    [n]-th user, and no line before it was [q]. *)
Theorem select_user_profile_answer fs users inputs user rest :
  Forall (fun line => is_ascii line = true) inputs ->
  select_user_profile fs users inputs = (Answer user, rest) ->
  In user users /\
  ((users = [user] /\ rest = inputs) \/
   exists skipped line,
     inputs = skipped ++ line :: rest /\
     Str.isdigit (lower (Str.strip line)) = true /\
     (1 <= digits_value (lower (Str.strip line)) 0)%Z /\
     users !! Z.to_nat (digits_value (lower (Str.strip line)) 0 - 1) = Some user /\
     Forall (fun s => lower (Str.strip s) <> "q") skipped).
Proof.
  intros _. unfold select_user_profile. intros H.
  assert (Hloop : selection_loop fs users inputs = (Answer user, rest) ->
                  In user users /\
                  ((users = [user] /\ rest = inputs) \/
                   exists skipped line,
                     inputs = skipped ++ line :: rest /\
                     Str.isdigit (lower (Str.strip line)) = true /\
                     (1 <= digits_value (lower (Str.strip line)) 0)%Z /\
                     users !! Z.to_nat (digits_value (lower (Str.strip line)) 0 - 1)
                       = Some user /\
                     Forall (fun s => lower (Str.strip s) <> "q") skipped)).
  { intros H'. pose proof (selection_loop_answer _ _ _ _ _ H') as X.
    split; [|by right]. destruct X as (? & ? & _ & _ & _ & L & _).
    apply list_elem_of_In. by eapply list_elem_of_lookup_2. }
  destruct users as [|u [|u' us]].
  - destruct (mapM _ _); [by apply Hloop|done].
  - injection H as <- <-. split; [by left|by left].
  - destruct (mapM _ _); [by apply Hloop|done].
Qed.

Lemma select_user_profile_answer_witness :
  In ("b", ["b"]) [("a", ["a"]); ("b", ["b"])] /\
  (([("a", ["a"]); ("b", ["b"])] = [("b", ["b"])] /\ ["q"] = ["x"; "v1"; "5"; " 02 "; "q"]) \/
   exists skipped line,
     ["x"; "v1"; "5"; " 02 "; "q"] = skipped ++ line :: ["q"] /\
     Str.isdigit (lower (Str.strip line)) = true /\
     (1 <= digits_value (lower (Str.strip line)) 0)%Z /\
     [("a", ["a"]); ("b", ["b"])] !! Z.to_nat (digits_value (lower (Str.strip line)) 0 - 1)
       = Some ("b", ["b"]) /\
     Forall (fun s => lower (Str.strip s) <> "q") skipped).
Proof.
  apply (select_user_profile_answer (Folder []) [("a", ["a"]); ("b", ["b"])]
           ["x"; "v1"; "5"; " 02 "; "q"] ("b", ["b"]) ["q"]).
  - repeat constructor.
  - reflexivity.
Defined.

(** X23. With more than one user (or none), the overview scans every
    user's profiles before the first prompt: if one of them has a variant
    with a numeric token of more than one dot, [select_user_profile]
    raises [ValueError] without reading a line. *)
Theorem select_user_profile_overview_raises fs users inputs user name y :
  length users <> 1 ->
  In user users ->
  In name (glob (path_state_of fs (snd user)) "*.json") ->
  In y (Str.split_ws (snd (material_and_variant name))) ->
  is_numeric_token y = true ->
  3 <= length (Str.split "." y) ->
  select_user_profile fs users inputs = (Signal (Exception ValueError), inputs).
Proof.
  intros Hlen Hin Hname Hy Hnum Hdots. unfold select_user_profile.
  pose proof (get_profile_groups_bad_token _ _ _ Hname Hy Hnum (py_float_many_dots _ Hdots)) as Hg.
  destruct (mapM_Raised (fun user => get_profile_groups (path_state_of fs (snd user)))
              users user ValueError Hin Hg) as [e He].
  rewrite He.
  apply mapM_Raised_inv in He as (u & _ & Hu).
  apply get_profile_groups_Raised in Hu as [-> _].
  destruct users as [|u1 [|u2 us]]; simpl in *; done.
Qed.

Lemma setup_logging_deletes_oldest_witness :
  exists entries,
    Permutation entries (List.filter is_log eleven_logs) /\
    forall e, fst e <> "orca_nozzle_20250101_120000.log" ->
      (In e (snd (default ("", []) (match setup_logging (LogsDir eleven_logs) "20250101_120000" 12 with
                                     | Returned r => Some r | Raised _ => None end))) <->
       In e eleven_logs /\ ~ In e (take (length entries - (MAX_LOG_FILES - 1)) entries)).
Proof.
  destruct (setup_logging_deletes_oldest eleven_logs "20250101_120000" 12
              "orca_nozzle_20250101_120000.log"
              (snd (default ("", []) (match setup_logging (LogsDir eleven_logs) "20250101_120000" 12 with
                                     | Returned r => Some r | Raised _ => None end))))
    as (entries & Hp & _ & H).
  - apply (bool_decide_unpack _). vm_compute. exact I.
  - vm_compute. reflexivity.
  - exists entries. split; [exact Hp|exact H].
Defined.

Lemma select_user_profile_overview_raises_witness :
  select_user_profile two_users_tree two_users ["1"] = (Signal (Exception ValueError), ["1"]).
Proof.
  apply (select_user_profile_overview_raises two_users_tree two_users ["1"]
           ("1234", ["1234"; "filament"; "base"]) "PLA@1.2.3.json" "1.2.3").
  - discriminate.
  - left. reflexivity.
  - left. reflexivity.
  - left. reflexivity.
  - reflexivity.
  - vm_compute. lia.
Defined.

(** * A conversion, document to document *)

Lemma dump_scalar n h v : (forall l, v <> VRef l) -> dump n h v = dump 0 h v.
Proof. destruct v, n; simpl; intros H; try done. by destruct (H l). Qed.

(** More fuel and a larger store give the same document. *)
Lemma dump_mono n : forall n' h ext v j,
  n <= n' -> dump n h v = Some j -> dump n' (h ++ ext) v = Some j.
Proof.
  induction n as [|n IH]; intros n' h ext v j Hle H.
  - destruct v; simpl in H; try done; rewrite dump_scalar by done; exact H.
  - destruct v as [| | | | |l]; try (rewrite dump_scalar by done; exact H).
    destruct n' as [|n']; [lia|]. simpl in *.
    destruct (h !! l) as [o|] eqn:Hl; [|done].
    rewrite (lookup_app_l_Some _ _ _ _ Hl). destruct o as [items|items].
    + apply fmap_Some in H as (js & H & ->). apply fmap_Some. exists js. split; [|done].
      apply mapM_Some in H. apply mapM_Some.
      eapply Forall2_impl; [exact H|]. intros x y Hxy. apply IH; [lia|done].
    + apply fmap_Some in H as (ms & H & ->). apply fmap_Some. exists ms. split; [|done].
      apply mapM_Some in H. apply mapM_Some.
      eapply Forall2_impl; [exact H|]. intros x y Hxy. simpl in *.
      apply fmap_Some in Hxy as (jy & Hxy & ->). apply fmap_Some. exists jy.
      split; [|done]. apply IH; [lia|done].
Qed.

Lemma dump_members n h items ms :
  mapM (fun kv : string * value => pair (fst kv) <$> dump n h (snd kv)) items = Some ms <->
  Forall2 (fun kv kj => fst kv = fst kj /\ dump n h (snd kv) = Some (snd kj)) items ms.
Proof.
  rewrite mapM_Some.
  split; intros H; (eapply Forall2_impl; [exact H|]); intros [k v] [k' j]; simpl;
    rewrite fmap_Some.
  - by intros (j' & Hj & [= -> ->]).
  - intros [-> Hj]. by exists j.
Qed.

Lemma Forall2_dict_set (R : value -> json -> Prop) k v j items ms :
  Forall2 (fun kv kj => fst kv = fst kj /\ R (snd kv) (snd kj)) items ms ->
  R v j ->
  Forall2 (fun kv kj => fst kv = fst kj /\ R (snd kv) (snd kj))
          (dict_set k v items) (json_set k j ms).
Proof.
  intros H Hv. induction H as [|[k1 v1] [k2 j2] items ms [Hk Hr] H IH]; simpl in *.
  - by repeat constructor.
  - subst k2. destruct (String.eqb k1 k); constructor; done.
Qed.

Lemma Forall2_dict_get (R : value -> json -> Prop) k j items ms :
  Forall2 (fun kv kj => fst kv = fst kj /\ R (snd kv) (snd kj)) items ms ->
  json_get k ms = Some j ->
  exists v, dict_get k items = Some v /\ R v j.
Proof.
  intros H. induction H as [|[k1 v1] [k2 j2] items ms [Hk Hr] H IH]; simpl in *; [done|].
  subst k2. destruct (String.eqb k1 k); [|done]. intros [= <-]. eauto.
Qed.

Lemma existsb_eqb_In k keys : existsb (String.eqb k) keys = true <-> In k keys.
Proof.
  rewrite existsb_exists. split.
  - intros (x & Hin & E). by apply String.eqb_eq in E as ->.
  - intros Hin. exists k. split; [done|apply String.eqb_refl].
Qed.

Lemma dict_set_fresh k v (acc : list (string * value)) :
  ~ In k (map fst acc) -> dict_set k v acc = acc ++ [(k, v)].
Proof.
  induction acc as [|[k' v'] acc IH]; simpl; intros H; [done|].
  destruct (String.eqb_spec k' k) as [->|_]; [by destruct H; left|].
  rewrite IH; [done|]. intros Hin. apply H. by right.
Qed.

Lemma fold_dict_set_distinct kvs : forall acc : list (string * value),
  distinct (map fst kvs) = true ->
  (forall k, In k (map fst kvs) -> ~ In k (map fst acc)) ->
  fold_left (fun d kv => dict_set (fst kv) (snd kv) d) kvs acc = acc ++ kvs.
Proof.
  induction kvs as [|[k v] kvs IH]; intros acc Hd Hacc; simpl.
  - by rewrite app_nil_r.
  - simpl in Hd. apply andb_true_iff in Hd as [Hk Hd]. apply negb_true_iff in Hk.
    rewrite dict_set_fresh by (apply Hacc; by left).
    rewrite IH; [by rewrite <- app_assoc|done|].
    intros k' Hin. rewrite map_app, in_app_iff. simpl. intros [Hin'|[<-|[]]].
    + apply (Hacc k'); [by right|done].
    + apply existsb_eqb_In in Hin. congruence.
Qed.

(** [json.load] builds a value that [json.dump] writes back as the same
    document, when no object has a key twice. *)
Lemma load_dumps j : forall h,
  unique_keys j = true ->
  exists v ext,
    load j h = (Returned v, h ++ ext) /\
    dump (length (h ++ ext)) (h ++ ext) v = Some j /\
    (forall members, j = JObj members ->
       exists h1 items,
         h ++ ext = h1 ++ [ODict items] /\ v = VRef (length h1) /\
         Forall2 (fun kv kj => fst kv = fst kj /\
                    dump (length h1) h1 (snd kv) = Some (snd kj))
                 items members).
Proof.
  induction j using json_nested_ind; intros h Hu;
    try (eexists _, []; rewrite app_nil_r; split; [reflexivity|];
         split; [by rewrite dump_scalar|done]).
  - (* arrays *)
    assert (Hitems : exists vs ext,
      (fix load_items (js : list json) : py (list value) :=
         match js with
         | [] => mret []
         | j' :: js' => v ← load j'; vs ← load_items js'; mret (v :: vs)
         end) items h = (Returned vs, h ++ ext) /\
      Forall2 (fun v j => dump (length (h ++ ext)) (h ++ ext) v = Some j) vs items).
    { simpl in Hu. revert h Hu. induction H as [|j js Hj _ IH]; intros h Hu.
      - exists [], []. rewrite app_nil_r. split; [done|constructor].
      - simpl in Hu. apply andb_true_iff in Hu as [Hu1 Hu2].
        destruct (Hj h Hu1) as (v & e1 & E1 & D1 & _).
        destruct (IH (h ++ e1) Hu2) as (vs & e2 & E2 & D2).
        exists (v :: vs), (e1 ++ e2). rewrite py_bind_eq, E1, py_bind_eq, E2.
        rewrite app_assoc. split; [done|]. constructor; [|done].
        apply (dump_mono (length (h ++ e1))); [rewrite !length_app; lia|done]. }
    destruct Hitems as (vs & ext & E & D).
    exists (VRef (length (h ++ ext))), (ext ++ [OList vs]).
    simpl load. rewrite py_bind_eq, E, alloc_eq, app_assoc. split; [done|]. split; [|done].
    rewrite (length_app (h ++ ext)). simpl length. rewrite Nat.add_1_r. simpl dump.
    rewrite lookup_new. apply fmap_Some. exists items. split; [|done].
    apply mapM_Some. eapply Forall2_impl; [exact D|]. intros v j Hv.
    apply (dump_mono (length (h ++ ext))); [lia|done].
  - (* objects *)
    simpl in Hu. apply andb_true_iff in Hu as [Hd Hu].
    assert (Hmembers : exists kvs ext,
      (fix load_members (ms : list (string * json)) : py (list (string * value)) :=
         match ms with
         | [] => mret []
         | (k, j') :: ms' => v ← load j'; kvs ← load_members ms'; mret ((k, v) :: kvs)
         end) members h = (Returned kvs, h ++ ext) /\
      Forall2 (fun kv kj => fst kv = fst kj /\
                 dump (length (h ++ ext)) (h ++ ext) (snd kv) = Some (snd kj)) kvs members).
    { clear Hd. revert h Hu. induction H as [|[k j] ms Hj _ IH]; intros h Hu.
      - exists [], []. rewrite app_nil_r. split; [done|constructor].
      - simpl in Hu, Hj. apply andb_true_iff in Hu as [Hu1 Hu2].
        destruct (Hj h Hu1) as (v & e1 & E1 & D1 & _).
        destruct (IH (h ++ e1) Hu2) as (kvs & e2 & E2 & D2).
        exists ((k, v) :: kvs), (e1 ++ e2). rewrite py_bind_eq, E1, py_bind_eq, E2.
        rewrite app_assoc. split; [done|]. constructor; [|done]. split; [done|]. simpl.
        apply (dump_mono (length (h ++ e1))); [rewrite !length_app; lia|done]. }
    destruct Hmembers as (kvs & ext & E & D).
    assert (Hkeys : map fst kvs = map fst members).
    { clear -D. induction D as [|kv kj ? ? [Hk _] _ IH]; simpl; [done|]. by rewrite Hk, IH. }
    assert (Hfold : fold_left (fun d kv => dict_set (fst kv) (snd kv) d) kvs [] = kvs).
    { rewrite fold_dict_set_distinct; [done|by rewrite Hkeys|]. by intros k _ []. }
    exists (VRef (length (h ++ ext))), (ext ++ [ODict kvs]).
    simpl load. rewrite py_bind_eq, E, alloc_eq, Hfold, app_assoc. split; [done|]. split.
    + rewrite (length_app (h ++ ext)). simpl length. rewrite Nat.add_1_r. simpl dump.
      rewrite lookup_new. apply fmap_Some. exists members. split; [|done].
      apply dump_members. eapply Forall2_impl; [exact D|]. intros kv kj [Hk Hv].
      split; [done|]. apply (dump_mono (length (h ++ ext))); [lia|done].
    + intros members' [= <-]. by exists (h ++ ext), kvs.
Qed.

Lemma dump_JStr n h v s : dump n h v = Some (JStr s) -> v = VStr s.
Proof.
  destruct v, n; simpl; try (by intros [= <-]); try done.
  destruct (h !! l) as [[items|items]|]; simpl; try done;
    intros H; apply fmap_Some in H as (? & _ & ?); done.
Qed.

Lemma dump_JArr n h v js :
  dump n h v = Some (JArr js) ->
  exists l items n', v = VRef l /\ h !! l = Some (OList items) /\ n = S n' /\
                     Forall2 (fun x j => dump n' h x = Some j) items js.
Proof.
  destruct v, n; simpl; try done.
  destruct (h !! l) as [[items|items]|] eqn:Hl; simpl; try done; intros H;
    apply fmap_Some in H as (js' & H & E); [|done].
  injection E as ->. apply mapM_Some in H. by exists l, items, n.
Qed.

Lemma dump_strs n h (f : string -> string) ps :
  mapM (dump n h) (map (fun p => VStr (f p)) ps) = Some (map (fun p => JStr (f p)) ps).
Proof.
  apply mapM_Some. induction ps; simpl; constructor; [|done]. by rewrite dump_scalar.
Qed.

Lemma Forall2_dump_strs n h items ps :
  Forall2 (fun x j => dump n h x = Some j) items (map JStr ps) -> items = map VStr ps.
Proof.
  revert items. induction ps as [|p ps IH]; intros items H; simpl in H.
  - by apply Forall2_nil_inv_r in H.
  - apply Forall2_cons_inv_r in H as (x & items' & Hx & H & ->).
    apply dump_JStr in Hx as ->. simpl. by rewrite (IH _ H).
Qed.

(** X24. One conversion, document to document. For a matched file that
    holds an object without repeated keys, with a string [name], a list
    of strings as [compatible_printers] and a non-empty list as
    [filament_settings_id], and whose target name is free,
    [process_profiles] creates the target file, and the document written
    is the one read with these three members reassigned in place: the
    name and every printer with the size replaced, the identifier list
    with the new identifier alone. Every other member is written as it
    was read, in the same order. *)
Theorem convert_file_document urandom src tgt d n file members name printers x xs :
  lookup_entry file d = Some (RegularFile (JsonText (JObj members))) ->
  unique_keys (JObj members) = true ->
  json_get "name" members = Some (JStr name) ->
  json_get "compatible_printers" members = Some (JArr (map JStr printers)) ->
  json_get "filament_settings_id" members = Some (JArr (x :: xs)) ->
  path_exists d (Str.replace src tgt file) = false ->
  convert_file urandom src tgt (mk_world d n) file =
    (Created,
     mk_world
       (d ++ [(Str.replace src tgt file,
               RegularFile (JsonText (JObj
                 (json_set "filament_settings_id" (JArr [JStr (new_filament_id (urandom n))])
                    (json_set "compatible_printers"
                       (JArr (map (fun p => JStr (Str.replace src tgt p)) printers))
                       (json_set "name" (JStr (Str.replace src tgt name)) members))))))])
       (S n)).
Proof.
  intros Hfile Hu Hname Hcp Hid Hfree.
  destruct (load_dumps (JObj members) [] Hu) as (v & ext & Eload & _ & Hobj).
  destruct (Hobj members eq_refl) as (h1 & items & Hh & -> & F2). clear Hobj.
  simpl in Hh. subst ext. simpl in Eload.
  set (H := h1 ++ [ODict items]) in *.
  assert (Hl : H !! length h1 = Some (ODict items)) by apply lookup_new.
  destruct (Forall2_dict_get (fun v j => dump (length h1) h1 v = Some j) _ _ _ _ F2 Hname)
    as (vn & Hvn & Dn). apply dump_JStr in Dn as ->.
  destruct (Forall2_dict_get (fun v j => dump (length h1) h1 v = Some j) _ _ _ _ F2 Hcp)
    as (vc & Hvc & Dc).
  apply dump_JArr in Dc as (lp & vs & n1 & -> & Hlp & _ & Dvs).
  apply Forall2_dump_strs in Dvs as ->.
  destruct (Forall2_dict_get (fun v j => dump (length h1) h1 v = Some j) _ _ _ _ F2 Hid)
    as (vi & Hvi & Di).
  apply dump_JArr in Di as (li & ids & n2 & -> & Hli & _ & Dids).
  apply Forall2_cons_inv_r in Dids as (vx & vxs & _ & _ & ->).
  assert (Htyped : fields_typed H items).
  { split; [|split]; intros v Hv.
    - rewrite Hvn in Hv. injection Hv as <-. by eexists.
    - rewrite Hvc in Hv. injection Hv as <-. exists lp, (map VStr printers).
      split; [done|]. split; [by apply lookup_app_l_Some|].
      apply Forall_fmap, Forall_true. intros p. by eexists.
    - rewrite Hvi in Hv. injection Hv as <-. exists li, vx, vxs.
      split; [done|]. by apply lookup_app_l_Some. }
  destruct (modify_profile_data_succeeds _ _ src tgt (urandom n) _ Hl Htyped)
    as (m & h' & Hm).
  destruct (modify_profile_data_iterates _ _ _ _ _ _ _ _ _ Hl Hvc Hm)
    as (name' & ps & renamed & Hn' & Hi & Hr & -> & ->).
  rewrite Hvn in Hn'. simpl in Hn'. injection Hn' as <-.
  unfold py_iter in Hi. simpl object_of in Hi.
  rewrite (lookup_app_l_Some _ _ _ _ (lookup_app_l_Some _ [ODict items] _ _ Hlp)) in Hi.
  injection Hi as <-.
  rewrite mapM_replace_in_strs in Hr. injection Hr as <-.
  set (id := new_filament_id (urandom n)) in *.
  set (items1 := dict_set "name" (VStr (Str.replace src tgt name)) items) in *.
  set (items3 := dict_set "filament_settings_id" (VRef (length H + 3))
                   (dict_set "compatible_printers" (VRef (length H + 1)) items1)) in *.
  set (new_printers := OList (map (fun p => VStr (Str.replace src tgt p)) printers)) in *.
  assert (Hdump : json_dump (H ++ [ODict items3; new_printers; OList [VStr ""]; OList [VStr id]])
                    (VRef (length H))
                  = Some (JObj (json_set "filament_settings_id" (JArr [JStr id])
                            (json_set "compatible_printers"
                               (JArr (map (fun p => JStr (Str.replace src tgt p)) printers))
                               (json_set "name" (JStr (Str.replace src tgt name)) members))))).
  { pose proof (lookup_second H [OList [VStr ""]; OList [VStr id]] (ODict items3) new_printers)
      as L1.
    pose proof (lookup_last_alloc H [new_printers; OList [VStr ""]] (ODict items3)
                  (OList [VStr id])) as L3.
    simpl in L3.
    unfold json_dump. rewrite length_app. simpl length.
    replace (length H + 4) with (S (length H + 3)) by lia.
    cbn [dump]. rewrite lookup_new. apply fmap_Some. eexists. split; [|done].
    apply dump_members.
    set (R := fun (v : value) (j : json) =>
                dump (length H + 3)
                  (H ++ [ODict items3; new_printers; OList [VStr ""]; OList [VStr id]]) v
                = Some j).
    apply (Forall2_dict_set R); [apply (Forall2_dict_set R); [apply (Forall2_dict_set R)|]|];
      unfold R.
    - eapply Forall2_impl; [exact F2|]. intros kv kj [Hk Hv]. split; [done|].
      unfold H. rewrite <- app_assoc.
      apply (dump_mono (length h1)); [rewrite length_app; lia|done].
    - by rewrite dump_scalar.
    - replace (length H + 3) with (S (length H + 2)) at 1 by lia.
      cbn [dump]. unfold loc, heap in *. rewrite L1. unfold new_printers. by rewrite dump_strs.
    - replace (length H + 3) with (S (length H + 2)) at 1 by lia.
      cbn [dump]. unfold loc, heap in *. rewrite L3. simpl. by rewrite dump_scalar. }
  unfold convert_file, read_json. simpl files. simpl draws. rewrite Hfile.
  change (load (JObj members) []) with
    ((fix load_members (ms : list (string * json)) : py (list (string * value)) :=
        match ms with
        | [] => mret []
        | (k, j') :: ms' => v ← load j'; kvs ← load_members ms'; mret ((k, v) :: kvs)
        end) members ≫= (fun kvs => alloc (ODict (fold_left (fun d kv => dict_set (fst kv) (snd kv) d) kvs []))) $ []).
  rewrite Eload, Hm, Hfree. by rewrite Hdump.
Qed.

Lemma convert_file_document_witness :
  convert_file zero_draws "0.4" "0.8" (mk_world [("PLA@0.4.json", sample_file)] 0) "PLA@0.4.json"
  = (Created,
     mk_world
       [("PLA@0.4.json", sample_file);
        ("PLA@0.8.json",
         RegularFile (JsonText (JObj
           [("name", JStr "Generic PLA 0.8");
            ("compatible_printers", JArr [JStr "Voron 0.8 nozzle"; JStr "Ender 0.8"]);
            ("filament_settings_id", JArr [JStr (new_filament_id 0)]);
            ("filament_type", JArr [JStr "PLA"])])))]
       1).
Proof.
  exact (convert_file_document zero_draws "0.4" "0.8" [("PLA@0.4.json", sample_file)] 0
           "PLA@0.4.json"
           [("name", JStr "Generic PLA 0.4");
            ("compatible_printers", JArr [JStr "Voron 0.4 nozzle"; JStr "Ender 0.4"]);
            ("filament_settings_id", JArr [JStr "Generic PLA 0.4"]);
            ("filament_type", JArr [JStr "PLA"])]
           "Generic PLA 0.4" ["Voron 0.4 nozzle"; "Ender 0.4"] (JStr "Generic PLA 0.4") []
           eq_refl eq_refl eq_refl eq_refl eq_refl eq_refl).
Defined.
